(** * littlefish.timetool: timestamps, zones and calendar arithmetic

    A shallow embedding of [timetool.py] together with the parts of the
    Python runtime it calls: [datetime] (proleptic Gregorian dates,
    range-checked constructors, ordinals, [timedelta] arithmetic),
    [calendar.monthrange], [bisect.bisect_right] and the [pytz] zone
    objects ([pytz.utc] and a [DstTzInfo] built from a transition table).

    Integers are [Z] (Python's [int] is unbounded), a raised exception is
    the [Raise] branch of [result], and a [timedelta] is its total number
    of microseconds. *)

From Stdlib Require Import ZArith List String Ascii Bool Lia.
Import ListNotations.
Open Scope string_scope.
Open Scope Z_scope.

(** ** Values *)

(** A [tzinfo] object as far as this module can observe it: the [zone]
    attribute (present on [pytz] zones, absent on other [tzinfo]
    classes), and the fixed offset, DST offset and name that a [pytz]
    instance carries.  Offsets are in microseconds. *)
Record tzinfo : Type := mk_tzinfo {
  tz_zone : option string;
  tz_utcoffset : Z;
  tz_dst : Z;
  tz_tzname : string
}.

Record date : Type := mk_date {
  d_year : Z;
  d_month : Z;
  d_day : Z
}.

Record datetime : Type := mk_datetime {
  year : Z;
  month : Z;
  day : Z;
  hour : Z;
  minute : Z;
  second : Z;
  microsecond : Z;
  dt_tzinfo : option tzinfo
}.

(** ** Exceptions and results *)

(** The exception classes that can reach a caller of this module.
    [Exception_ fmt arg] is the bare [Exception(fmt % arg)] raised by the
    zone checks; [RecursionError] is what the interpreter raises when a
    recursive call exceeds its depth limit. *)
Inductive exn : Type :=
| ValueError
| OverflowError
| AttributeError
| IndexError
| RecursionError
| Exception_ (fmt : string) (arg : datetime).

Inductive result (A : Type) : Type :=
| Ok (a : A)
| Raise (e : exn).

Arguments Ok {A} a.
Arguments Raise {A} e.

Definition bind {A B : Type} (r : result A) (k : A -> result B) : result B :=
  match r with
  | Ok a => k a
  | Raise e => Raise e
  end.

Notation "x <- r ;; k" := (bind r (fun x => k))
  (at level 61, r at next level, right associativity).
Notation "' p <- r ;; k" := (bind r (fun x => let p := x in k))
  (at level 61, p pattern, r at next level, right associativity).

(** [try: r except ValueError: h]: only a [ValueError] is handled, every
    other exception keeps propagating. *)
Definition try_except_ValueError {A : Type} (r : result A) (h : result A)
  : result A :=
  match r with
  | Raise ValueError => h
  | _ => r
  end.

Definition is_ok {A : Type} (r : result A) : bool :=
  match r with Ok _ => true | Raise _ => false end.

(** ** The [datetime] module *)

Definition MINYEAR : Z := 1.
Definition MAXYEAR : Z := 9999.
Definition _MAXORDINAL : Z := 3652059.

Definition _DAYS_IN_MONTH : list Z :=
  [-1; 31; 28; 31; 30; 31; 30; 31; 31; 30; 31; 30; 31].

Definition _DAYS_BEFORE_MONTH : list Z :=
  [-1; 0; 31; 59; 90; 120; 151; 181; 212; 243; 273; 304; 334].

Definition _is_leap (year : Z) : bool :=
  (year mod 4 =? 0) && (negb (year mod 100 =? 0) || (year mod 400 =? 0)).

Definition _days_before_year (year : Z) : Z :=
  let y := year - 1 in
  y * 365 + y / 4 - y / 100 + y / 400.

Definition _days_in_month (year month : Z) : Z :=
  if (month =? 2) && _is_leap year then 29
  else nth (Z.to_nat month) _DAYS_IN_MONTH 0.

Definition _days_before_month (year month : Z) : Z :=
  nth (Z.to_nat month) _DAYS_BEFORE_MONTH 0
  + (if (month >? 2) && _is_leap year then 1 else 0).

Definition _ymd2ord (year month day : Z) : Z :=
  _days_before_year year + _days_before_month year month + day.

Definition _DI400Y : Z := 146097.
Definition _DI100Y : Z := 36524.
Definition _DI4Y : Z := 1461.

Definition _ord2ymd (n : Z) : Z * Z * Z :=
  let n := n - 1 in
  let n400 := n / _DI400Y in
  let n := n mod _DI400Y in
  let year := n400 * 400 + 1 in
  let n100 := n / _DI100Y in
  let n := n mod _DI100Y in
  let n4 := n / _DI4Y in
  let n := n mod _DI4Y in
  let n1 := n / 365 in
  let n := n mod 365 in
  let year := year + n100 * 100 + n4 * 4 + n1 in
  if (n1 =? 4) || (n100 =? 4) then (year - 1, 12, 31)
  else
    let leapyear := (n1 =? 3) && (negb (n4 =? 24) || (n100 =? 3)) in
    let month := Z.shiftr (n + 50) 5 in
    let preceding :=
      nth (Z.to_nat month) _DAYS_BEFORE_MONTH 0
      + (if (month >? 2) && leapyear then 1 else 0) in
    let '(month, preceding) :=
      if preceding >? n then
        (month - 1,
         preceding - (nth (Z.to_nat (month - 1)) _DAYS_IN_MONTH 0
                      + (if (month - 1 =? 2) && leapyear then 1 else 0)))
      else (month, preceding) in
    (year, month, n - preceding + 1).

Definition _check_date_fields (year month day : Z) : result unit :=
  if negb ((MINYEAR <=? year) && (year <=? MAXYEAR)) then Raise ValueError
  else if negb ((1 <=? month) && (month <=? 12)) then Raise ValueError
  else
    let dim := _days_in_month year month in
    if negb ((1 <=? day) && (day <=? dim)) then Raise ValueError
    else Ok tt.

Definition _check_time_fields (hour minute second microsecond : Z)
  : result unit :=
  if negb ((0 <=? hour) && (hour <=? 23)) then Raise ValueError
  else if negb ((0 <=? minute) && (minute <=? 59)) then Raise ValueError
  else if negb ((0 <=? second) && (second <=? 59)) then Raise ValueError
  else if negb ((0 <=? microsecond) && (microsecond <=? 999999))
       then Raise ValueError
  else Ok tt.

(** The constructors are implemented in C and take their numbers as C
    [int]s: a number that does not fit raises [OverflowError] before any
    field is checked. *)
Definition INT_MIN : Z := -2147483648.
Definition INT_MAX : Z := 2147483647.

Definition as_c_int (v : Z) : result unit :=
  if (INT_MIN <=? v) && (v <=? INT_MAX) then Ok tt else Raise OverflowError.

Fixpoint as_c_ints (vs : list Z) : result unit :=
  match vs with
  | [] => Ok tt
  | v :: vs' => _ <- as_c_int v ;; as_c_ints vs'
  end.

(** [datetime.date(year, month, day)] *)
Definition date_new (year month day : Z) : result date :=
  _ <- as_c_ints [year; month; day] ;;
  _ <- _check_date_fields year month day ;;
  Ok (mk_date year month day).

(** [datetime.datetime(year, month, day, hour, minute, second,
    microsecond, tzinfo)]; the Python defaults are [0] and [None]. *)
Definition datetime_new (year month day hour minute second microsecond : Z)
    (tz : option tzinfo) : result datetime :=
  _ <- as_c_ints [year; month; day; hour; minute; second; microsecond] ;;
  _ <- _check_date_fields year month day ;;
  _ <- _check_time_fields hour minute second microsecond ;;
  Ok (mk_datetime year month day hour minute second microsecond tz).

(** The values the constructors can build. *)
Definition valid_date (d : date) : Prop :=
  _check_date_fields (d_year d) (d_month d) (d_day d) = Ok tt.

Definition valid_datetime (t : datetime) : Prop :=
  _check_date_fields (year t) (month t) (day t) = Ok tt /\
  _check_time_fields (hour t) (minute t) (second t) (microsecond t) = Ok tt.

Definition date_toordinal (d : date) : Z :=
  _ymd2ord (d_year d) (d_month d) (d_day d).

Definition date_fromordinal (n : Z) : date :=
  let '(y, m, d) := _ord2ymd n in mk_date y m d.

(** [date.weekday()]: Monday is 0, Sunday is 6. *)
Definition date_weekday (d : date) : Z :=
  (date_toordinal d + 6) mod 7.

(** [date + timedelta(days=n)] *)
Definition date_add_days (d : date) (n : Z) : result date :=
  let o := date_toordinal d + n in
  if (0 <? o) && (o <=? _MAXORDINAL) then Ok (date_fromordinal o)
  else Raise OverflowError.

(** *** [timedelta] arithmetic on timestamps *)

Definition US_PER_SECOND : Z := 1000000.
Definition US_PER_DAY : Z := 86400 * US_PER_SECOND.

(** [timedelta(days=d)] and [timedelta(hours=h)], in microseconds. *)
Definition timedelta_days (d : Z) : Z := d * US_PER_DAY.
Definition timedelta_hours (h : Z) : Z := h * 3600 * US_PER_SECOND.

Definition datetime_toordinal (t : datetime) : Z :=
  _ymd2ord (year t) (month t) (day t).

(** Microseconds elapsed since the start of ordinal day 0: the
    [timedelta] that [datetime.__add__] builds from its receiver. *)
Definition datetime_as_delta (t : datetime) : Z :=
  datetime_toordinal t * US_PER_DAY
  + (hour t * 3600 + minute t * 60 + second t) * US_PER_SECOND
  + microsecond t.

(** [datetime.__add__(self, other)] for a [timedelta] [other]; the
    [tzinfo] of the receiver is kept. *)
Definition datetime_add (t : datetime) (other : Z) : result datetime :=
  let delta := datetime_as_delta t + other in
  let days := delta / US_PER_DAY in
  let rest := delta mod US_PER_DAY in
  let seconds := rest / US_PER_SECOND in
  let us := rest mod US_PER_SECOND in
  let hour := seconds / 3600 in
  let rem := seconds mod 3600 in
  let minute := rem / 60 in
  let second := rem mod 60 in
  if (0 <? days) && (days <=? _MAXORDINAL) then
    let '(y, m, d) := _ord2ymd days in
    Ok (mk_datetime y m d hour minute second us (dt_tzinfo t))
  else Raise OverflowError.

(** [datetime.__sub__(self, other)] for a [timedelta] [other] is
    [self + -other]. *)
Definition datetime_sub (t : datetime) (other : Z) : result datetime :=
  datetime_add t (- other).

(** [dt.replace(tzinfo=tz)] *)
Definition replace_tzinfo (t : datetime) (tz : option tzinfo) : datetime :=
  mk_datetime (year t) (month t) (day t) (hour t) (minute t) (second t)
              (microsecond t) tz.

(** Comparison of naive timestamps: the field tuples, lexicographically. *)
Fixpoint lex_compare (a b : list Z) : comparison :=
  match a, b with
  | x :: a', y :: b' =>
      match x ?= y with
      | Eq => lex_compare a' b'
      | c => c
      end
  | [], [] => Eq
  | [], _ :: _ => Lt
  | _ :: _, [] => Gt
  end.

Definition datetime_fields (t : datetime) : list Z :=
  [year t; month t; day t; hour t; minute t; second t; microsecond t].

Definition datetime_cmp (a b : datetime) : comparison :=
  lex_compare (datetime_fields a) (datetime_fields b).

Definition datetime_ltb (a b : datetime) : bool :=
  match datetime_cmp a b with Lt => true | _ => false end.

Definition datetime_eqb (a b : datetime) : bool :=
  match datetime_cmp a b with Eq => true | _ => false end.

(** Equality of two aware timestamps: they denote the same UTC instant. *)
Definition aware_utc_delta (t : datetime) : Z :=
  datetime_as_delta t
  - match dt_tzinfo t with Some tz => tz_utcoffset tz | None => 0 end.

Definition aware_eqb (a b : datetime) : bool :=
  aware_utc_delta a =? aware_utc_delta b.

(** ** [calendar] *)

Definition isleap (year : Z) : bool :=
  (year mod 4 =? 0) && (negb (year mod 100 =? 0) || (year mod 400 =? 0)).

Definition mdays : list Z := [0; 31; 28; 31; 30; 31; 30; 31; 31; 30; 31; 30; 31].

(** [calendar.weekday]: a year outside [MINYEAR..MAXYEAR] is first
    mapped into the 400-year cycle. *)
Definition calendar_weekday (year month day : Z) : result Z :=
  let year :=
    if negb ((MINYEAR <=? year) && (year <=? MAXYEAR))
    then 2000 + year mod 400 else year in
  d <- date_new year month day ;;
  Ok (date_weekday d).

(** [calendar.monthrange(year, month)]: weekday of the first day and
    number of days.  [IllegalMonthError] is a [ValueError]. *)
Definition monthrange (year month : Z) : result (Z * Z) :=
  if negb ((1 <=? month) && (month <=? 12)) then Raise ValueError
  else
    day1 <- calendar_weekday year month 1 ;;
    let ndays :=
      nth (Z.to_nat month) mdays 0
      + (if (month =? 2) && isleap year then 1 else 0) in
    Ok (day1, ndays).

(** ** [bisect] *)

(** [bisect.bisect_right(a, x)] on a sorted list: the number of leading
    entries that [x] is not smaller than. *)
Fixpoint bisect_right (a : list datetime) (x : datetime) : nat :=
  match a with
  | [] => 0%nat
  | y :: a' => if datetime_ltb x y then 0%nat else S (bisect_right a' x)
  end.

(** ** [pytz] *)

(** [pytz.utc] *)
Definition utc : tzinfo := mk_tzinfo (Some "UTC") 0 0 "UTC".

(** [UTC.localize(dt)] *)
Definition utc_localize (dt : datetime) : result datetime :=
  match dt_tzinfo dt with
  | Some _ => Raise ValueError
  | None => Ok (replace_tzinfo dt (Some utc))
  end.

(** [UTC.fromutc(dt)] for an aware [dt]: [tzinfo.fromutc] adds the zero
    offset. *)
Definition utc_fromutc (dt : datetime) : result datetime :=
  datetime_add dt 0.

(** A transition entry [(utcoffset, dst, tzname)]. *)
Definition transition_info : Type := Z * Z * string.

(** A [DstTzInfo] zone: its name, the sorted UTC transition times and,
    for each of them, the entry in force from that time on. *)
Record DstTzInfo : Type := mk_DstTzInfo {
  zone : string;
  _utc_transition_times : list datetime;
  _transition_info : list transition_info
}.

(** [self._tzinfos[inf]]: the instance of the zone that carries [inf]. *)
Definition _tzinfos (self : DstTzInfo) (inf : transition_info) : tzinfo :=
  let '(off, dst, name) := inf in mk_tzinfo (Some (zone self)) off dst name.

(** The zone object itself carries its first entry. *)
Definition self_tzinfo (self : DstTzInfo) : tzinfo :=
  _tzinfos self (hd (0, 0, "") (_transition_info self)).

Definition getitem {A : Type} (l : list A) (i : nat) : result A :=
  match nth_error l i with
  | Some a => Ok a
  | None => Raise IndexError
  end.

(** [self._transition_info[max(0, bisect_right(times, dt) - 1)]] *)
Definition transition_at (self : DstTzInfo) (dt : datetime)
  : result transition_info :=
  let idx := Nat.max 0 (bisect_right (_utc_transition_times self) dt - 1) in
  getitem (_transition_info self) idx.

(** [DstTzInfo.fromutc(dt)].  The test that an attached [tzinfo] belongs
    to this zone is made on the zone name. *)
Definition fromutc (self : DstTzInfo) (dt : datetime) : result datetime :=
  let foreign :=
    match dt_tzinfo dt with
    | Some tz =>
        match tz_zone tz with
        | Some z => negb (String.eqb z (zone self))
        | None => true
        end
    | None => false
    end in
  if foreign then Raise ValueError
  else
    let dt := replace_tzinfo dt None in
    inf <- transition_at self dt ;;
    r <- datetime_add dt (fst (fst inf)) ;;
    Ok (replace_tzinfo r (Some (_tzinfos self inf))).

(** [DstTzInfo.normalize(dt)] *)
Definition normalize (self : DstTzInfo) (dt : datetime) : result datetime :=
  match dt_tzinfo dt with
  | None => Raise ValueError
  | Some tz =>
      let offset := tz_utcoffset tz in
      let dt := replace_tzinfo dt None in
      dt <- datetime_sub dt offset ;;
      fromutc self dt
  end.

(** One round of the loop of [localize]: the entry in force at
    [dt + delta], tried on [dt].  A probe [dt + delta] that leaves the
    range of [datetime] gives no candidate: [localize] returns on the
    first and on the last day of the range too. *)
Definition localize_candidate (self : DstTzInfo) (dt : datetime) (delta : Z)
  : result (option datetime) :=
  match datetime_add dt delta with
  | Raise OverflowError => Ok None
  | Raise e => Raise e
  | Ok loc_dt =>
      inf <- transition_at self loc_dt ;;
      let tzinfo := _tzinfos self inf in
      loc_dt <- normalize self (replace_tzinfo dt (Some tzinfo)) ;;
      if datetime_eqb (replace_tzinfo loc_dt None) dt then Ok (Some loc_dt)
      else Ok None
  end.

(** [set.add] on a set of aware timestamps kept as a list. *)
Definition possible_add (c : option datetime) (s : list datetime)
  : list datetime :=
  match c with
  | None => s
  | Some x => if existsb (aware_eqb x) s then s else s ++ [x]
  end.

(** [dates[max(dates)]]: the candidate that is latest in UTC. *)
Fixpoint latest_by_utc (best : datetime) (l : list datetime) : datetime :=
  match l with
  | [] => best
  | p :: l' =>
      latest_by_utc
        (if aware_utc_delta best <? aware_utc_delta p then p else best) l'
  end.

Definition tz_is_dst (t : datetime) : bool :=
  match dt_tzinfo t with
  | Some tz => negb (tz_dst tz =? 0)
  | None => false
  end.

(** [DstTzInfo.localize(dt, is_dst=False)].  [depth] is the number of
    nested calls the interpreter still allows. *)
Fixpoint localize (depth : nat) (self : DstTzInfo) (dt : datetime)
  : result datetime :=
  match depth with
  | O => Raise RecursionError
  | S depth' =>
      match dt_tzinfo dt with
      | Some _ => Raise ValueError
      | None =>
          c1 <- localize_candidate self dt (timedelta_days (-1)) ;;
          c2 <- localize_candidate self dt (timedelta_days 1) ;;
          let possible_loc_dt := possible_add c2 (possible_add c1 []) in
          match possible_loc_dt with
          | [p] => Ok p
          | [] =>
              back <- datetime_sub dt (timedelta_hours 6) ;;
              r <- localize depth' self back ;;
              datetime_add r (timedelta_hours 6)
          | p0 :: _ =>
              let filtered :=
                filter (fun p => negb (tz_is_dst p)) possible_loc_dt in
              match filtered with
              | [p] => Ok p
              | [] => Ok (latest_by_utc p0 possible_loc_dt)
              | q0 :: _ => Ok (latest_by_utc q0 filtered)
              end
          end
      end
  end.

Definition recursion_limit : nat := 1000.

(** [aware.astimezone(local)] for a [DstTzInfo] zone [local]. *)
Definition astimezone_dst (local : DstTzInfo) (t : datetime)
  : result datetime :=
  match dt_tzinfo t with
  | None => Raise ValueError
  | Some mytz =>
      u <- datetime_sub t (tz_utcoffset mytz) ;;
      fromutc local (replace_tzinfo u (Some (self_tzinfo local)))
  end.

(** [aware.astimezone(pytz.utc)] *)
Definition astimezone_utc (t : datetime) : result datetime :=
  match dt_tzinfo t with
  | None => Raise ValueError
  | Some mytz =>
      u <- datetime_sub t (tz_utcoffset mytz) ;;
      utc_fromutc (replace_tzinfo u (Some utc))
  end.

(** ** Python values seen by [timetool] *)

(** What callers pass where the source says "a date or a timestamp":
    [None], a [datetime.date] or a [datetime.datetime]. *)
Inductive pyvalue : Type :=
| PyNone
| PyDate (d : date)
| PyDatetime (t : datetime).

(** Truth value: [None] is false, dates and timestamps are true. *)
Definition truthy (v : pyvalue) : bool :=
  match v with
  | PyNone => false
  | PyDate _ | PyDatetime _ => true
  end.

(** [hasattr(v, 'tzinfo')] *)
Definition has_tzinfo (v : pyvalue) : bool :=
  match v with
  | PyDatetime _ => true
  | PyNone | PyDate _ => false
  end.

(** A record written through [log.warning(fmt % arg)]. *)
Inductive log_record : Type :=
| Warning (fmt : string) (arg : pyvalue).

(** The wall clock read by [datetime.datetime.utcnow()] and
    [datetime.date.today()]. *)
Record clock : Type := mk_clock {
  utcnow : datetime;
  today : date
}.

(** *** [strftime] *)

Definition digit (n : Z) : ascii := ascii_of_nat (48 + Z.to_nat n).

Fixpoint zero_padded (width : nat) (n : Z) : string :=
  match width with
  | O => ""
  | S w => zero_padded w (n / 10) ++ String (digit (n mod 10)) ""
  end.

Definition day_name : list string :=
  ["Monday"; "Tuesday"; "Wednesday"; "Thursday"; "Friday"; "Saturday";
   "Sunday"].

Definition month_name : list string :=
  [""; "January"; "February"; "March"; "April"; "May"; "June"; "July";
   "August"; "September"; "October"; "November"; "December"].

(** [%Y] as the C library of Linux writes it: the year in decimal,
    without padding, so with fewer than four digits before the year
    1000. *)
Definition year_digits (y : Z) : string :=
  if y <? 10 then zero_padded 1 y
  else if y <? 100 then zero_padded 2 y
  else if y <? 1000 then zero_padded 3 y
  else zero_padded 4 y.

Definition directive (c : ascii) (t : datetime) : string :=
  if Ascii.eqb c "d" then zero_padded 2 (day t)
  else if Ascii.eqb c "m" then zero_padded 2 (month t)
  else if Ascii.eqb c "Y" then year_digits (year t)
  else if Ascii.eqb c "H" then zero_padded 2 (hour t)
  else if Ascii.eqb c "M" then zero_padded 2 (minute t)
  else if Ascii.eqb c "S" then zero_padded 2 (second t)
  else if Ascii.eqb c "A" then
    nth (Z.to_nat (date_weekday (mk_date (year t) (month t) (day t))))
        day_name ""
  else if Ascii.eqb c "B" then nth (Z.to_nat (month t)) month_name ""
  else String "%" (String c "").

Fixpoint render (fmt : string) (t : datetime) : string :=
  match fmt with
  | EmptyString => ""
  | String c rest =>
      if Ascii.eqb c "%" then
        match rest with
        | String k rest' => directive k t ++ render rest' t
        | EmptyString => "%"
        end
      else String c (render rest t)
  end.

(** ** [timetool] *)

Section Timetool.

(** [local = pytz.timezone('Europe/London')]: the zone table comes from
    the time zone database that [pytz] ships. *)
Variable local : DstTzInfo.

(** The smallest year the platform's [strftime] accepts (1900 before
    Python 3.3, 1000 after, [MINYEAR] where the C library has no limit);
    below it [strftime] raises [ValueError]. *)
Variable strftime_min_year : Z.

(** [v.strftime(fmt)]; a [date] renders its time fields as zero. *)
Definition strftime (v : pyvalue) (fmt : string) : result string :=
  match v with
  | PyNone => Raise AttributeError
  | PyDate d =>
      if d_year d <? strftime_min_year then Raise ValueError
      else Ok (render fmt
                 (mk_datetime (d_year d) (d_month d) (d_day d) 0 0 0 0 None))
  | PyDatetime t =>
      if year t <? strftime_min_year then Raise ValueError
      else Ok (render fmt t)
  end.

Definition to_local_time (time_in : pyvalue) : result pyvalue :=
  match time_in with
  | PyNone | PyDate _ =>
      (* This is a date with no timestamp info so we can't do the
         conversion *)
      Ok time_in
  | PyDatetime t =>
      time_utc <-
        match dt_tzinfo t with
        | None =>
            (* If there is no timezone, localise it to UTC *)
            utc_localize t
        | Some tz =>
            match tz_zone tz with
            | None => Raise AttributeError
            | Some z =>
                if String.eqb z "UTC" then
                  (* Already UTC - no need to localize *)
                  Ok t
                else
                  (* Not a UTC timestamp *)
                  Raise (Exception_ "Not a UTC time: %s" t)
            end
        end ;;
      time_local <- astimezone_dst local time_utc ;;
      (* Strip off timezone info *)
      Ok (PyDatetime (replace_tzinfo time_local None))
  end.

Definition to_utc_time (time_in : pyvalue) : result pyvalue :=
  match time_in with
  | PyNone | PyDate _ =>
      (* This is a date with no timestamp info so we can't do the
         conversion *)
      Ok time_in
  | PyDatetime t =>
      time_local <-
        match dt_tzinfo t with
        | None =>
            (* If there is no timezone, localise it to local time *)
            localize recursion_limit local t
        | Some tz =>
            match tz_zone tz with
            | None => Raise AttributeError
            | Some z =>
                if String.eqb z (zone local) then
                  (* Already local - no need to localize *)
                  Ok t
                else
                  (* Not a local timestamp *)
                  Raise (Exception_ "Not a local time: %s" t)
            end
        end ;;
      time_utc <- astimezone_utc time_local ;;
      (* Strip off timezone info *)
      Ok (PyDatetime (replace_tzinfo time_utc None))
  end.

(** A formatter returns its value or exception together with the
    records it logged. *)
Definition logged (A : Type) : Type := result A * list log_record.

Definition format_datetime (datetime : pyvalue) (convert_to_local : bool)
  : logged string :=
  if truthy datetime then
    if convert_to_local then
      (local_datetime <- to_local_time datetime ;;
       strftime local_datetime "%d/%m/%Y %H:%M:%S", [])
    else (strftime datetime "%d/%m/%Y %H:%M:%S", [])
  else (Ok "", []).

Definition format_datetime_long (datetime : pyvalue)
    (convert_to_local : bool) : logged string :=
  if truthy datetime then
    if convert_to_local then
      (local_datetime <- to_local_time datetime ;;
       strftime local_datetime "%A %d %B %Y %H:%M:%S", [])
    else (strftime datetime "%A %d %B %Y %H:%M:%S", [])
  else (Ok "", []).

(** [try: body except ValueError: log.warning(...); return '????'] *)
Definition except_ValueError_placeholder (body : result string)
    (datetime : pyvalue) : logged string :=
  match body with
  | Raise ValueError => (Ok "????", [Warning "Invalid date: %s" datetime])
  | _ => (body, [])
  end.

Definition format_date (datetime : pyvalue) (convert_to_local : bool)
  : logged string :=
  if truthy datetime then
    except_ValueError_placeholder
      (if convert_to_local then
         local_datetime <- to_local_time datetime ;;
         strftime local_datetime "%d/%m/%Y"
       else strftime datetime "%d/%m/%Y")
      datetime
  else (Ok "", []).

Definition format_date_long (datetime : pyvalue) (convert_to_local : bool)
  : logged string :=
  if truthy datetime then
    except_ValueError_placeholder
      (if convert_to_local then
         local_datetime <- to_local_time datetime ;;
         strftime local_datetime "%A %d %B %Y"
       else strftime datetime "%A %d %B %Y")
      datetime
  else (Ok "", []).

Definition format_date_long_no_day (datetime : pyvalue)
    (convert_to_local : bool) : logged string :=
  if truthy datetime then
    except_ValueError_placeholder
      (if convert_to_local then
         local_datetime <- to_local_time datetime ;;
         strftime local_datetime "%d %B %Y"
       else strftime datetime "%d %B %Y")
      datetime
  else (Ok "", []).

End Timetool.

(** *** Working days *)

(** The guard of the inner loop of [add_working_days]. *)
Definition is_skipped (include_saturday : bool) (date : date) : bool :=
  (date_weekday date =? 6)
  || (negb include_saturday && (date_weekday date =? 5)).

(** [while date.weekday() == 6 or ...: date += timedelta(days=1)], run
    for at most [fuel] rounds. *)
Fixpoint while_skipped (fuel : nat) (include_saturday : bool) (date : date)
  {struct fuel} :=
  match fuel with
  | O => Ok date
  | S fuel' =>
      if is_skipped include_saturday date then
        date <- date_add_days date 1 ;;
        while_skipped fuel' include_saturday date
      else Ok date
  end.

(** [for i in range(n): ...] *)
Fixpoint for_working_days (n : nat) (include_saturday : bool) (date : date)
  {struct n} :=
  match n with
  | O => Ok date
  | S n' =>
      date <- date_add_days date 1 ;;
      date <- while_skipped 7 include_saturday date ;;
      for_working_days n' include_saturday date
  end.

Definition add_working_days (now : clock) (num_days : Z)
    (date : option date) (include_saturday : bool) :=
  let date :=
    match date with
    | None => today now
    | Some d => d
    end in
  for_working_days (Z.to_nat num_days) include_saturday date.

(** *** Months *)

(** [while new_month < 1: new_month += 12; years -= 1] *)
Fixpoint while_new_month_lt_1 (fuel : nat) (new_month years : Z) : Z * Z :=
  match fuel with
  | O => (new_month, years)
  | S fuel' =>
      if new_month <? 1
      then while_new_month_lt_1 fuel' (new_month + 12) (years - 1)
      else (new_month, years)
  end.

(** [while new_month > 12: new_month -= 12; years += 1] *)
Fixpoint while_new_month_gt_12 (fuel : nat) (new_month years : Z) : Z * Z :=
  match fuel with
  | O => (new_month, years)
  | S fuel' =>
      if new_month >? 12
      then while_new_month_gt_12 fuel' (new_month - 12) (years + 1)
      else (new_month, years)
  end.

(** The two loops in sequence; each gets as many rounds as its counter
    is away from the bound, which is more than it takes. *)
Definition normalise_month (new_month : Z) : Z * Z :=
  let '(new_month, years) :=
    while_new_month_lt_1 (Z.to_nat (1 - new_month)) new_month 0 in
  while_new_month_gt_12 (Z.to_nat (new_month - 12)) new_month years.

Definition add_months (months : Z) (timestamp : datetime) : result datetime :=
  let month := month timestamp in
  let new_month := month + months in
  let '(new_month, years) := normalise_month new_month in
  let year := year timestamp + years in
  try_except_ValueError
    (datetime_new year new_month (day timestamp) (hour timestamp)
                  (minute timestamp) (second timestamp) 0 None)
    (* This means that the day exceeds the last day of the month *)
    (if months >? 0 then
       (* We are adding, so use the first day of the next month *)
       let new_month := new_month + 1 in
       let '(new_month, year) :=
         if new_month >? 12 then (new_month - 12, year + 1)
         else (new_month, year) in
       datetime_new year new_month 1 (hour timestamp) (minute timestamp)
                    (second timestamp) 0 None
     else
       (* We are subtracting - use the last day of the same month *)
       range <- monthrange year new_month ;;
       let new_day := snd range in
       datetime_new year new_month new_day (hour timestamp)
                    (minute timestamp) (second timestamp) 0 None).

Definition add_months_to_date (months : Z) (date : date) : result pyvalue :=
  let month := d_month date in
  let new_month := month + months in
  let '(new_month, years) := normalise_month new_month in
  let year := d_year date + years in
  try_except_ValueError
    (d <- date_new year new_month (d_day date) ;; Ok (PyDate d))
    (if months >? 0 then
       let new_month := new_month + 1 in
       let '(new_month, year) :=
         if new_month >? 12 then (new_month - 12, year + 1)
         else (new_month, year) in
       t <- datetime_new year new_month 1 0 0 0 0 None ;; Ok (PyDatetime t)
     else
       range <- monthrange year new_month ;;
       let new_day := snd range in
       t <- datetime_new year new_month new_day 0 0 0 0 None ;;
       Ok (PyDatetime t)).

(** *** Default arguments

    [def add_months(months, timestamp=datetime.datetime.utcnow())]: the
    default expression is evaluated when the [def] statement runs, and
    its value is stored in the function object. *)
Record add_months_function : Type := mk_add_months_function {
  timestamp_default : datetime
}.

(** Running the [def] statement while the clock shows [at_import]. *)
Definition def_add_months (at_import : clock) : add_months_function :=
  mk_add_months_function (utcnow at_import).

(** A call while the clock shows [now]; [timestamp = None] stands for
    an omitted argument. *)
Definition call_add_months (f : add_months_function) (now : clock)
    (months : Z) (timestamp : option datetime) : result datetime :=
  add_months months
    match timestamp with
    | Some t => t
    | None => timestamp_default f
    end.

(** *** The date picker

    [datetime.datetime.strptime(s, '%d/%m/%Y')] matches [s] against the
    regular expression that the format stands for,
    [(?P<d>3[0-1]|[1-2]\d|0[1-9]|[1-9]| [1-9])/(?P<m>1[0-2]|0[1-9]|[1-9])/(?P<Y>\d\d\d\d)],
    wants nothing left over and builds the timestamp from the three
    numbers.  A pattern is a function of the text and of the rest of the
    pattern, so that alternatives are tried in order and the first one
    that lets the rest match wins.  Strings are ASCII. *)

Definition digit_value (c : ascii) : option Z :=
  let n := Z.of_nat (nat_of_ascii c) in
  if (48 <=? n) && (n <=? 57) then Some (n - 48) else None.

(** One character of the class [[lo-hi]]. *)
Definition digit_between (lo hi : Z) (c : ascii) : option Z :=
  match digit_value c with
  | Some v => if (lo <=? v) && (v <=? hi) then Some v else None
  | None => None
  end.

(** [x|y] *)
Definition or_else {A : Type} (x y : option A) : option A :=
  match x with
  | Some _ => x
  | None => y
  end.

(** [[lo1-hi1][lo2-hi2]], read as a number *)
Definition two_digits {A : Type} (lo1 hi1 lo2 hi2 : Z) (s : string)
    (k : Z -> string -> option A) : option A :=
  match s with
  | String c1 (String c2 rest) =>
      match digit_between lo1 hi1 c1, digit_between lo2 hi2 c2 with
      | Some a, Some b => k (10 * a + b) rest
      | _, _ => None
      end
  | _ => None
  end.

(** [[lo-hi]] *)
Definition one_digit {A : Type} (lo hi : Z) (s : string)
    (k : Z -> string -> option A) : option A :=
  match s with
  | String c rest =>
      match digit_between lo hi c with
      | Some a => k a rest
      | None => None
      end
  | EmptyString => None
  end.

(** [ [1-9]]: a space and a digit *)
Definition space_digit {A : Type} (s : string)
    (k : Z -> string -> option A) : option A :=
  match s with
  | String c1 (String c2 rest) =>
      if Ascii.eqb c1 " " then
        match digit_between 1 9 c2 with
        | Some b => k b rest
        | None => None
        end
      else None
  | _ => None
  end.

(** [(?P<d>3[0-1]|[1-2]\d|0[1-9]|[1-9]| [1-9])] *)
Definition regex_d {A : Type} (s : string) (k : Z -> string -> option A)
  : option A :=
  or_else (two_digits 3 3 0 1 s k)
    (or_else (two_digits 1 2 0 9 s k)
       (or_else (two_digits 0 0 1 9 s k)
          (or_else (one_digit 1 9 s k) (space_digit s k)))).

(** [(?P<m>1[0-2]|0[1-9]|[1-9])] *)
Definition regex_m {A : Type} (s : string) (k : Z -> string -> option A)
  : option A :=
  or_else (two_digits 1 1 0 2 s k)
    (or_else (two_digits 0 0 1 9 s k) (one_digit 1 9 s k)).

(** [(?P<Y>\d\d\d\d)] *)
Definition regex_Y {A : Type} (s : string) (k : Z -> string -> option A)
  : option A :=
  match s with
  | String c1 (String c2 (String c3 (String c4 rest))) =>
      match digit_value c1, digit_value c2, digit_value c3, digit_value c4
      with
      | Some a, Some b, Some c, Some d =>
          k (1000 * a + 100 * b + 10 * c + d) rest
      | _, _, _, _ => None
      end
  | _ => None
  end.

(** A literal character of the format. *)
Definition literal {A : Type} (c : ascii) (s : string)
    (k : string -> option A) : option A :=
  match s with
  | String c' rest => if Ascii.eqb c c' then k rest else None
  | EmptyString => None
  end.

(** [datetime.datetime.strptime(date_string, '%d/%m/%Y')]: no match and
    unconverted data are [ValueError]s, and so is a day that the month
    does not have. *)
Definition strptime_dmY (date_string : string) : result datetime :=
  match
    regex_d date_string (fun d s =>
    literal "/" s (fun s =>
    regex_m s (fun m s =>
    literal "/" s (fun s =>
    regex_Y s (fun y rest => Some (d, m, y, rest))))))
  with
  | None => Raise ValueError
  | Some (d, m, y, rest) =>
      match rest with
      | EmptyString => datetime_new y m d 0 0 0 0 None
      | String _ _ => Raise ValueError
      end
  end.

(** [timestamp.date()] *)
Definition datetime_date (t : datetime) : date :=
  mk_date (year t) (month t) (day t).

(** Turn a string from a jQuery UI datepicker into a datetime object *)
Definition datetime_from_datepicker (date_string : string)
  : result datetime :=
  strptime_dmY date_string.

Definition date_from_datepicker (date_string : string) : result date :=
  t <- datetime_from_datepicker date_string ;;
  Ok (datetime_date t).

(** Turn a datetime object back into a string for a JQuery UI
    datepicker *)
Definition datetime_to_datepicker (strftime_min_year : Z)
    (timestamp : pyvalue) : result string :=
  strftime strftime_min_year timestamp "%d/%m/%Y".

(** ** The claims' vocabulary *)

(** The calendar month that lies [months] months after the month of
    [t]: its number and its year. *)
Definition target_month (months : Z) (t : datetime) : Z :=
  (month t + months - 1) mod 12 + 1.

Definition target_year (months : Z) (t : datetime) : Z :=
  year t + (month t + months - 1) / 12.

(** The day of month of [t] does not exist in the target month. *)
Definition day_missing (months : Z) (t : datetime) : Prop :=
  _days_in_month (target_year months t) (target_month months t) < day t.

(** The month that follows month [m] of year [y]. *)
Definition month_after (y m : Z) : Z * Z :=
  if m =? 12 then (y + 1, 1) else (y, m + 1).

(** [r] is a timestamp that falls on the given day. *)
Definition returns_date (r : result datetime) (y m d : Z) : Prop :=
  exists t, r = Ok t /\ year t = y /\ month t = m /\ day t = d.


(** The result is a [datetime.date] that is not a [datetime.datetime]:
    it has no time-of-day fields. *)
Definition is_date_only (r : result pyvalue) : Prop :=
  exists d, r = Ok (PyDate d).

(** C1 as the specification states it, at one input. *)
Definition rolls_over_forward (months : Z) (t : datetime) : Prop :=
  valid_datetime t -> 0 < months -> day_missing months t ->
  let '(y, m) := month_after (target_year months t) (target_month months t) in
  returns_date (add_months months t) y m 1.

(** C2 as the specification states it, at one input. *)
Definition clamps_backward (months : Z) (t : datetime) : Prop :=
  valid_datetime t -> months < 0 -> day_missing months t ->
  returns_date (add_months months t)
    (target_year months t) (target_month months t)
    (_days_in_month (target_year months t) (target_month months t)).



(** ** Auxiliary definitions of the proofs *)

Definition days_in_year (y : Z) : Z := if _is_leap y then 366 else 365.

(** The month and day that [_ord2ymd] finds for day [n] (from 0) of a
    year. *)
Definition month_day_of (leapyear : bool) (n : Z) : Z * Z :=
  let month := Z.shiftr (n + 50) 5 in
  let preceding :=
    nth (Z.to_nat month) _DAYS_BEFORE_MONTH 0
    + (if (month >? 2) && leapyear then 1 else 0) in
  let '(month, preceding) :=
    if preceding >? n then
      (month - 1,
       preceding - (nth (Z.to_nat (month - 1)) _DAYS_IN_MONTH 0
                    + (if (month - 1 =? 2) && leapyear then 1 else 0)))
    else (month, preceding) in
  (month, n - preceding + 1).

(** What is checked of each day of a year. *)
Definition day_of_year_ok (leapyear : bool) (n : Z) : bool :=
  let '(m, d) := month_day_of leapyear n in
  (1 <=? m) && (m <=? 12) && (1 <=? d)
  && (d <=? (if (m =? 2) && leapyear then 29
             else nth (Z.to_nat m) _DAYS_IN_MONTH 0))
  && (nth (Z.to_nat m) _DAYS_BEFORE_MONTH 0
      + (if (m >? 2) && leapyear then 1 else 0) + d =? n + 1).

Fixpoint all_from (k : nat) (n : Z) (f : Z -> bool) : bool :=
  match k with
  | O => true
  | S k' => f n && all_from k' (n + 1) f
  end.

(** The positions that timestamps occupy: from the start of ordinal day
    1 to the end of day [_MAXORDINAL], in microseconds. *)
Definition on_time_line (p : Z) : Prop :=
  US_PER_DAY <= p < (_MAXORDINAL + 1) * US_PER_DAY.

(** [bisect_right] on positions. *)
Fixpoint bisect_pos (P : list Z) (x : Z) : nat :=
  match P with
  | [] => 0%nat
  | p :: P' => if x <? p then 0%nat else S (bisect_pos P' x)
  end.

(** Consecutive transitions are at least two days apart. *)
Fixpoint spaced (P : list Z) : bool :=
  match P with
  | p :: (q :: _) as P' => (p + 2 * US_PER_DAY <=? q) && spaced P'
  | _ => true
  end.

Definition valid_datetimeb (t : datetime) : bool :=
  is_ok (_check_date_fields (year t) (month t) (day t))
  && is_ok (_check_time_fields (hour t) (minute t) (second t)
                               (microsecond t)).

Definition info_offset (inf : transition_info) : Z := fst (fst inf).

(** What the proofs below need of a zone table: as many entries as
    transition times and at least one, valid transition times in
    increasing order and at least two days apart, offsets shorter than
    a day. *)
Definition wf_zone (z : DstTzInfo) : bool :=
  (0 <? List.length (_utc_transition_times z))%nat
  && (List.length (_utc_transition_times z)
      =? List.length (_transition_info z))%nat
  && forallb valid_datetimeb (_utc_transition_times z)
  && spaced (map datetime_as_delta (_utc_transition_times z))
  && forallb (fun inf => (- US_PER_DAY <? info_offset inf)
                         && (info_offset inf <? US_PER_DAY))
             (_transition_info z).

(** The entry in force at UTC position [p], and its offset. *)
Definition info_at (z : DstTzInfo) (p : Z) : transition_info :=
  nth (bisect_pos (map datetime_as_delta (_utc_transition_times z)) p - 1)
      (_transition_info z) (0, 0, "").

Definition offset_at (z : DstTzInfo) (p : Z) : Z := info_offset (info_at z p).

(** The local clock reading, as a position, at UTC position [p]. *)
Definition local_of (z : DstTzInfo) (p : Z) : Z := p + offset_at z p.

(** No transition after the first lies within three days of either end
    of the time line: there the first and the last entry are in
    force. *)
Definition quiet_ends (z : DstTzInfo) : bool :=
  forallb (fun t => (4 * US_PER_DAY <=? datetime_as_delta t)
                    && (datetime_as_delta t <=? (_MAXORDINAL - 2) * US_PER_DAY))
          (tl (_utc_transition_times z)).

(** ** Round trips: vocabulary *)

(** The naive UTC timestamp [u] reads [l] on the local clock. *)
Definition reads_locally (local : DstTzInfo) (u l : datetime) : Prop :=
  valid_datetime u /\ dt_tzinfo u = None /\
  to_local_time local (PyDatetime u) = Ok (PyDatetime l).

(** [l] is the local reading of exactly one UTC instant: it is neither
    skipped (a gap) nor repeated (an overlap). *)
Definition unambiguous (local : DstTzInfo) (l : datetime) : Prop :=
  exists u, reads_locally local u l /\
            forall u', reads_locally local u' l -> u' = u.

(** C4 as the specification states it, at one UTC instant. *)
Definition utc_round_trip (local : DstTzInfo) (i : datetime) : Prop :=
  forall l,
    to_local_time local (PyDatetime i) = Ok (PyDatetime l) ->
    unambiguous local l ->
    l' <- to_local_time local (PyDatetime i) ;; to_utc_time local l'
    = Ok (PyDatetime i).

(** ** A zone table to evaluate on *)

(** An excerpt of the [Europe/London] table of [pytz]: the entry it
    starts from (local mean time, which [pytz] keeps until its first
    transition in 1916) and the three transitions around 2024.  In 2024
    and wherever the first or the last entry is in force in the full
    table the excerpt reads the clock as the full table does. *)
Definition london_excerpt : DstTzInfo :=
  mk_DstTzInfo "Europe/London"
    [ mk_datetime 1 1 1 0 0 0 0 None;
      mk_datetime 2023 10 29 1 0 0 0 None;
      mk_datetime 2024 3 31 1 0 0 0 None;
      mk_datetime 2024 10 27 1 0 0 0 None ]
    [ (-60000000, 0, "LMT");
      (0, 0, "GMT");
      (3600000000, 3600000000, "BST");
      (0, 0, "GMT") ].

(** ** Further vocabulary *)

(** The timestamp [add_months] is after: the target month with the day
    of the input when that day exists, else the 1st of the next month
    (forward) or the last day of the target month (backward). *)
Definition add_months_day (months : Z) (t : datetime) : Z * Z * Z :=
  let y := target_year months t in
  let m := target_month months t in
  if day t <=? _days_in_month y m then (y, m, day t)
  else if months >? 0 then (y, m + 1, 1)
  else (y, m, _days_in_month y m).

(** The year that the last constructor call of a failing [add_months]
    receives: going forward from December the handler moves on to
    January of the next year. *)
Definition handler_year (months : Z) (t : datetime) : Z :=
  if (months >? 0) && (target_month months t =? 12)
  then target_year months t + 1 else target_year months t.

(** The exception of [add_months] when the target year is not a year of
    the calendar: the [ValueError] of the last constructor call, unless
    a year does not fit a C [int]. *)
Definition add_months_error (months : Z) (t : datetime) : exn :=
  if (INT_MIN <=? target_year months t) && (handler_year months t <=? INT_MAX)
  then ValueError else OverflowError.

(** Midnight of a date, as [add_months_to_date] passes it on. *)
Definition midnight (d : date) : datetime := mk_datetime (d_year d) (d_month d) (d_day d) 0 0 0 0 None.

(** The guard of the inner loop of [add_working_days], on ordinals. *)
Definition ordinal_skipped (include_saturday : bool) (o : Z) : bool :=
  ((o + 6) mod 7 =? 6)
  || (negb include_saturday && ((o + 6) mod 7 =? 5)).

(** How many of the [k] days after ordinal [a] are working days. *)
Fixpoint working_days_after (include_saturday : bool) (a : Z) (k : nat)
  : nat :=
  match k with
  | O => 0%nat
  | S k' =>
      ((if ordinal_skipped include_saturday (a + 1) then 0 else 1)
       + working_days_after include_saturday (a + 1) k')%nat
  end.

(** * Properties *)

(** ** Month normalisation *)

Lemma while_new_month_lt_1_spec (fuel : nat) :
  forall new_month years,
    1 - new_month <= Z.of_nat fuel ->
    let r := while_new_month_lt_1 fuel new_month years in
    1 <= fst r /\
    fst r + 12 * snd r = new_month + 12 * years /\
    (new_month < 1 -> fst r <= 12) /\
    (1 <= new_month -> r = (new_month, years)).
Proof.
  induction fuel as [|fuel IH]; intros new_month years Hfuel.
  - simpl. repeat split; intros; lia.
  - cbn [while_new_month_lt_1].
    destruct (new_month <? 1) eqn:Hlt.
    + apply Z.ltb_lt in Hlt.
      specialize (IH (new_month + 12) (years - 1)).
      cbv zeta in IH.
      destruct IH as (H1 & H2 & H3 & H4); [lia|].
      repeat split; try lia.
      intros _.
      destruct (Z_lt_ge_dec (new_month + 12) 1) as [Hs|Hs]; [lia|].
      rewrite H4 by lia. simpl. lia.
    + apply Z.ltb_ge in Hlt. simpl. repeat split; intros; lia.
Qed.

Lemma while_new_month_gt_12_spec (fuel : nat) :
  forall new_month years,
    new_month - 12 <= Z.of_nat fuel ->
    let r := while_new_month_gt_12 fuel new_month years in
    fst r <= 12 /\
    fst r + 12 * snd r = new_month + 12 * years /\
    (12 < new_month -> 1 <= fst r) /\
    (new_month <= 12 -> r = (new_month, years)).
Proof.
  induction fuel as [|fuel IH]; intros new_month years Hfuel.
  - simpl. repeat split; intros; lia.
  - cbn [while_new_month_gt_12].
    destruct (new_month >? 12) eqn:Hgt.
    + apply Z.gtb_lt in Hgt.
      specialize (IH (new_month - 12) (years + 1)).
      cbv zeta in IH.
      destruct IH as (H1 & H2 & H3 & H4); [lia|].
      repeat split; try lia.
      intros _.
      destruct (Z_lt_ge_dec 12 (new_month - 12)) as [Hs|Hs]; [lia|].
      rewrite H4 by lia. simpl. lia.
    + rewrite Z.gtb_ltb in Hgt. apply Z.ltb_ge in Hgt.
      simpl. repeat split; intros; lia.
Qed.

(** Both loops leave by their guard: the month ends in [1..12] and the
    months counted are the same. *)
Lemma normalise_month_range (new_month : Z) :
  let r := normalise_month new_month in
  1 <= fst r <= 12 /\ fst r + 12 * snd r = new_month.
Proof.
  unfold normalise_month.
  pose proof (while_new_month_lt_1_spec (Z.to_nat (1 - new_month))
                new_month 0) as H1.
  cbv zeta in H1.
  destruct (while_new_month_lt_1 (Z.to_nat (1 - new_month)) new_month 0)
    as [m1 y1] eqn:E1.
  cbn [fst snd] in H1. destruct H1 as (A1 & A2 & A3 & A4); [lia|].
  pose proof (while_new_month_gt_12_spec (Z.to_nat (m1 - 12)) m1 y1) as H2.
  cbv zeta in H2.
  destruct (while_new_month_gt_12 (Z.to_nat (m1 - 12)) m1 y1)
    as [m2 y2] eqn:E2.
  cbn [fst snd] in H2. destruct H2 as (B1 & B2 & B3 & B4); [lia|].
  cbn [fst snd].
  destruct (Z_lt_ge_dec 12 m1) as [Hm|Hm].
  - split; lia.
  - specialize (B4 ltac:(lia)). inversion B4; subst. split; lia.
Qed.

(** The closed form of the loops: the month [new_month - 1] months after
    January of year 0, as (month, years carried). *)
Lemma normalise_month_closed (new_month : Z) :
  normalise_month new_month
  = ((new_month - 1) mod 12 + 1, (new_month - 1) / 12).
Proof.
  pose proof (normalise_month_range new_month) as H. cbv zeta in H.
  destruct (normalise_month new_month) as [m y]. cbn [fst snd] in H.
  destruct H as [Hr He].
  assert (Hy : (new_month - 1) / 12 = y).
  { symmetry. apply Z.div_unique with (r := m - 1); lia. }
  assert (Hm : (new_month - 1) mod 12 = m - 1).
  { symmetry. apply Z.mod_unique with (q := y); lia. }
  rewrite Hy, Hm. f_equal. lia.
Qed.

(** ** Field checks *)

Lemma in_range_true (lo hi x : Z) :
  negb ((lo <=? x) && (x <=? hi)) = false <-> lo <= x <= hi.
Proof.
  destruct (Z.leb_spec lo x), (Z.leb_spec x hi); simpl; split;
    intros; try lia; try discriminate; reflexivity.
Qed.

Lemma in_range_false (lo hi x : Z) :
  negb ((lo <=? x) && (x <=? hi)) = true <-> ~ lo <= x <= hi.
Proof.
  destruct (Z.leb_spec lo x), (Z.leb_spec x hi); simpl; split;
    intros; try lia; try discriminate; reflexivity.
Qed.

Lemma check_date_fields_Ok (y m d : Z) :
  _check_date_fields y m d = Ok tt <->
  MINYEAR <= y <= MAXYEAR /\ 1 <= m <= 12 /\ 1 <= d <= _days_in_month y m.
Proof.
  unfold _check_date_fields.
  destruct (negb ((MINYEAR <=? y) && (y <=? MAXYEAR))) eqn:Hy;
  [apply in_range_false in Hy | apply in_range_true in Hy].
  { split; [discriminate | tauto]. }
  destruct (negb ((1 <=? m) && (m <=? 12))) eqn:Hm;
  [apply in_range_false in Hm | apply in_range_true in Hm].
  { split; [discriminate | tauto]. }
  cbv zeta.
  destruct (negb ((1 <=? d) && (d <=? _days_in_month y m))) eqn:Hd;
  [apply in_range_false in Hd | apply in_range_true in Hd].
  { split; [discriminate | tauto]. }
  tauto.
Qed.

(** A rejected date is rejected with [ValueError]. *)
Lemma check_date_fields_Raise (y m d : Z) :
  ~ (MINYEAR <= y <= MAXYEAR /\ 1 <= m <= 12 /\ 1 <= d <= _days_in_month y m)
  -> _check_date_fields y m d = Raise ValueError.
Proof.
  intros H. pose proof (check_date_fields_Ok y m d) as Hok.
  unfold _check_date_fields in *.
  destruct (negb ((MINYEAR <=? y) && (y <=? MAXYEAR))); [reflexivity|].
  destruct (negb ((1 <=? m) && (m <=? 12))); [reflexivity|].
  cbv zeta in *.
  destruct (negb ((1 <=? d) && (d <=? _days_in_month y m))); [reflexivity|].
  exfalso. apply H, Hok. reflexivity.
Qed.

Lemma check_time_fields_Ok (h mi s us : Z) :
  _check_time_fields h mi s us = Ok tt <->
  0 <= h <= 23 /\ 0 <= mi <= 59 /\ 0 <= s <= 59 /\ 0 <= us <= 999999.
Proof.
  unfold _check_time_fields.
  destruct (negb ((0 <=? h) && (h <=? 23))) eqn:Hh;
  [apply in_range_false in Hh | apply in_range_true in Hh].
  { split; [discriminate | tauto]. }
  destruct (negb ((0 <=? mi) && (mi <=? 59))) eqn:Hm;
  [apply in_range_false in Hm | apply in_range_true in Hm].
  { split; [discriminate | tauto]. }
  destruct (negb ((0 <=? s) && (s <=? 59))) eqn:Hs;
  [apply in_range_false in Hs | apply in_range_true in Hs].
  { split; [discriminate | tauto]. }
  destruct (negb ((0 <=? us) && (us <=? 999999))) eqn:Hu;
  [apply in_range_false in Hu | apply in_range_true in Hu].
  { split; [discriminate | tauto]. }
  tauto.
Qed.

Lemma valid_datetime_fields (t : datetime) :
  valid_datetime t ->
  (MINYEAR <= year t <= MAXYEAR /\ 1 <= month t <= 12 /\
   1 <= day t <= _days_in_month (year t) (month t)) /\
  (0 <= hour t <= 23 /\ 0 <= minute t <= 59 /\ 0 <= second t <= 59 /\
   0 <= microsecond t <= 999999).
Proof.
  intros [Hd Ht]. split.
  - now apply check_date_fields_Ok.
  - now apply check_time_fields_Ok.
Qed.

Lemma month_cases (m : Z) :
  1 <= m <= 12 ->
  m = 1 \/ m = 2 \/ m = 3 \/ m = 4 \/ m = 5 \/ m = 6 \/
  m = 7 \/ m = 8 \/ m = 9 \/ m = 10 \/ m = 11 \/ m = 12.
Proof. lia. Qed.

Ltac each_month m H :=
  apply month_cases in H;
  repeat (destruct H as [H|H]; [subst m|]); [..|subst m].

Lemma days_in_month_bounds (y m : Z) :
  1 <= m <= 12 -> 28 <= _days_in_month y m <= 31.
Proof.
  intros H. each_month m H; unfold _days_in_month; simpl;
    try destruct (_is_leap y); simpl; lia.
Qed.

Lemma days_in_month_december (y : Z) : _days_in_month y 12 = 31.
Proof. reflexivity. Qed.

Lemma as_c_int_Ok (v : Z) :
  INT_MIN <= v <= INT_MAX -> as_c_int v = Ok tt.
Proof.
  intros H. unfold as_c_int.
  replace ((INT_MIN <=? v) && (v <=? INT_MAX)) with true; [reflexivity|].
  symmetry. apply andb_true_intro. split; apply Z.leb_le; lia.
Qed.

Lemma as_c_int_Raise (v : Z) :
  ~ INT_MIN <= v <= INT_MAX -> as_c_int v = Raise OverflowError.
Proof.
  intros H. unfold as_c_int.
  replace ((INT_MIN <=? v) && (v <=? INT_MAX)) with false; [reflexivity|].
  symmetry. apply Bool.andb_false_iff. rewrite !Z.leb_gt. lia.
Qed.

Lemma as_c_ints_Ok (vs : list Z) :
  Forall (fun v => INT_MIN <= v <= INT_MAX) vs -> as_c_ints vs = Ok tt.
Proof.
  induction 1 as [|v vs Hv _ IH]; [reflexivity|].
  cbn [as_c_ints]. rewrite (as_c_int_Ok v Hv). exact IH.
Qed.

(** The fields of a date and of a time of day fit a C [int]. *)
Lemma date_fields_fit (y m d : Z) :
  _check_date_fields y m d = Ok tt ->
  Forall (fun v => INT_MIN <= v <= INT_MAX) [y; m; d].
Proof.
  intros H. apply check_date_fields_Ok in H.
  destruct H as (Hy & Hm & Hd).
  pose proof (days_in_month_bounds y m Hm).
  unfold MINYEAR, MAXYEAR, INT_MIN, INT_MAX in *.
  repeat constructor; lia.
Qed.

Lemma time_fields_fit (h mi s us : Z) :
  _check_time_fields h mi s us = Ok tt ->
  Forall (fun v => INT_MIN <= v <= INT_MAX) [h; mi; s; us].
Proof.
  intros H. apply check_time_fields_Ok in H.
  unfold INT_MIN, INT_MAX. repeat constructor; lia.
Qed.

Lemma datetime_new_Ok (y m d h mi s us : Z) (tz : option tzinfo) :
  _check_date_fields y m d = Ok tt ->
  _check_time_fields h mi s us = Ok tt ->
  datetime_new y m d h mi s us tz = Ok (mk_datetime y m d h mi s us tz).
Proof.
  intros Hd Ht. unfold datetime_new.
  rewrite (as_c_ints_Ok [y; m; d; h; mi; s; us])
    by (apply (proj2 (Forall_app _ [y; m; d] [h; mi; s; us])); split;
        [now apply date_fields_fit | now apply time_fields_fit]).
  cbn [bind]. rewrite Hd. cbn [bind]. rewrite Ht. reflexivity.
Qed.

(** A year that fits a C [int] and is not a year of the calendar is
    rejected with [ValueError], whatever the other fields are; one that
    does not fit is rejected with [OverflowError]. *)
Lemma datetime_new_Raise (y m d h mi s us : Z) (tz : option tzinfo) :
  as_c_ints [y; m; d; h; mi; s; us] = Ok tt ->
  _check_date_fields y m d = Raise ValueError ->
  datetime_new y m d h mi s us tz = Raise ValueError.
Proof.
  intros Hc Hd. unfold datetime_new. rewrite Hc. cbn [bind]. rewrite Hd.
  reflexivity.
Qed.

Lemma datetime_new_Overflow (y m d h mi s us : Z) (tz : option tzinfo) :
  ~ INT_MIN <= y <= INT_MAX ->
  datetime_new y m d h mi s us tz = Raise OverflowError.
Proof.
  intros Hy. unfold datetime_new. cbn [as_c_ints].
  rewrite (as_c_int_Raise y Hy). reflexivity.
Qed.

Lemma date_new_Ok (y m d : Z) :
  _check_date_fields y m d = Ok tt -> date_new y m d = Ok (mk_date y m d).
Proof.
  intros Hd. unfold date_new.
  rewrite (as_c_ints_Ok [y; m; d]) by now apply date_fields_fit.
  cbn [bind]. rewrite Hd. reflexivity.
Qed.

(** [calendar] and [datetime] agree on the length of a month. *)
Lemma monthrange_days (y m : Z) :
  1 <= m <= 12 ->
  exists day1, monthrange y m = Ok (day1, _days_in_month y m).
Proof.
  intros H. unfold monthrange.
  replace (negb ((1 <=? m) && (m <=? 12))) with false
    by (symmetry; now apply in_range_true).
  unfold calendar_weekday.
  set (y' := if negb ((MINYEAR <=? y) && (y <=? MAXYEAR))
             then 2000 + y mod 400 else y).
  assert (Hy' : MINYEAR <= y' <= MAXYEAR).
  { subst y'. destruct (negb ((MINYEAR <=? y) && (y <=? MAXYEAR))) eqn:E.
    - pose proof (Z.mod_pos_bound y 400 ltac:(lia)).
      unfold MINYEAR, MAXYEAR. lia.
    - now apply in_range_true in E. }
  assert (Hc : _check_date_fields y' m 1 = Ok tt).
  { apply check_date_fields_Ok. pose proof (days_in_month_bounds y' m H).
    lia. }
  rewrite (date_new_Ok y' m 1 Hc). cbn [bind]. eexists. f_equal. f_equal.
  unfold _days_in_month, isleap, _is_leap.
  each_month m H; simpl; try reflexivity.
  destruct ((y mod 4 =? 0) && (negb (y mod 100 =? 0) || (y mod 400 =? 0)));
    reflexivity.
Qed.

(** ** Adding months *)

Lemma target_month_range (months : Z) (t : datetime) :
  1 <= target_month months t <= 12.
Proof.
  unfold target_month.
  pose proof (Z.mod_pos_bound (month t + months - 1) 12 ltac:(lia)). lia.
Qed.

(** The first attempt of [add_months], and what the handler starts
    from: the target month in closed form. *)
Lemma add_months_unfold (months : Z) (t : datetime) :
  add_months months t =
  let new_month := target_month months t in
  let year := target_year months t in
  try_except_ValueError
    (datetime_new year new_month (day t) (hour t) (minute t) (second t)
                  0 None)
    (if months >? 0 then
       let '(year, new_month) := month_after year new_month in
       datetime_new year new_month 1 (hour t) (minute t) (second t) 0 None
     else
       range <- monthrange year new_month ;;
       datetime_new year new_month (snd range) (hour t) (minute t)
                    (second t) 0 None).
Proof.
  pose proof (target_month_range months t) as Hm.
  unfold add_months. rewrite normalise_month_closed.
  unfold target_month, target_year, month_after in *. cbv zeta.
  set (m := (month t + months - 1) mod 12 + 1) in *.
  replace (m + 1 >? 12) with (m =? 12).
  2:{ destruct (Z.eqb_spec m 12), (Z.gtb_spec (m + 1) 12); lia || reflexivity. }
  destruct (Z.eqb_spec m 12) as [->|]; reflexivity.
Qed.

Lemma time_fields_without_microsecond (t : datetime) :
  valid_datetime t ->
  _check_time_fields (hour t) (minute t) (second t) 0 = Ok tt.
Proof.
  intros H. apply valid_datetime_fields in H. apply check_time_fields_Ok.
  lia.
Qed.

(** The arguments of the constructor calls of [add_months] fit a C
    [int] as soon as the year does. *)
Lemma add_months_arguments_fit (y m d : Z) (t : datetime) :
  valid_datetime t ->
  INT_MIN <= y <= INT_MAX -> 1 <= m <= 12 -> 1 <= d <= 31 ->
  as_c_ints [y; m; d; hour t; minute t; second t; 0] = Ok tt.
Proof.
  intros Hv Hy Hm Hd. apply valid_datetime_fields in Hv.
  destruct Hv as [_ Ht]. apply as_c_ints_Ok.
  unfold INT_MIN, INT_MAX in *. repeat constructor; lia.
Qed.

Lemma valid_day_bounds (t : datetime) :
  valid_datetime t -> 1 <= day t <= 31.
Proof.
  intros Hv. apply valid_datetime_fields in Hv.
  destruct Hv as [(_ & Hm & Hd) _].
  pose proof (days_in_month_bounds (year t) (month t) Hm). lia.
Qed.

(** Adding months never lowers the year, taking months away never
    raises it. *)
Lemma target_year_forward (months : Z) (t : datetime) :
  valid_datetime t -> 0 < months -> year t <= target_year months t.
Proof.
  intros Hv Hpos. apply valid_datetime_fields in Hv.
  destruct Hv as [(_ & Hm & _) _].
  assert (0 <= (month t + months - 1) / 12) by (apply Z.div_pos; lia).
  unfold target_year. lia.
Qed.

Lemma target_year_backward (months : Z) (t : datetime) :
  valid_datetime t -> months <= 0 -> target_year months t <= year t.
Proof.
  intros Hv Hneg. apply valid_datetime_fields in Hv.
  destruct Hv as [(_ & Hm & _) _].
  assert ((month t + months - 1) / 12 < 1)
    by (apply Z.div_lt_upper_bound; lia).
  unfold target_year. lia.
Qed.

(** When the day is missing the first attempt raises [ValueError],
    provided the year fits a C [int]. *)
Lemma first_attempt_fails (months : Z) (t : datetime) :
  valid_datetime t ->
  INT_MIN <= target_year months t <= INT_MAX ->
  day_missing months t ->
  datetime_new (target_year months t) (target_month months t) (day t)
               (hour t) (minute t) (second t) 0 None = Raise ValueError.
Proof.
  intros Hv Hy H. apply datetime_new_Raise.
  - apply (add_months_arguments_fit _ _ _ t Hv Hy
             (target_month_range months t) (valid_day_bounds t Hv)).
  - apply check_date_fields_Raise. unfold day_missing in H. lia.
Qed.

(** A missing day is never in December. *)
Lemma day_missing_not_december (months : Z) (t : datetime) :
  valid_datetime t -> day_missing months t -> target_month months t <= 11.
Proof.
  intros Hv Hm. apply valid_datetime_fields in Hv.
  destruct Hv as [(_ & Hmo & Hd) _].
  pose proof (days_in_month_bounds (year t) (month t) Hmo).
  pose proof (target_month_range months t).
  destruct (Z.eq_dec (target_month months t) 12) as [E|]; [|lia].
  unfold day_missing in Hm. rewrite E, days_in_month_december in Hm. lia.
Qed.

(** What [add_months] does on the two handler branches: a year past
    the calendar is a [ValueError] of the second constructor call, a
    year past a C [int] an [OverflowError] of the first, which the
    handler does not catch. *)
Lemma add_months_missing_forward (months : Z) (t : datetime) :
  valid_datetime t -> 0 < months -> day_missing months t ->
  add_months months t =
  if target_year months t <=? MAXYEAR then
    Ok (mk_datetime (target_year months t) (target_month months t + 1) 1
                    (hour t) (minute t) (second t) 0 None)
  else if target_year months t <=? INT_MAX then Raise ValueError
  else Raise OverflowError.
Proof.
  intros Hv Hpos Hmiss.
  pose proof (day_missing_not_december months t Hv Hmiss) as Hdec.
  pose proof (target_month_range months t) as Hrange.
  pose proof (target_year_forward months t Hv Hpos) as Hfw.
  pose proof (valid_datetime_fields t Hv) as [(Hy & _ & _) _].
  unfold MINYEAR, MAXYEAR in Hy.
  rewrite add_months_unfold. cbv zeta.
  destruct (Z.leb_spec (target_year months t) INT_MAX) as [Hint|Hint].
  - rewrite (first_attempt_fails months t Hv
               ltac:(unfold INT_MIN in *; lia) Hmiss).
    unfold try_except_ValueError.
    replace (months >? 0) with true by (symmetry; apply Z.gtb_lt; lia).
    unfold month_after.
    destruct (Z.eqb_spec (target_month months t) 12) as [E|_]; [lia|].
    destruct (Z.leb_spec (target_year months t) MAXYEAR) as [Hmax|Hmax].
    + apply datetime_new_Ok.
      * apply check_date_fields_Ok.
        pose proof (days_in_month_bounds (target_year months t)
                      (target_month months t + 1) ltac:(lia)).
        unfold MINYEAR in *. lia.
      * now apply time_fields_without_microsecond.
    + apply datetime_new_Raise.
      * apply (add_months_arguments_fit _ _ _ t Hv); unfold INT_MIN; lia.
      * apply check_date_fields_Raise. lia.
  - replace (target_year months t <=? MAXYEAR) with false
      by (symmetry; apply Z.leb_gt; unfold MAXYEAR, INT_MAX in *; lia).
    rewrite datetime_new_Overflow by lia. reflexivity.
Qed.

Lemma add_months_missing_backward (months : Z) (t : datetime) :
  valid_datetime t -> months <= 0 -> day_missing months t ->
  add_months months t =
  if MINYEAR <=? target_year months t then
    Ok (mk_datetime (target_year months t) (target_month months t)
                    (_days_in_month (target_year months t)
                                    (target_month months t))
                    (hour t) (minute t) (second t) 0 None)
  else if INT_MIN <=? target_year months t then Raise ValueError
  else Raise OverflowError.
Proof.
  intros Hv Hneg Hmiss.
  pose proof (target_month_range months t) as Hrange.
  pose proof (target_year_backward months t Hv Hneg) as Hbw.
  pose proof (valid_datetime_fields t Hv) as [(Hy & _ & _) _].
  unfold MINYEAR, MAXYEAR in Hy.
  pose proof (days_in_month_bounds (target_year months t)
                (target_month months t) Hrange) as Hdim.
  rewrite add_months_unfold. cbv zeta.
  destruct (Z.leb_spec INT_MIN (target_year months t)) as [Hint|Hint].
  - rewrite (first_attempt_fails months t Hv
               ltac:(unfold INT_MAX in *; lia) Hmiss).
    unfold try_except_ValueError.
    replace (months >? 0) with false
      by (symmetry; rewrite Z.gtb_ltb; apply Z.ltb_ge; lia).
    destruct (monthrange_days (target_year months t)
                (target_month months t) Hrange) as [day1 Hmr].
    rewrite Hmr. cbn [bind snd].
    destruct (Z.leb_spec MINYEAR (target_year months t)) as [Hmin|Hmin].
    + apply datetime_new_Ok.
      * apply check_date_fields_Ok. unfold MINYEAR, MAXYEAR in *. lia.
      * now apply time_fields_without_microsecond.
    + apply datetime_new_Raise.
      * apply (add_months_arguments_fit _ _ _ t Hv); unfold INT_MAX; lia.
      * apply check_date_fields_Raise. lia.
  - replace (MINYEAR <=? target_year months t) with false
      by (symmetry; apply Z.leb_gt; unfold MINYEAR, INT_MIN in *; lia).
    rewrite datetime_new_Overflow by lia. reflexivity.
Qed.

(** C1 (counterexample): two months after 9999-12-31 is February 10000,
    which has no 31st; the 1st of March 10000 is not a timestamp and
    [add_months] raises [ValueError]. *)
Lemma add_months_forward_past_MAXYEAR :
  ~ rolls_over_forward 2 (mk_datetime 9999 12 31 0 0 0 0 None).
Proof.
  unfold rolls_over_forward. intros H.
  assert (Hr : add_months 2 (mk_datetime 9999 12 31 0 0 0 0 None)
               = Raise ValueError) by reflexivity.
  cbv [month_after target_year target_month year month] in H.
  cbn in H. rewrite Hr in H.
  destruct H as (r & Hr' & _).
  - split; reflexivity.
  - lia.
  - unfold day_missing. cbn. lia.
  - discriminate.
Qed.

(** C1 (amended): for every timestamp whose day of month does not exist
    in the target month, and every [months > 0] whose target year is at
    most [MAXYEAR], [add_months] returns the 1st of the month after the
    target month, at the hour, minute and second of the input. *)
Theorem add_months_forward_rollover (months : Z) (t : datetime) :
  valid_datetime t ->
  0 < months ->
  day_missing months t ->
  target_year months t <= MAXYEAR ->
  let '(y, m) := month_after (target_year months t) (target_month months t) in
  add_months months t
  = Ok (mk_datetime y m 1 (hour t) (minute t) (second t) 0 None).
Proof.
  intros Hv Hpos Hmiss Hmax.
  pose proof (day_missing_not_december months t Hv Hmiss) as Hdec.
  rewrite (add_months_missing_forward months t Hv Hpos Hmiss).
  unfold month_after.
  destruct (Z.eqb_spec (target_month months t) 12) as [E|_]; [lia|].
  destruct (Z.leb_spec (target_year months t) MAXYEAR); [reflexivity|lia].
Qed.

(** C1 (witness): [add_months(1, 2024-01-30)] is 2024-03-01. *)
Lemma add_months_forward_rollover_witness :
  add_months 1 (mk_datetime 2024 1 30 0 0 0 0 None)
  = Ok (mk_datetime 2024 3 1 0 0 0 0 None).
Proof.
  apply (add_months_forward_rollover 1 (mk_datetime 2024 1 30 0 0 0 0 None)).
  - split; reflexivity.
  - lia.
  - unfold day_missing. vm_compute. reflexivity.
  - vm_compute. discriminate.
Defined.

(** C2 (counterexample): two months before 0001-01-31 is November of
    year 0, which has no 31st; its last day is not a timestamp and
    [add_months] raises [ValueError]. *)
Lemma add_months_backward_before_MINYEAR :
  ~ clamps_backward (-2) (mk_datetime 1 1 31 0 0 0 0 None).
Proof.
  unfold clamps_backward. intros H.
  assert (Hr : add_months (-2) (mk_datetime 1 1 31 0 0 0 0 None)
               = Raise ValueError) by reflexivity.
  rewrite Hr in H.
  destruct H as (r & Hr' & _).
  - split; reflexivity.
  - lia.
  - unfold day_missing. vm_compute. reflexivity.
  - discriminate.
Qed.

(** C2 (amended): for every timestamp whose day of month does not exist
    in the target month, and every [months < 0] whose target year is at
    least [MINYEAR], [add_months] returns the last day of the target
    month, at the hour, minute and second of the input. *)
Theorem add_months_backward_clamp (months : Z) (t : datetime) :
  valid_datetime t ->
  months < 0 ->
  day_missing months t ->
  MINYEAR <= target_year months t ->
  add_months months t
  = Ok (mk_datetime (target_year months t) (target_month months t)
          (_days_in_month (target_year months t) (target_month months t))
          (hour t) (minute t) (second t) 0 None).
Proof.
  intros Hv Hneg Hmiss Hmin.
  rewrite (add_months_missing_backward months t Hv ltac:(lia) Hmiss).
  destruct (Z.leb_spec MINYEAR (target_year months t)); [reflexivity|lia].
Qed.

(** C2 (witness): [add_months(-1, 2024-03-30)] is 2024-02-29. *)
Lemma add_months_backward_clamp_witness :
  add_months (-1) (mk_datetime 2024 3 30 0 0 0 0 None)
  = Ok (mk_datetime 2024 2 29 0 0 0 0 None).
Proof.
  apply (add_months_backward_clamp (-1)
           (mk_datetime 2024 3 30 0 0 0 0 None)).
  - split; reflexivity.
  - lia.
  - unfold day_missing. vm_compute. reflexivity.
  - vm_compute. discriminate.
Defined.




(** ** Adding months to a date *)

(** On the handler branches [add_months_to_date] never builds a
    [datetime.date]. *)
Lemma add_months_to_date_handler_not_date (months : Z) (d : date) :
  date_new (target_year months (mk_datetime (d_year d) (d_month d) (d_day d)
                                            0 0 0 0 None))
           (target_month months (mk_datetime (d_year d) (d_month d)
                                             (d_day d) 0 0 0 0 None))
           (d_day d) = Raise ValueError ->
  ~ is_date_only (add_months_to_date months d).
Proof.
  unfold add_months_to_date, target_year, target_month. cbn [year month].
  rewrite normalise_month_closed. intros Hfirst [x Hx].
  rewrite Hfirst in Hx. cbn [bind try_except_ValueError] in Hx.
  destruct (months >? 0).
  - destruct ((d_month d + months - 1) mod 12 + 1 + 1 >? 12);
      match type of Hx with
      | bind ?r _ = _ => destruct r; discriminate Hx
      end.
  - destruct (monthrange _ _); [|discriminate Hx]. cbn [bind] in Hx.
    match type of Hx with
    | bind ?r _ = _ => destruct r; discriminate Hx
    end.
Qed.

(** C6 (the failing input): one month after the date 2024-01-30 and one
    month before the date 2024-03-30 come back as timestamps at
    midnight, which the zone conversions treat as instants. *)
Theorem add_months_to_date_returns_timestamp :
  add_months_to_date 1 (mk_date 2024 1 30)
  = Ok (PyDatetime (mk_datetime 2024 3 1 0 0 0 0 None)) /\
  add_months_to_date (-1) (mk_date 2024 3 30)
  = Ok (PyDatetime (mk_datetime 2024 2 29 0 0 0 0 None)) /\
  ~ is_date_only (add_months_to_date 1 (mk_date 2024 1 30)) /\
  add_months_to_date 1 (mk_date 2024 1 15) = Ok (PyDate (mk_date 2024 2 15)).
Proof.
  repeat split.
  intros [d Hd]. discriminate Hd.
Qed.

(** ** Zone conversions *)

(** C8: [to_local_time] and [to_utc_time] return a date-only value
    unchanged. *)
Theorem conversions_leave_dates_unchanged (local : DstTzInfo) (d : date) :
  to_local_time local (PyDate d) = Ok (PyDate d) /\
  to_utc_time local (PyDate d) = Ok (PyDate d).
Proof. split; reflexivity. Qed.




(** The test the conversions make is the presence of a [tzinfo]
    attribute: any value without one comes back as it is. *)
Lemma conversions_leave_values_without_tzinfo
    (local : DstTzInfo) (v : pyvalue) :
  has_tzinfo v = false ->
  to_local_time local v = Ok v /\ to_utc_time local v = Ok v.
Proof. destruct v; [split; reflexivity | split; reflexivity | discriminate]. Qed.

(** X25: a [tzinfo] without a [zone] attribute fails earlier, on the
    attribute access: both conversions raise [AttributeError]. *)
Lemma conversions_need_zone_attribute
    (local : DstTzInfo) (t : datetime) (tz : tzinfo) :
  dt_tzinfo t = Some tz -> tz_zone tz = None ->
  to_local_time local (PyDatetime t) = Raise AttributeError /\
  to_utc_time local (PyDatetime t) = Raise AttributeError.
Proof.
  intros Htz Hz. unfold to_local_time, to_utc_time. rewrite Htz, Hz.
  split; reflexivity.
Qed.

(** ** Formatters *)

(** C7: when [strftime] raises [ValueError] on the value a date-only
    formatter renders (the input, or its local time when conversion is
    asked for), the formatter logs a warning and returns ["????"]. *)
Theorem date_formatters_soft_fail
    (local : DstTzInfo) (strftime_min_year : Z)
    (datetime rendered : pyvalue) (convert_to_local : bool) :
  truthy datetime = true ->
  (if convert_to_local then to_local_time local datetime = Ok rendered
   else rendered = datetime) ->
  (strftime strftime_min_year rendered "%d/%m/%Y" = Raise ValueError ->
   format_date local strftime_min_year datetime convert_to_local
   = (Ok "????", [Warning "Invalid date: %s" datetime])) /\
  (strftime strftime_min_year rendered "%A %d %B %Y" = Raise ValueError ->
   format_date_long local strftime_min_year datetime convert_to_local
   = (Ok "????", [Warning "Invalid date: %s" datetime])) /\
  (strftime strftime_min_year rendered "%d %B %Y" = Raise ValueError ->
   format_date_long_no_day local strftime_min_year datetime convert_to_local
   = (Ok "????", [Warning "Invalid date: %s" datetime])).
Proof.
  intros Htruthy Hrendered.
  unfold format_date, format_date_long, format_date_long_no_day.
  rewrite Htruthy.
  destruct convert_to_local.
  - rewrite Hrendered. cbn [bind].
    repeat split; intros ->; reflexivity.
  - subst rendered.
    repeat split; intros ->; reflexivity.
Qed.

(** C7 (witness): noon on 1850-06-01, rendered in London time where
    [strftime] starts at 1900. *)
Lemma date_formatters_soft_fail_witness :
  let t := PyDatetime (mk_datetime 1850 6 1 12 0 0 0 None) in
  format_date london_excerpt 1900 t true
  = (Ok "????", [Warning "Invalid date: %s" t]) /\
  format_date_long london_excerpt 1900 t true
  = (Ok "????", [Warning "Invalid date: %s" t]) /\
  format_date_long_no_day london_excerpt 1900 t true
  = (Ok "????", [Warning "Invalid date: %s" t]).
Proof.
  intros t.
  destruct (date_formatters_soft_fail london_excerpt 1900 t
              (PyDatetime (mk_datetime 1850 6 1 11 59 0 0 None)) true eq_refl)
    as (H1 & H2 & H3).
  { vm_compute. reflexivity. }
  split; [apply H1; reflexivity|].
  split; [apply H2; reflexivity | apply H3; reflexivity].
Defined.

(** ** Working days *)

(** C9: from Monday 2024-01-01, five working days without Saturdays and
    Sundays end on Monday 2024-01-08, whatever the clock shows. *)
Theorem add_working_days_over_a_weekend (now : clock) :
  date_weekday (mk_date 2024 1 1) = 0 /\
  add_working_days now 5 (Some (mk_date 2024 1 1)) false
  = Ok (mk_date 2024 1 8) /\
  date_weekday (mk_date 2024 1 8) = 0.
Proof. repeat split. Qed.

(** ** The default timestamp of [add_months] *)

(** C10: a call of [add_months] without a timestamp does not read the
    clock: two calls with the same [months], made while the clock shows
    [now1] and [now2], both return what [add_months] computes from the
    one instant the clock showed when the [def] statement ran. *)
Theorem add_months_default_is_fixed_at_definition
    (at_import now1 now2 : clock) (months : Z) :
  call_add_months (def_add_months at_import) now1 months None
  = call_add_months (def_add_months at_import) now2 months None /\
  call_add_months (def_add_months at_import) now1 months None
  = add_months months (utcnow at_import).
Proof. split; reflexivity. Qed.

(** By contrast the default date of [add_working_days] is read from the
    clock inside the body, at each call. *)
Lemma add_working_days_default_reads_the_clock :
  let t := mk_datetime 2024 1 1 0 0 0 0 None in
  add_working_days (mk_clock t (mk_date 2024 1 1)) 1 None false
  <> add_working_days (mk_clock t (mk_date 2024 1 2)) 1 None false.
Proof. intros t H. vm_compute in H. discriminate H. Qed.

(** ** The calendar: ordinals and dates *)

Ltac zdiv := Z.to_euclidean_division_equations; lia.

(** Evaluate the month tables once the month is a numeral. *)
Ltac month_tables :=
  cbv [_days_in_month _days_before_month _DAYS_IN_MONTH _DAYS_BEFORE_MONTH
       nth Z.to_nat Pos.to_nat Pos.iter_op Nat.add Init.Nat.add
       Z.eqb Z.gtb Z.compare Pos.compare Pos.compare_cont andb Pos.eqb] in *.

Lemma is_leap_cases (y : Z) :
  (_is_leap y = true /\
   y mod 4 = 0 /\ (y mod 100 <> 0 \/ y mod 400 = 0)) \/
  (_is_leap y = false /\
   (y mod 4 <> 0 \/ (y mod 100 = 0 /\ y mod 400 <> 0))).
Proof.
  unfold _is_leap.
  destruct (Z.eqb_spec (y mod 4) 0), (Z.eqb_spec (y mod 100) 0),
    (Z.eqb_spec (y mod 400) 0); simpl; intuition lia.
Qed.

Lemma days_before_year_succ (y : Z) :
  _days_before_year (y + 1) = _days_before_year y + days_in_year y.
Proof.
  unfold _days_before_year, days_in_year. cbv zeta.
  destruct (is_leap_cases y) as [(-> & H)|(-> & H)]; zdiv.
Qed.

Lemma days_before_year_mono (y1 y2 : Z) :
  y1 <= y2 -> _days_before_year y1 <= _days_before_year y2.
Proof. unfold _days_before_year. cbv zeta. intros. zdiv. Qed.

(** Within its year a valid date has a day number in [1..days_in_year]. *)
Lemma day_of_year_bounds (y m d : Z) :
  1 <= m <= 12 -> 1 <= d <= _days_in_month y m ->
  1 <= _days_before_month y m + d <= days_in_year y.
Proof.
  intros Hm. unfold days_in_year.
  each_month m Hm; month_tables; destruct (_is_leap y); lia.
Qed.

Lemma day_of_year_lt (y m1 d1 m2 d2 : Z) :
  1 <= m1 <= 12 -> 1 <= d1 <= _days_in_month y m1 ->
  1 <= m2 <= 12 -> 1 <= d2 <= _days_in_month y m2 ->
  m1 < m2 ->
  _days_before_month y m1 + d1 < _days_before_month y m2 + d2.
Proof.
  intros Hm1 Hd1 Hm2 Hd2 Hlt.
  each_month m1 Hm1; each_month m2 Hm2; try lia;
    month_tables; destruct (_is_leap y); lia.
Qed.

(** [_ymd2ord] is strictly increasing along the calendar. *)
Lemma ymd2ord_lt (y1 m1 d1 y2 m2 d2 : Z) :
  1 <= m1 <= 12 -> 1 <= d1 <= _days_in_month y1 m1 ->
  1 <= m2 <= 12 -> 1 <= d2 <= _days_in_month y2 m2 ->
  y1 < y2 \/ (y1 = y2 /\ (m1 < m2 \/ (m1 = m2 /\ d1 < d2))) ->
  _ymd2ord y1 m1 d1 < _ymd2ord y2 m2 d2.
Proof.
  intros Hm1 Hd1 Hm2 Hd2 H. unfold _ymd2ord.
  destruct H as [Hy|[-> [Hm|[-> Hd]]]].
  - pose proof (day_of_year_bounds y1 m1 d1 Hm1 Hd1).
    pose proof (day_of_year_bounds y2 m2 d2 Hm2 Hd2).
    pose proof (days_before_year_succ y1).
    pose proof (days_before_year_mono (y1 + 1) y2 ltac:(lia)). lia.
  - pose proof (day_of_year_lt y2 m1 d1 m2 d2 Hm1 Hd1 Hm2 Hd2 Hm). lia.
  - lia.
Qed.

Lemma ymd2ord_inj (y1 m1 d1 y2 m2 d2 : Z) :
  1 <= m1 <= 12 -> 1 <= d1 <= _days_in_month y1 m1 ->
  1 <= m2 <= 12 -> 1 <= d2 <= _days_in_month y2 m2 ->
  _ymd2ord y1 m1 d1 = _ymd2ord y2 m2 d2 ->
  y1 = y2 /\ m1 = m2 /\ d1 = d2.
Proof.
  intros Hm1 Hd1 Hm2 Hd2 He.
  destruct (Z.lt_total y1 y2) as [H|[H|H]].
  - pose proof (ymd2ord_lt y1 m1 d1 y2 m2 d2 Hm1 Hd1 Hm2 Hd2
                  (or_introl H)). lia.
  - subst y2. destruct (Z.lt_total m1 m2) as [Hm|[Hm|Hm]].
    + pose proof (ymd2ord_lt y1 m1 d1 y1 m2 d2 Hm1 Hd1 Hm2 Hd2
                    ltac:(right; split; [reflexivity|left; exact Hm])). lia.
    + subst m2. unfold _ymd2ord in He. lia.
    + pose proof (ymd2ord_lt y1 m2 d2 y1 m1 d1 Hm2 Hd2 Hm1 Hd1
                    ltac:(right; split; [reflexivity|left; exact Hm])). lia.
  - pose proof (ymd2ord_lt y2 m2 d2 y1 m1 d1 Hm2 Hd2 Hm1 Hd1
                  (or_introl H)). lia.
Qed.

Lemma ymd2ord_bounds (y m d : Z) :
  MINYEAR <= y <= MAXYEAR ->
  1 <= m <= 12 -> 1 <= d <= _days_in_month y m ->
  1 <= _ymd2ord y m d <= _MAXORDINAL.
Proof.
  intros Hy Hm Hd. unfold _ymd2ord.
  pose proof (day_of_year_bounds y m d Hm Hd).
  pose proof (days_before_year_mono MINYEAR y ltac:(lia)).
  pose proof (days_before_year_mono (y + 1) (MAXYEAR + 1) ltac:(lia)).
  pose proof (days_before_year_succ y).
  change (_days_before_year MINYEAR) with 0 in *.
  change (_days_before_year (MAXYEAR + 1)) with _MAXORDINAL in *.
  lia.
Qed.

(** *** From ordinals back to dates *)

Lemma all_from_spec (f : Z -> bool) (k : nat) :
  forall n, all_from k n f = true ->
            forall i, n <= i < n + Z.of_nat k -> f i = true.
Proof.
  induction k as [|k IH]; intros n H i Hi.
  - lia.
  - cbn [all_from] in H. apply andb_prop in H. destruct H as [Hn Hrest].
    destruct (Z.eq_dec i n) as [->|Hne]; [exact Hn|].
    apply (IH (n + 1) Hrest). lia.
Qed.

Lemma every_day_of_year_checked :
  all_from 365 0 (day_of_year_ok true) = true /\
  all_from 365 0 (day_of_year_ok false) = true.
Proof. split; vm_compute; reflexivity. Qed.

Lemma month_day_of_valid (y n : Z) :
  0 <= n <= 364 ->
  let '(m, d) := month_day_of (_is_leap y) n in
  1 <= m <= 12 /\ 1 <= d <= _days_in_month y m /\
  _days_before_month y m + d = n + 1.
Proof.
  intros Hn. unfold _days_in_month, _days_before_month.
  destruct every_day_of_year_checked as [Ht Hf].
  assert (Hc : day_of_year_ok (_is_leap y) n = true).
  { destruct (_is_leap y);
      [apply (all_from_spec _ _ 0 Ht) | apply (all_from_spec _ _ 0 Hf)];
      lia. }
  unfold day_of_year_ok in Hc.
  destruct (month_day_of (_is_leap y) n) as [m d].
  repeat (apply andb_prop in Hc; destruct Hc as [Hc ?]).
  repeat match goal with
  | H : (_ <=? _) = true |- _ => apply Z.leb_le in H
  | H : (_ =? _) = true |- _ => apply Z.eqb_eq in H
  end.
  lia.
Qed.

Lemma ord2ymd_unfold (n : Z) :
  _ord2ymd n =
  let n0 := n - 1 in
  let n400 := n0 / _DI400Y in
  let n100 := n0 mod _DI400Y / _DI100Y in
  let n4 := n0 mod _DI400Y mod _DI100Y / _DI4Y in
  let n1 := n0 mod _DI400Y mod _DI100Y mod _DI4Y / 365 in
  let nd := n0 mod _DI400Y mod _DI100Y mod _DI4Y mod 365 in
  let year := n400 * 400 + 1 + n100 * 100 + n4 * 4 + n1 in
  if (n1 =? 4) || (n100 =? 4) then (year - 1, 12, 31)
  else
    let '(m, d) :=
      month_day_of ((n1 =? 3) && (negb (n4 =? 24) || (n100 =? 3))) nd in
    (year, m, d).
Proof.
  unfold _ord2ymd, month_day_of. cbv zeta.
  destruct ((_ =? 4) || (_ =? 4)); [reflexivity|].
  match goal with
  | |- context [if ?c then (_, _) else (_, _)] => destruct c
  end; reflexivity.
Qed.

(** The leap flag that [_ord2ymd] derives from its quotients. *)
Lemma leap_flag (a b c e : Z) :
  0 <= b <= 3 -> 0 <= c <= 24 -> 0 <= e <= 3 ->
  (e =? 3) && (negb (c =? 24) || (b =? 3))
  = _is_leap (a * 400 + 1 + b * 100 + c * 4 + e).
Proof.
  intros Hb Hc He.
  destruct (is_leap_cases (a * 400 + 1 + b * 100 + c * 4 + e))
    as [(-> & H4 & H)|(-> & H)];
  destruct (Z.eqb_spec e 3), (Z.eqb_spec c 24), (Z.eqb_spec b 3);
    cbn [andb orb negb]; try reflexivity; exfalso; zdiv.
Qed.

Lemma days_before_quotient_year (a b c e : Z) :
  0 <= b <= 3 -> 0 <= c <= 24 -> 0 <= e <= 3 ->
  _days_before_year (a * 400 + 1 + b * 100 + c * 4 + e)
  = _DI400Y * a + _DI100Y * b + _DI4Y * c + 365 * e.
Proof.
  intros Hb Hc He.
  unfold _days_before_year, _DI400Y, _DI100Y, _DI4Y. cbv zeta. zdiv.
Qed.

(** Every ordinal in range is the ordinal of the valid date that
    [_ord2ymd] returns for it. *)
Lemma ord2ymd_valid (n : Z) :
  1 <= n <= _MAXORDINAL ->
  let '(y, m, d) := _ord2ymd n in
  _check_date_fields y m d = Ok tt /\ _ymd2ord y m d = n.
Proof.
  intros Hn. rewrite ord2ymd_unfold. cbv zeta.
  pose proof (Z.div_mod (n - 1) _DI400Y ltac:(discriminate)) as E1.
  pose proof (Z.mod_pos_bound (n - 1) _DI400Y ltac:(reflexivity)) as B1.
  set (a := (n - 1) / _DI400Y) in *.
  set (ra := (n - 1) mod _DI400Y) in *.
  pose proof (Z.div_mod ra _DI100Y ltac:(discriminate)) as E2.
  pose proof (Z.mod_pos_bound ra _DI100Y ltac:(reflexivity)) as B2.
  set (b := ra / _DI100Y) in *.
  set (rb := ra mod _DI100Y) in *.
  pose proof (Z.div_mod rb _DI4Y ltac:(discriminate)) as E3.
  pose proof (Z.mod_pos_bound rb _DI4Y ltac:(reflexivity)) as B3.
  set (c := rb / _DI4Y) in *.
  set (rc := rb mod _DI4Y) in *.
  pose proof (Z.div_mod rc 365 ltac:(discriminate)) as E4.
  pose proof (Z.mod_pos_bound rc 365 ltac:(reflexivity)) as B4.
  set (e := rc / 365) in *.
  set (nd := rc mod 365) in *.
  clearbody a ra b rb c rc e nd.
  unfold _DI400Y, _DI100Y, _DI4Y, _MAXORDINAL in *.
  assert (Ha : 0 <= a <= 24) by lia.
  assert (Hb : 0 <= b <= 4) by lia.
  assert (Hc : 0 <= c <= 24) by lia.
  assert (He : 0 <= e <= 4) by lia.
  destruct (Z.eqb_spec e 4) as [He4|He4];
    [|destruct (Z.eqb_spec b 4) as [Hb4|Hb4]]; cbn [orb].
  - (* last day of a leap year that ends a 4-year cycle *)
    assert (Hb3 : b <= 3) by lia.
    assert (Hc23 : c <= 23) by lia.
    assert (Hleap : _is_leap (a * 400 + 1 + b * 100 + c * 4 + e - 1) = true).
    { destruct (is_leap_cases (a * 400 + 1 + b * 100 + c * 4 + e - 1))
        as [(-> & _)|(_ & H)]; [reflexivity|exfalso; zdiv]. }
    split.
    + apply check_date_fields_Ok. rewrite days_in_month_december.
      unfold MINYEAR, MAXYEAR. lia.
    + unfold _ymd2ord, _days_before_month. rewrite Hleap.
      replace (a * 400 + 1 + b * 100 + c * 4 + e - 1)
        with (a * 400 + 1 + b * 100 + (c + 1) * 4 + 0 - 1) by lia.
      replace (_days_before_year
                 (a * 400 + 1 + b * 100 + (c + 1) * 4 + 0 - 1))
        with (_days_before_year (a * 400 + 1 + b * 100 + (c + 1) * 4 + 0)
              - 366).
      2:{ pose proof (days_before_year_succ
                        (a * 400 + 1 + b * 100 + (c + 1) * 4 + 0 - 1)) as Hs.
          unfold days_in_year in Hs.
          replace (a * 400 + 1 + b * 100 + (c + 1) * 4 + 0 - 1)
            with (a * 400 + 1 + b * 100 + c * 4 + e - 1) in Hs at 3 by lia.
          rewrite Hleap in Hs.
          replace (a * 400 + 1 + b * 100 + (c + 1) * 4 + 0 - 1 + 1)
            with (a * 400 + 1 + b * 100 + (c + 1) * 4 + 0) in Hs by lia.
          lia. }
      rewrite days_before_quotient_year by lia.
      unfold _DI400Y, _DI100Y, _DI4Y. cbn [nth Z.to_nat Pos.to_nat]. 
      month_tables. lia.
  - (* last day of a 400-year cycle *)
    assert (c = 0 /\ e = 0 /\ nd = 0) as (-> & -> & ->) by lia. subst b.
    assert (Hleap : _is_leap (a * 400 + 1 + 4 * 100 + 0 * 4 + 0 - 1) = true).
    { destruct (is_leap_cases (a * 400 + 1 + 4 * 100 + 0 * 4 + 0 - 1))
        as [(-> & _)|(_ & H)]; [reflexivity|exfalso; zdiv]. }
    split.
    + apply check_date_fields_Ok. rewrite days_in_month_december.
      unfold MINYEAR, MAXYEAR. lia.
    + unfold _ymd2ord, _days_before_month. rewrite Hleap.
      unfold _days_before_year. cbv zeta. month_tables. zdiv.
  - (* any other day *)
    assert (Hb3 : 0 <= b <= 3) by lia.
    assert (He3 : 0 <= e <= 3) by lia.
    rewrite (leap_flag a b c e Hb3 Hc He3).
    set (y := a * 400 + 1 + b * 100 + c * 4 + e).
    pose proof (month_day_of_valid y nd ltac:(lia)) as Hmd.
    destruct (month_day_of (_is_leap y) nd) as [m d].
    destruct Hmd as (Hm & Hd & Hdoy).
    pose proof (days_before_quotient_year a b c e Hb3 Hc He3) as Hdby.
    fold y in Hdby. unfold _DI400Y, _DI100Y, _DI4Y in Hdby.
    split.
    + apply check_date_fields_Ok. unfold MINYEAR, MAXYEAR. subst y. lia.
    + unfold _ymd2ord. lia.
Qed.

(** ... and [_ord2ymd] recovers every valid date from its ordinal. *)
Lemma ord2ymd_ymd2ord (y m d : Z) :
  _check_date_fields y m d = Ok tt ->
  _ord2ymd (_ymd2ord y m d) = (y, m, d).
Proof.
  intros Hv. apply check_date_fields_Ok in Hv. destruct Hv as (Hy & Hm & Hd).
  pose proof (ymd2ord_bounds y m d Hy Hm Hd) as Hb.
  pose proof (ord2ymd_valid _ Hb) as Ho.
  destruct (_ord2ymd (_ymd2ord y m d)) as [[y' m'] d'].
  destruct Ho as [Hv' He].
  apply check_date_fields_Ok in Hv'. destruct Hv' as (Hy' & Hm' & Hd').
  destruct (ymd2ord_inj y' m' d' y m d Hm' Hd' Hm Hd He) as (-> & -> & ->).
  reflexivity.
Qed.

(** ** Timestamps on the time line *)

Lemma as_delta_on_time_line (t : datetime) :
  valid_datetime t -> on_time_line (datetime_as_delta t).
Proof.
  intros Hv. apply valid_datetime_fields in Hv.
  destruct Hv as [(Hy & Hm & Hd) Ht].
  pose proof (ymd2ord_bounds _ _ _ Hy Hm Hd).
  unfold on_time_line, datetime_as_delta, datetime_toordinal,
    US_PER_DAY, US_PER_SECOND, _MAXORDINAL in *. lia.
Qed.

(** [datetime_add] moves a timestamp along the time line and overflows
    exactly when it would leave it. *)
Lemma datetime_add_on_time_line (t : datetime) (other : Z) :
  on_time_line (datetime_as_delta t + other) ->
  exists r, datetime_add t other = Ok r /\
            valid_datetime r /\
            datetime_as_delta r = datetime_as_delta t + other /\
            dt_tzinfo r = dt_tzinfo t.
Proof.
  intros Hl. unfold datetime_add. cbv zeta.
  set (delta := datetime_as_delta t + other) in *.
  assert (Hdays : 1 <= delta / US_PER_DAY <= _MAXORDINAL).
  { unfold on_time_line, US_PER_DAY, US_PER_SECOND, _MAXORDINAL in *. zdiv. }
  replace ((0 <? delta / US_PER_DAY) && (delta / US_PER_DAY <=? _MAXORDINAL))
    with true.
  2:{ symmetry. apply andb_true_intro. split;
      [apply Z.ltb_lt | apply Z.leb_le]; lia. }
  pose proof (ord2ymd_valid _ Hdays) as Ho.
  destruct (_ord2ymd (delta / US_PER_DAY)) as [[y m] d].
  destruct Ho as [Hv Ho].
  eexists. split; [reflexivity|].
  split; [|split; [|reflexivity]].
  - split; [exact Hv|]. cbn [hour minute second microsecond].
    apply check_time_fields_Ok.
    unfold US_PER_DAY, US_PER_SECOND. zdiv.
  - unfold datetime_as_delta at 1, datetime_toordinal.
    cbn [year month day hour minute second microsecond].
    rewrite Ho. unfold US_PER_DAY, US_PER_SECOND. zdiv.
Qed.

Lemma datetime_add_overflow (t : datetime) (other : Z) :
  ~ on_time_line (datetime_as_delta t + other) ->
  datetime_add t other = Raise OverflowError.
Proof.
  intros Hl. unfold datetime_add. cbv zeta.
  set (delta := datetime_as_delta t + other) in *.
  replace ((0 <? delta / US_PER_DAY) && (delta / US_PER_DAY <=? _MAXORDINAL))
    with false; [reflexivity|].
  symmetry. apply Bool.andb_false_iff.
  rewrite Z.ltb_ge, Z.leb_gt.
  unfold on_time_line, US_PER_DAY, US_PER_SECOND, _MAXORDINAL in *. zdiv.
Qed.

(** Two valid timestamps at the same position have the same fields. *)
Lemma as_delta_inj (a b : datetime) :
  valid_datetime a -> valid_datetime b ->
  datetime_as_delta a = datetime_as_delta b ->
  dt_tzinfo a = dt_tzinfo b ->
  a = b.
Proof.
  intros Ha Hb He Htz.
  pose proof Ha as [Hda _]. pose proof Hb as [Hdb _].
  apply valid_datetime_fields in Ha, Hb.
  destruct Ha as [(Hya & Hma & Hdda) Hta], Hb as [(Hyb & Hmb & Hddb) Htb].
  unfold datetime_as_delta, datetime_toordinal, US_PER_DAY, US_PER_SECOND
    in He.
  assert (Hord : _ymd2ord (year a) (month a) (day a)
                 = _ymd2ord (year b) (month b) (day b)) by lia.
  destruct (ymd2ord_inj _ _ _ _ _ _ Hma Hdda Hmb Hddb Hord)
    as (Hy & Hm & Hd).
  destruct a as [ya ma da ha mia sa ua tza], b as [yb mb db hb mib sb ub tzb].
  cbn [year month day hour minute second microsecond dt_tzinfo] in *.
  subst.
  assert (ha = hb) by lia.
  assert (mia = mib) by lia.
  assert (sa = sb) by lia.
  assert (ua = ub) by lia.
  subst. reflexivity.
Qed.

(** The order of the field tuples is the order of the positions. *)
Lemma datetime_cmp_as_delta (a b : datetime) :
  valid_datetime a -> valid_datetime b ->
  datetime_cmp a b = (datetime_as_delta a ?= datetime_as_delta b).
Proof.
  intros Ha Hb.
  apply valid_datetime_fields in Ha, Hb.
  destruct Ha as [(Hya & Hma & Hdda) Hta], Hb as [(Hyb & Hmb & Hddb) Htb].
  pose proof (ymd2ord_lt (year a) (month a) (day a)
                (year b) (month b) (day b) Hma Hdda Hmb Hddb) as Hab.
  pose proof (ymd2ord_lt (year b) (month b) (day b)
                (year a) (month a) (day a) Hmb Hddb Hma Hdda) as Hba.
  unfold datetime_cmp, datetime_fields. cbn [lex_compare].
  unfold datetime_as_delta, datetime_toordinal, US_PER_DAY, US_PER_SECOND.
  symmetry.
  repeat match goal with
  | |- _ = match (?x ?= ?y) with _ => _ end =>
      destruct (Z.compare_spec x y)
  end;
  first [ apply Z.compare_eq_iff | apply Z.compare_lt_iff
        | apply Z.compare_gt_iff ];
  repeat match goal with
  | H : ?x = ?y |- _ => rewrite H in *; clear H
  end;
  try (specialize (Hab ltac:(lia)));
  try (specialize (Hba ltac:(lia))); lia.
Qed.

Lemma datetime_ltb_as_delta (a b : datetime) :
  valid_datetime a -> valid_datetime b ->
  datetime_ltb a b = (datetime_as_delta a <? datetime_as_delta b).
Proof.
  intros Ha Hb. unfold datetime_ltb, Z.ltb.
  now rewrite datetime_cmp_as_delta.
Qed.

Lemma datetime_eqb_as_delta (a b : datetime) :
  valid_datetime a -> valid_datetime b ->
  datetime_eqb a b = (datetime_as_delta a =? datetime_as_delta b).
Proof.
  intros Ha Hb. unfold datetime_eqb.
  rewrite datetime_cmp_as_delta by assumption.
  symmetry. apply Z.eqb_compare.
Qed.

(** ** Zone tables *)

Lemma valid_datetimeb_true (t : datetime) :
  valid_datetimeb t = true <-> valid_datetime t.
Proof.
  unfold valid_datetimeb, valid_datetime.
  destruct (_check_date_fields (year t) (month t) (day t)) as [[]|e];
  destruct (_check_time_fields (hour t) (minute t) (second t)
              (microsecond t)) as [[]|e']; cbn; split;
    intros H; try discriminate; try reflexivity; try (split; reflexivity);
    destruct H; discriminate.
Qed.

Lemma bisect_right_pos (T : list datetime) (x : datetime) :
  forallb valid_datetimeb T = true -> valid_datetime x ->
  bisect_right T x = bisect_pos (map datetime_as_delta T)
                                (datetime_as_delta x).
Proof.
  intros HT Hx. induction T as [|t T IH]; [reflexivity|].
  cbn [forallb] in HT. apply andb_prop in HT. destruct HT as [Ht HT].
  apply valid_datetimeb_true in Ht.
  cbn [bisect_right map bisect_pos].
  rewrite (datetime_ltb_as_delta x t Hx Ht), (IH HT). reflexivity.
Qed.

Lemma bisect_pos_le_length (P : list Z) (x : Z) :
  (bisect_pos P x <= List.length P)%nat.
Proof.
  induction P as [|p P IH]; cbn [bisect_pos List.length]; [lia|].
  destruct (x <? p); lia.
Qed.

Lemma bisect_pos_mono (P : list Z) (x y : Z) :
  x <= y -> (bisect_pos P x <= bisect_pos P y)%nat.
Proof.
  intros Hxy. induction P as [|p P IH]; cbn [bisect_pos]; [lia|].
  destruct (Z.ltb_spec x p), (Z.ltb_spec y p); lia.
Qed.

(** Two days further on, at most one more transition has passed. *)
Lemma bisect_pos_spaced (P : list Z) (x : Z) :
  spaced P = true ->
  (bisect_pos P (x + 2 * US_PER_DAY) <= S (bisect_pos P x))%nat.
Proof.
  induction P as [|p P IH]; intros Hs; cbn [bisect_pos]; [lia|].
  assert (HsP : spaced P = true).
  { cbn [spaced] in Hs. destruct P; [reflexivity|].
    apply andb_prop in Hs. tauto. }
  specialize (IH HsP).
  destruct (Z.ltb_spec x p) as [Hx|Hx].
  - destruct (Z.ltb_spec (x + 2 * US_PER_DAY) p); [lia|].
    destruct P as [|q P]; cbn [bisect_pos]; [lia|].
    cbn [spaced] in Hs. apply andb_prop in Hs. destruct Hs as [Hpq _].
    apply Z.leb_le in Hpq.
    destruct (Z.ltb_spec (x + 2 * US_PER_DAY) q); lia.
  - destruct (Z.ltb_spec (x + 2 * US_PER_DAY) p);
      [unfold US_PER_DAY, US_PER_SECOND in *; lia | lia].
Qed.

(** Between a day before and a day after a position, the entry in force
    is the one at either end. *)
Lemma info_at_between (z : DstTzInfo) (l u : Z) :
  wf_zone z = true ->
  l - US_PER_DAY <= u <= l + US_PER_DAY ->
  info_at z u = info_at z (l - US_PER_DAY) \/
  info_at z u = info_at z (l + US_PER_DAY).
Proof.
  intros Hwf Hu. unfold wf_zone in Hwf.
  repeat (apply andb_prop in Hwf; destruct Hwf as [Hwf ?]).
  unfold info_at.
  set (P := map datetime_as_delta (_utc_transition_times z)) in *.
  pose proof (bisect_pos_mono P (l - US_PER_DAY) u ltac:(lia)).
  pose proof (bisect_pos_mono P u (l + US_PER_DAY) ltac:(lia)).
  pose proof (bisect_pos_spaced P (l - US_PER_DAY) ltac:(assumption)) as Hsp.
  replace (l - US_PER_DAY + 2 * US_PER_DAY) with (l + US_PER_DAY) in Hsp
    by lia.
  assert (Hcases : bisect_pos P u = bisect_pos P (l - US_PER_DAY) \/
                   bisect_pos P u = bisect_pos P (l + US_PER_DAY)) by lia.
  destruct Hcases as [->| ->]; [left|right]; reflexivity.
Qed.

Lemma offset_at_bounds (z : DstTzInfo) (p : Z) :
  wf_zone z = true -> - US_PER_DAY < offset_at z p < US_PER_DAY.
Proof.
  intros Hwf. unfold wf_zone in Hwf.
  repeat (apply andb_prop in Hwf; destruct Hwf as [Hwf ?]).
  apply Nat.ltb_lt in Hwf.
  match goal with H : (_ =? _)%nat = true |- _ => apply Nat.eqb_eq in H end.
  match goal with
  | H : forallb _ (_transition_info z) = true |- _ =>
      rewrite forallb_forall in H;
      specialize (H (info_at z p))
  end.
  unfold offset_at.
  match goal with H : In _ _ -> _ |- _ => rename H into Hin end.
  assert (Hi : In (info_at z p) (_transition_info z)).
  { unfold info_at. apply nth_In.
    pose proof (bisect_pos_le_length
                  (map datetime_as_delta (_utc_transition_times z)) p) as Hb.
    rewrite length_map in Hb. lia. }
  specialize (Hin Hi). apply andb_prop in Hin.
  rewrite !Z.ltb_lt in Hin. lia.
Qed.

(** [transition_at] finds the entry [info_at]. *)
Lemma transition_at_info_at (z : DstTzInfo) (t : datetime) :
  wf_zone z = true -> valid_datetime t ->
  transition_at z t = Ok (info_at z (datetime_as_delta t)).
Proof.
  intros Hwf Ht. unfold wf_zone in Hwf.
  repeat (apply andb_prop in Hwf; destruct Hwf as [Hwf ?]).
  apply Nat.ltb_lt in Hwf.
  match goal with H : (_ =? _)%nat = true |- _ => apply Nat.eqb_eq in H end.
  unfold transition_at, info_at, getitem.
  rewrite bisect_right_pos by assumption.
  set (i := (bisect_pos _ _ - 1)%nat).
  replace (Nat.max 0 i) with i by lia.
  assert (Hi : (i < List.length (_transition_info z))%nat).
  { subst i.
    pose proof (bisect_pos_le_length
                  (map datetime_as_delta (_utc_transition_times z))
                  (datetime_as_delta t)) as Hb.
    rewrite length_map in Hb. lia. }
  rewrite nth_error_nth' with (d := (0, 0, "")) by exact Hi. reflexivity.
Qed.

(** ** The zone functions on the time line *)

Lemma replace_tzinfo_valid (t : datetime) (tz : option tzinfo) :
  valid_datetime t -> valid_datetime (replace_tzinfo t tz).
Proof. intros H. exact H. Qed.

Lemma replace_tzinfo_as_delta (t : datetime) (tz : option tzinfo) :
  datetime_as_delta (replace_tzinfo t tz) = datetime_as_delta t.
Proof. reflexivity. Qed.

Lemma replace_tzinfo_same (t : datetime) :
  replace_tzinfo t (dt_tzinfo t) = t.
Proof. destruct t; reflexivity. Qed.

Lemma tzinfos_zone (z : DstTzInfo) (inf : transition_info) :
  tz_zone (_tzinfos z inf) = Some (zone z).
Proof. destruct inf as [[off dst] name]. reflexivity. Qed.

Lemma tzinfos_utcoffset (z : DstTzInfo) (inf : transition_info) :
  tz_utcoffset (_tzinfos z inf) = info_offset inf.
Proof. destruct inf as [[off dst] name]. reflexivity. Qed.

(** A valid timestamp is what one gets back from its own position. *)
Lemma datetime_add_zero (t : datetime) :
  valid_datetime t -> datetime_add t 0 = Ok t.
Proof.
  intros Hv.
  destruct (datetime_add_on_time_line t 0) as (r & Hr & Hvr & Hp & Htz).
  { rewrite Z.add_0_r. now apply as_delta_on_time_line. }
  rewrite Hr. f_equal. apply as_delta_inj; try assumption. lia.
Qed.

(** [fromutc] on a timestamp of this zone, or a naive one. *)
Lemma fromutc_on_time_line (z : DstTzInfo) (u : datetime) :
  wf_zone z = true ->
  valid_datetime u ->
  match dt_tzinfo u with
  | Some tz => tz_zone tz = Some (zone z)
  | None => True
  end ->
  on_time_line (local_of z (datetime_as_delta u)) ->
  exists r, fromutc z u = Ok r /\
            valid_datetime r /\
            datetime_as_delta r = local_of z (datetime_as_delta u) /\
            dt_tzinfo r
            = Some (_tzinfos z (info_at z (datetime_as_delta u))).
Proof.
  intros Hwf Hv Hzone Hl. unfold fromutc.
  replace (match dt_tzinfo u with
           | Some tz =>
               match tz_zone tz with
               | Some z0 => negb (String.eqb z0 (zone z))
               | None => true
               end
           | None => false
           end) with false.
  2:{ destruct (dt_tzinfo u) as [tz|]; [|reflexivity].
      rewrite Hzone, String.eqb_refl. reflexivity. }
  rewrite (transition_at_info_at z (replace_tzinfo u None) Hwf Hv).
  rewrite replace_tzinfo_as_delta. cbn [bind].
  destruct (datetime_add_on_time_line (replace_tzinfo u None)
              (fst (fst (info_at z (datetime_as_delta u)))))
    as (r & Hr & Hvr & Hp & Htz).
  { rewrite replace_tzinfo_as_delta. exact Hl. }
  rewrite Hr. cbn [bind]. eexists. split; [reflexivity|].
  split; [exact Hvr|]. split; [|reflexivity].
  rewrite replace_tzinfo_as_delta, Hp, replace_tzinfo_as_delta. reflexivity.
Qed.

(** [normalize] re-reads the local clock at the instant that a tagged
    timestamp denotes. *)
Lemma normalize_on_time_line (z : DstTzInfo) (t : datetime) (tz : tzinfo) :
  wf_zone z = true ->
  valid_datetime t ->
  dt_tzinfo t = Some tz ->
  let u := datetime_as_delta t - tz_utcoffset tz in
  on_time_line u ->
  on_time_line (local_of z u) ->
  exists r, normalize z t = Ok r /\
            valid_datetime r /\
            datetime_as_delta r = local_of z u /\
            dt_tzinfo r = Some (_tzinfos z (info_at z u)).
Proof.
  intros Hwf Hv Htz u Hu Hlu. unfold normalize. rewrite Htz.
  cbv zeta. unfold datetime_sub.
  destruct (datetime_add_on_time_line (replace_tzinfo t None)
              (- tz_utcoffset tz)) as (v & Hv' & Hvv & Hpv & Htzv).
  { rewrite replace_tzinfo_as_delta. exact Hu. }
  rewrite Hv'. cbn [bind].
  rewrite replace_tzinfo_as_delta in Hpv.
  assert (Hpv' : datetime_as_delta v = u) by (subst u; lia).
  destruct (fromutc_on_time_line z v Hwf Hvv) as (r & Hr & Hvr & Hpr & Htzr).
  { rewrite Htzv. exact I. }
  { rewrite Hpv'. exact Hlu. }
  rewrite Hpv' in Hpr, Htzr. exists r. auto.
Qed.

(** One candidate of [localize]: the entry in force at [l + delta],
    accepted when it reads [l] on the local clock. *)
Lemma localize_candidate_on_time_line (z : DstTzInfo) (l : datetime)
    (delta : Z) :
  wf_zone z = true ->
  valid_datetime l ->
  on_time_line (datetime_as_delta l + delta) ->
  let u := datetime_as_delta l
           - offset_at z (datetime_as_delta l + delta) in
  on_time_line u ->
  on_time_line (local_of z u) ->
  exists r, valid_datetime r /\
            datetime_as_delta r = local_of z u /\
            dt_tzinfo r = Some (_tzinfos z (info_at z u)) /\
            localize_candidate z l delta
            = Ok (if datetime_as_delta r =? datetime_as_delta l
                  then Some r else None).
Proof.
  intros Hwf Hv Hd u Hu Hlu. unfold localize_candidate.
  destruct (datetime_add_on_time_line l delta Hd)
    as (loc & Hloc & Hvloc & Hploc & _).
  rewrite Hloc. cbn [bind].
  rewrite (transition_at_info_at z loc Hwf Hvloc), Hploc. cbn [bind].
  set (tz := _tzinfos z (info_at z (datetime_as_delta l + delta))).
  destruct (normalize_on_time_line z (replace_tzinfo l (Some tz)) tz Hwf Hv
              eq_refl) as (r & Hr & Hvr & Hpr & Htzr).
  { subst tz. rewrite tzinfos_utcoffset, replace_tzinfo_as_delta. exact Hu. }
  { subst tz. rewrite tzinfos_utcoffset, replace_tzinfo_as_delta. exact Hlu. }
  rewrite Hr. cbn [bind].
  subst tz. rewrite tzinfos_utcoffset, replace_tzinfo_as_delta in Hpr, Htzr.
  fold (offset_at z (datetime_as_delta l + delta)) in Hpr, Htzr.
  exists r. split; [exact Hvr|]. split; [exact Hpr|]. split; [exact Htzr|].
  rewrite (datetime_eqb_as_delta (replace_tzinfo r None) l)
    by assumption.
  rewrite replace_tzinfo_as_delta.
  destruct (datetime_as_delta r =? datetime_as_delta l); reflexivity.
Qed.

Lemma on_time_line_dec (p : Z) : {on_time_line p} + {~ on_time_line p}.
Proof.
  unfold on_time_line.
  destruct (Z_le_dec US_PER_DAY p), (Z_lt_dec p ((_MAXORDINAL + 1) * US_PER_DAY));
    (left; lia) || (right; lia).
Qed.

Lemma on_time_line_between (a b p : Z) :
  on_time_line a -> on_time_line b -> a <= p <= b -> on_time_line p.
Proof. unfold on_time_line. lia. Qed.

Lemma fromutc_overflow (z : DstTzInfo) (u : datetime) :
  wf_zone z = true ->
  valid_datetime u ->
  dt_tzinfo u = Some (self_tzinfo z) ->
  ~ on_time_line (local_of z (datetime_as_delta u)) ->
  fromutc z u = Raise OverflowError.
Proof.
  intros Hwf Hv Htz Hl. unfold fromutc. rewrite Htz.
  unfold self_tzinfo. rewrite tzinfos_zone, String.eqb_refl. cbn [negb].
  rewrite (transition_at_info_at z (replace_tzinfo u None) Hwf Hv).
  rewrite replace_tzinfo_as_delta. cbn [bind].
  rewrite datetime_add_overflow; [reflexivity|].
  rewrite replace_tzinfo_as_delta. exact Hl.
Qed.

(** [to_local_time] on a naive timestamp: the UTC reading is taken to
    the local clock, and the conversion overflows when the local
    reading falls off the time line. *)
Lemma to_local_time_naive (z : DstTzInfo) (u : datetime) :
  wf_zone z = true -> valid_datetime u -> dt_tzinfo u = None ->
  (on_time_line (local_of z (datetime_as_delta u)) ->
   exists l, to_local_time z (PyDatetime u) = Ok (PyDatetime l) /\
             valid_datetime l /\ dt_tzinfo l = None /\
             datetime_as_delta l = local_of z (datetime_as_delta u)) /\
  (~ on_time_line (local_of z (datetime_as_delta u)) ->
   to_local_time z (PyDatetime u) = Raise OverflowError).
Proof.
  intros Hwf Hv Hn.
  assert (Hstart : to_local_time z (PyDatetime u)
                   = (r <- fromutc z (replace_tzinfo u (Some (self_tzinfo z))) ;;
                      Ok (PyDatetime (replace_tzinfo r None)))).
  { unfold to_local_time, utc_localize. rewrite Hn. cbn [bind].
    unfold astimezone_dst. cbn [dt_tzinfo replace_tzinfo utc tz_utcoffset].
    unfold datetime_sub. cbn [Z.opp].
    rewrite datetime_add_zero by exact Hv. reflexivity. }
  rewrite Hstart. split; intros Hl.
  - destruct (fromutc_on_time_line z (replace_tzinfo u (Some (self_tzinfo z)))
                Hwf Hv) as (r & Hr & Hvr & Hpr & Htzr).
    { cbn [dt_tzinfo replace_tzinfo]. unfold self_tzinfo.
      apply tzinfos_zone. }
    { exact Hl. }
    rewrite Hr. cbn [bind]. eexists. split; [reflexivity|].
    split; [exact Hvr|]. split; [reflexivity|]. exact Hpr.
  - rewrite fromutc_overflow; try assumption; reflexivity.
Qed.

Lemma to_local_time_naive_inv (z : DstTzInfo) (u l : datetime) :
  wf_zone z = true -> valid_datetime u -> dt_tzinfo u = None ->
  to_local_time z (PyDatetime u) = Ok (PyDatetime l) ->
  valid_datetime l /\ dt_tzinfo l = None /\
  datetime_as_delta l = local_of z (datetime_as_delta u).
Proof.
  intros Hwf Hv Hn Hl.
  destruct (to_local_time_naive z u Hwf Hv Hn) as [Hin Hout].
  destruct (on_time_line_dec (local_of z (datetime_as_delta u))) as [H|H].
  - destruct (Hin H) as (l' & Hl' & Hvl & Hnl & Hpl).
    rewrite Hl in Hl'. inversion Hl'; subst l'. auto.
  - rewrite (Hout H) in Hl. discriminate Hl.
Qed.

Lemma aware_eqb_refl (t : datetime) : aware_eqb t t = true.
Proof. unfold aware_eqb. apply Z.eqb_refl. Qed.

(** When exactly one UTC position reads [l] on the local clock,
    [localize] attaches the entry in force there. *)
Lemma localize_finds_the_instant (z : DstTzInfo) (l : datetime)
    (pu : Z) (depth : nat) :
  wf_zone z = true ->
  valid_datetime l -> dt_tzinfo l = None ->
  on_time_line pu ->
  local_of z pu = datetime_as_delta l ->
  (forall p', on_time_line p' -> local_of z p' = datetime_as_delta l ->
              p' = pu) ->
  on_time_line (datetime_as_delta l - 2 * US_PER_DAY) ->
  on_time_line (datetime_as_delta l + 2 * US_PER_DAY) ->
  exists p, localize (S depth) z l = Ok p /\
            valid_datetime p /\
            datetime_as_delta p = datetime_as_delta l /\
            dt_tzinfo p = Some (_tzinfos z (info_at z pu)).
Proof.
  intros Hwf Hv Hn Hpu Hloc Huniq Hlo Hhi.
  set (pl := datetime_as_delta l) in *.
  pose proof (offset_at_bounds z pu Hwf) as Hob.
  assert (Hpl : pl = pu + offset_at z pu) by (unfold local_of in Hloc; lia).
  assert (Hminus : pl + timedelta_days (-1) = pl - US_PER_DAY)
    by (unfold timedelta_days; lia).
  assert (Hplus : pl + timedelta_days 1 = pl + US_PER_DAY)
    by (unfold timedelta_days; lia).
  assert (HD : 0 < US_PER_DAY) by (unfold US_PER_DAY, US_PER_SECOND; lia).
  (* both candidates *)
  assert (Hcand : forall delta,
            pl + delta = pl - US_PER_DAY \/ pl + delta = pl + US_PER_DAY ->
            exists r, valid_datetime r /\
              datetime_as_delta r
              = local_of z (pl - offset_at z (pl + delta)) /\
              dt_tzinfo r
              = Some (_tzinfos z (info_at z (pl - offset_at z (pl + delta)))) /\
              localize_candidate z l delta
              = Ok (if datetime_as_delta r =? pl then Some r else None)).
  { intros delta Hdelta.
    pose proof (offset_at_bounds z (pl + delta) Hwf) as Hb1.
    pose proof (offset_at_bounds z (pl - offset_at z (pl + delta)) Hwf)
      as Hb2.
    apply (localize_candidate_on_time_line z l delta Hwf Hv).
    - apply (on_time_line_between _ _ _ Hlo Hhi). fold pl. lia.
    - apply (on_time_line_between _ _ _ Hlo Hhi). fold pl. lia.
    - apply (on_time_line_between _ _ _ Hlo Hhi). fold pl.
      unfold local_of. lia. }
  destruct (Hcand (timedelta_days (-1)) (or_introl Hminus))
    as (r1 & Hv1 & Hp1 & Htz1 & Hc1).
  destruct (Hcand (timedelta_days 1) (or_intror Hplus))
    as (r2 & Hv2 & Hp2 & Htz2 & Hc2).
  clear Hcand.
  (* the timestamp that both candidates are, when accepted *)
  assert (Hsame : forall r delta,
            valid_datetime r ->
            datetime_as_delta r
            = local_of z (pl - offset_at z (pl + delta)) ->
            dt_tzinfo r
            = Some (_tzinfos z (info_at z (pl - offset_at z (pl + delta)))) ->
            pl + delta = pl - US_PER_DAY \/ pl + delta = pl + US_PER_DAY ->
            datetime_as_delta r = pl ->
            dt_tzinfo r = Some (_tzinfos z (info_at z pu))).
  { intros r delta Hvr Hpr Htzr Hdelta Heq.
    pose proof (offset_at_bounds z (pl + delta) Hwf) as Hb1.
    assert (pl - offset_at z (pl + delta) = pu) as Hu.
    { apply Huniq; [|lia].
      apply (on_time_line_between _ _ _ Hlo Hhi). lia. }
    rewrite Htzr, Hu. reflexivity. }
  (* one of them is accepted *)
  assert (Hone : datetime_as_delta r1 = pl \/ datetime_as_delta r2 = pl).
  { destruct (info_at_between z pl pu Hwf ltac:(lia)) as [Hi|Hi].
    - left. rewrite Hp1, Hminus. unfold offset_at at 1. rewrite <- Hi.
      fold (offset_at z pu). replace (pl - offset_at z pu) with pu by lia.
      exact Hloc.
    - right. rewrite Hp2, Hplus. unfold offset_at at 1. rewrite <- Hi.
      fold (offset_at z pu). replace (pl - offset_at z pu) with pu by lia.
      exact Hloc. }
  cbn [localize]. rewrite Hn, Hc1, Hc2. cbn [bind].
  destruct (Z.eqb_spec (datetime_as_delta r1) pl) as [E1|E1];
  destruct (Z.eqb_spec (datetime_as_delta r2) pl) as [E2|E2].
  - assert (r2 = r1).
    { apply as_delta_inj; try assumption; [lia|].
      rewrite (Hsame r1 _ Hv1 Hp1 Htz1 (or_introl Hminus) E1).
      apply (Hsame r2 _ Hv2 Hp2 Htz2 (or_intror Hplus) E2). }
    subst r2. cbn [possible_add existsb app orb].
    rewrite aware_eqb_refl. cbn [orb].
    exists r1. split; [reflexivity|]. split; [exact Hv1|].
    split; [exact E1|].
    apply (Hsame r1 _ Hv1 Hp1 Htz1 (or_introl Hminus) E1).
  - cbn [possible_add existsb app].
    exists r1. split; [reflexivity|]. split; [exact Hv1|].
    split; [exact E1|].
    apply (Hsame r1 _ Hv1 Hp1 Htz1 (or_introl Hminus) E1).
  - cbn [possible_add existsb app].
    exists r2. split; [reflexivity|]. split; [exact Hv2|].
    split; [exact E2|].
    apply (Hsame r2 _ Hv2 Hp2 Htz2 (or_intror Hplus) E2).
  - exfalso. destruct Hone; contradiction.
Qed.

(** ** The ends of the time line *)

Lemma bisect_pos_before (P : list Z) (x : Z) :
  Forall (fun p => x < p) P -> bisect_pos P x = 0%nat.
Proof.
  intros H. destruct H as [|p P Hp _]; [reflexivity|].
  cbn [bisect_pos]. destruct (Z.ltb_spec x p); [reflexivity|lia].
Qed.

Lemma bisect_pos_after (P : list Z) (x : Z) :
  Forall (fun p => p <= x) P -> bisect_pos P x = List.length P.
Proof.
  induction 1 as [|p P Hp _ IH]; [reflexivity|].
  cbn [bisect_pos List.length]. rewrite IH.
  destruct (Z.ltb_spec x p); [lia|reflexivity].
Qed.

Lemma quiet_ends_positions (z : DstTzInfo) :
  quiet_ends z = true ->
  Forall (fun p => 4 * US_PER_DAY <= p <= (_MAXORDINAL - 2) * US_PER_DAY)
         (tl (map datetime_as_delta (_utc_transition_times z))).
Proof.
  unfold quiet_ends. intros H.
  destruct (_utc_transition_times z) as [|t0 T]; [constructor|].
  cbn [tl map] in *. induction T as [|t T IH]; [constructor|].
  cbn [forallb map] in *. apply andb_prop in H. destruct H as [Ht HT].
  apply andb_prop in Ht. rewrite !Z.leb_le in Ht.
  constructor; [exact Ht|exact (IH HT)].
Qed.

(** Within three days of the start of the time line the first entry is
    in force. *)
Lemma info_at_same_low (z : DstTzInfo) (p q : Z) :
  quiet_ends z = true ->
  p < 4 * US_PER_DAY -> q < 4 * US_PER_DAY ->
  info_at z p = info_at z q.
Proof.
  intros Hq Hp Hq'. apply quiet_ends_positions in Hq. unfold info_at.
  destruct (map datetime_as_delta (_utc_transition_times z)) as [|p0 P];
    [reflexivity|].
  cbn [tl] in Hq. cbn [bisect_pos].
  rewrite (bisect_pos_before P p), (bisect_pos_before P q)
    by (eapply Forall_impl; [|exact Hq]; cbv beta; lia).
  destruct (p <? p0), (q <? p0); reflexivity.
Qed.

(** Within three days of its end the last entry is. *)
Lemma info_at_same_high (z : DstTzInfo) (p q : Z) :
  wf_zone z = true ->
  quiet_ends z = true ->
  (_MAXORDINAL - 2) * US_PER_DAY <= p ->
  (_MAXORDINAL - 2) * US_PER_DAY <= q ->
  info_at z p = info_at z q.
Proof.
  intros Hwf Hq Hp Hq'. apply quiet_ends_positions in Hq.
  unfold wf_zone in Hwf.
  repeat (apply andb_prop in Hwf; destruct Hwf as [Hwf ?]).
  match goal with H : spaced _ = true |- _ => rename H into Hs end.
  unfold info_at.
  destruct (map datetime_as_delta (_utc_transition_times z)) as [|p0 P];
    [reflexivity|].
  cbn [tl] in Hq. cbn [bisect_pos].
  rewrite (bisect_pos_after P p), (bisect_pos_after P q)
    by (eapply Forall_impl; [|exact Hq]; cbv beta; lia).
  assert (HD : 0 < US_PER_DAY) by (unfold US_PER_DAY, US_PER_SECOND; lia).
  destruct (Z.ltb_spec p p0), (Z.ltb_spec q p0); try reflexivity;
    (destruct P as [|p1 P]; [reflexivity|]);
    exfalso; cbn [spaced] in Hs; apply andb_prop in Hs;
    destruct Hs as [Hs _]; apply Z.leb_le in Hs;
    inversion Hq; subst; lia.
Qed.

(** A probe off the time line gives no candidate. *)
Lemma localize_candidate_skipped (z : DstTzInfo) (l : datetime) (delta : Z) :
  ~ on_time_line (datetime_as_delta l + delta) ->
  localize_candidate z l delta = Ok None.
Proof.
  intros H. unfold localize_candidate.
  rewrite (datetime_add_overflow l delta H). reflexivity.
Qed.

(** Where the entry in force does not change from one probe of
    [localize] to the other, the probes that stay on the time line find
    the instant. *)
Lemma localize_in_a_quiet_stretch (z : DstTzInfo) (l : datetime)
    (pu : Z) (depth : nat) :
  wf_zone z = true ->
  valid_datetime l -> dt_tzinfo l = None ->
  on_time_line pu ->
  local_of z pu = datetime_as_delta l ->
  (forall delta, on_time_line (datetime_as_delta l + delta) ->
                 delta = timedelta_days (-1) \/ delta = timedelta_days 1 ->
                 info_at z (datetime_as_delta l + delta) = info_at z pu) ->
  on_time_line (datetime_as_delta l + timedelta_days (-1)) \/
  on_time_line (datetime_as_delta l + timedelta_days 1) ->
  exists p, localize (S depth) z l = Ok p /\
            valid_datetime p /\
            datetime_as_delta p = datetime_as_delta l /\
            dt_tzinfo p = Some (_tzinfos z (info_at z pu)).
Proof.
  intros Hwf Hv Hn Hpu Hloc Hsame Hone.
  set (pl := datetime_as_delta l) in *.
  assert (Hpl : pl = pu + offset_at z pu) by (unfold local_of in Hloc; lia).
  assert (Hcand : forall delta,
            delta = timedelta_days (-1) \/ delta = timedelta_days 1 ->
            (~ on_time_line (pl + delta) /\
             localize_candidate z l delta = Ok None) \/
            (on_time_line (pl + delta) /\
             exists r, valid_datetime r /\ datetime_as_delta r = pl /\
                       dt_tzinfo r = Some (_tzinfos z (info_at z pu)) /\
                       localize_candidate z l delta = Ok (Some r))).
  { intros delta Hdelta.
    destruct (on_time_line_dec (pl + delta)) as [Hon|Hoff].
    - right. split; [exact Hon|].
      assert (Hu : pl - offset_at z (pl + delta) = pu).
      { unfold offset_at at 1. rewrite (Hsame delta Hon Hdelta).
        fold (offset_at z pu). lia. }
      destruct (localize_candidate_on_time_line z l delta Hwf Hv Hon)
        as (r & Hvr & Hpr & Htzr & Hc).
      { fold pl. rewrite Hu. exact Hpu. }
      { fold pl. rewrite Hu, Hloc. now apply as_delta_on_time_line. }
      fold pl in Hpr, Htzr. rewrite Hu in Hpr, Htzr. rewrite Hloc in Hpr.
      exists r. split; [exact Hvr|]. split; [exact Hpr|].
      split; [exact Htzr|].
      rewrite Hc. fold pl. rewrite Hpr, Z.eqb_refl. reflexivity.
    - left. split; [exact Hoff|].
      now apply localize_candidate_skipped. }
  cbn [localize]. rewrite Hn.
  destruct (Hcand _ (or_introl eq_refl))
    as [[Hoff1 Hc1]|[Hon1 (r1 & Hv1 & Hp1 & Htz1 & Hc1)]];
  destruct (Hcand _ (or_intror eq_refl))
    as [[Hoff2 Hc2]|[Hon2 (r2 & Hv2 & Hp2 & Htz2 & Hc2)]];
  rewrite Hc1, Hc2; cbn [bind possible_add existsb app].
  - exfalso. destruct Hone; contradiction.
  - exists r2. auto.
  - exists r1. auto.
  - assert (r2 = r1)
      by (apply as_delta_inj; try assumption; [lia|congruence]).
    subst r2. rewrite aware_eqb_refl. cbn [orb].
    exists r1. auto.
Qed.

(** ** Round trips *)

(** Uniqueness of the UTC timestamp gives uniqueness of its position. *)
Lemma unique_reading_position (z : DstTzInfo) (u l : datetime) :
  wf_zone z = true ->
  valid_datetime l -> dt_tzinfo l = None ->
  reads_locally z u l ->
  (forall u', reads_locally z u' l -> u' = u) ->
  forall p', on_time_line p' ->
             local_of z p' = datetime_as_delta l ->
             p' = datetime_as_delta u.
Proof.
  intros Hwf Hvl Hnl (Hvu & Hnu & Hul) Huniq p' Hp' Hloc.
  destruct (datetime_add_on_time_line u (p' - datetime_as_delta u))
    as (u' & _ & Hvu' & Hpu' & Htzu').
  { replace (datetime_as_delta u + (p' - datetime_as_delta u)) with p'
      by lia. exact Hp'. }
  assert (Hp : datetime_as_delta u' = p') by lia.
  rewrite Hnu in Htzu'.
  destruct (to_local_time_naive z u' Hwf Hvu' Htzu') as [Hin _].
  destruct Hin as (l' & Hl' & Hvl' & Hnl' & Hpl').
  { rewrite Hp, Hloc. now apply as_delta_on_time_line. }
  assert (l' = l).
  { apply as_delta_inj; try assumption; [|congruence].
    rewrite Hpl', Hp. exact Hloc. }
  subst l'.
  rewrite <- (Huniq u' (conj Hvu' (conj Htzu' Hl'))). symmetry. exact Hp.
Qed.

(** [to_utc_time] on a naive local timestamp that exactly one UTC
    timestamp reads as. *)
Lemma to_utc_time_unambiguous (z : DstTzInfo) (u l : datetime) :
  wf_zone z = true ->
  quiet_ends z = true ->
  reads_locally z u l ->
  (forall u', reads_locally z u' l -> u' = u) ->
  to_utc_time z (PyDatetime l) = Ok (PyDatetime u).
Proof.
  intros Hwf Hq Hreads Huniq.
  pose proof Hreads as (Hvu & Hnu & Hul).
  destruct (to_local_time_naive_inv z u l Hwf Hvu Hnu Hul)
    as (Hvl & Hnl & Hpl).
  pose proof (as_delta_on_time_line u Hvu) as Hpu.
  pose proof (as_delta_on_time_line l Hvl) as Hon.
  pose proof (offset_at_bounds z (datetime_as_delta u) Hwf) as Hob.
  assert (HD : US_PER_DAY = 86400000000) by reflexivity.
  assert (HM : _MAXORDINAL = 3652059) by reflexivity.
  assert (Hloc : exists p, localize (S 999) z l = Ok p /\
                   valid_datetime p /\
                   datetime_as_delta p = datetime_as_delta l /\
                   dt_tzinfo p
                   = Some (_tzinfos z (info_at z (datetime_as_delta u)))).
  { unfold local_of in Hpl. unfold on_time_line in Hpu, Hon.
    destruct (Z_lt_ge_dec (datetime_as_delta l) (3 * US_PER_DAY)) as [Hlow|Hlow];
      [|destruct (Z_lt_ge_dec (datetime_as_delta l)
                    ((_MAXORDINAL - 1) * US_PER_DAY)) as [Hmid|Hhigh]].
    - apply (localize_in_a_quiet_stretch z l (datetime_as_delta u) 999 Hwf
               Hvl Hnl (as_delta_on_time_line u Hvu) (eq_sym Hpl)).
      + intros delta _ [->| ->]; apply (info_at_same_low z _ _ Hq);
          unfold timedelta_days; lia.
      + right. unfold on_time_line, timedelta_days. lia.
    - apply (localize_finds_the_instant z l (datetime_as_delta u) 999 Hwf
               Hvl Hnl (as_delta_on_time_line u Hvu) (eq_sym Hpl)
               (unique_reading_position z u l Hwf Hvl Hnl Hreads Huniq));
        unfold on_time_line; lia.
    - apply (localize_in_a_quiet_stretch z l (datetime_as_delta u) 999 Hwf
               Hvl Hnl (as_delta_on_time_line u Hvu) (eq_sym Hpl)).
      + intros delta _ [->| ->]; apply (info_at_same_high z _ _ Hwf Hq);
          unfold timedelta_days; lia.
      + left. unfold on_time_line, timedelta_days. lia. }
  destruct Hloc as (p & Hp & Hvp & Hpp & Htzp).
  unfold to_utc_time. rewrite Hnl.
  change recursion_limit with (S 999). rewrite Hp. cbn [bind].
  unfold astimezone_utc. rewrite Htzp, tzinfos_utcoffset.
  fold (offset_at z (datetime_as_delta u)).
  unfold datetime_sub.
  destruct (datetime_add_on_time_line p (- offset_at z (datetime_as_delta u)))
    as (v & Hv & Hvv & Hpv & Htzv).
  { replace (datetime_as_delta p + - offset_at z (datetime_as_delta u))
      with (datetime_as_delta u) by (unfold local_of in Hpl; lia).
    now apply as_delta_on_time_line. }
  rewrite Hv. cbn [bind]. unfold utc_fromutc.
  rewrite datetime_add_zero by exact Hvv. cbn [bind].
  f_equal. f_equal.
  apply as_delta_inj; try assumption.
  - rewrite !replace_tzinfo_as_delta, Hpv. unfold local_of in Hpl. lia.
  - rewrite Hnu. reflexivity.
Qed.

(** Uniqueness of the position gives uniqueness of the timestamp. *)
Lemma unique_position_reading (z : DstTzInfo) (u l : datetime) :
  wf_zone z = true ->
  reads_locally z u l ->
  (forall p', local_of z p' = datetime_as_delta l ->
              p' = datetime_as_delta u) ->
  forall u', reads_locally z u' l -> u' = u.
Proof.
  intros Hwf (Hvu & Hnu & Hul) Huniq u' (Hvu' & Hnu' & Hul').
  destruct (to_local_time_naive_inv z u' l Hwf Hvu' Hnu' Hul')
    as (_ & _ & Hpl).
  apply as_delta_inj; try assumption; [|congruence].
  apply Huniq. symmetry. exact Hpl.
Qed.

Lemma london_excerpt_wf : wf_zone london_excerpt = true.
Proof. vm_compute. reflexivity. Qed.

Lemma london_excerpt_quiet : quiet_ends london_excerpt = true.
Proof. vm_compute. reflexivity. Qed.

(** The offsets of the excerpt, by position. *)
Lemma london_excerpt_offset_at (p : Z) :
  offset_at london_excerpt p =
  if p <? 63834224400000000 then -60000000
  else if p <? 63847530000000000 then 0
  else if p <? 63865674000000000 then 3600000000
  else 0.
Proof.
  unfold offset_at, info_at.
  change (map datetime_as_delta (_utc_transition_times london_excerpt))
    with [86400000000; 63834224400000000; 63847530000000000;
          63865674000000000].
  cbn [bisect_pos].
  destruct (p <? 86400000000) eqn:E0;
  destruct (p <? 63834224400000000) eqn:E1;
  destruct (p <? 63847530000000000) eqn:E2;
  destruct (p <? 63865674000000000) eqn:E3;
  try reflexivity;
  rewrite ?Z.ltb_lt, ?Z.ltb_ge in *; lia.
Qed.

(** C4 (amended): every naive (untagged) UTC timestamp whose local
    reading is unambiguous comes back from
    [to_utc_time (to_local_time i)] as it was, and every naive local
    timestamp that is unambiguous comes back from
    [to_local_time (to_utc_time i)] as it was.  The zone table has
    increasing transition times at least two days apart, none after the
    first within three days of an end of the time line, and offsets
    shorter than a day. *)
Theorem naive_round_trips (local : DstTzInfo) :
  wf_zone local = true ->
  quiet_ends local = true ->
  (forall i l,
     valid_datetime i -> dt_tzinfo i = None ->
     to_local_time local (PyDatetime i) = Ok (PyDatetime l) ->
     unambiguous local l ->
     l' <- to_local_time local (PyDatetime i) ;; to_utc_time local l'
     = Ok (PyDatetime i)) /\
  (forall i,
     valid_datetime i -> dt_tzinfo i = None ->
     unambiguous local i ->
     u <- to_utc_time local (PyDatetime i) ;; to_local_time local u
     = Ok (PyDatetime i)).
Proof.
  intros Hwf Hq. split.
  - intros i l Hv Hn Hl (u & Hu & Huniq).
    assert (Hi : reads_locally local i l) by exact (conj Hv (conj Hn Hl)).
    rewrite Hl. cbn [bind].
    rewrite (Huniq i Hi) in *.
    now apply to_utc_time_unambiguous.
  - intros i Hv Hn (u & Hu & Huniq).
    rewrite (to_utc_time_unambiguous local u i Hwf Hq Hu Huniq).
    cbn [bind]. destruct Hu as (_ & _ & Hu). exact Hu.
Qed.

(** In the excerpt, a local reading with one UTC position is
    unambiguous; the position is found by cases on the offsets. *)
Ltac excerpt_unique_position :=
  let p := fresh "p" in
  let H := fresh "H" in
  intros p H; unfold local_of in H;
  rewrite london_excerpt_offset_at in H;
  match type of H with
  | _ = ?d => let v := eval vm_compute in d in change d with v in H
  end;
  match goal with
  | |- _ = ?d => let v := eval vm_compute in d in change d with v
  end;
  repeat match type of H with
  | context [?a <? ?b] => destruct (Z.ltb_spec a b)
  end; lia.

Lemma excerpt_reads_locally (u l : datetime) :
  valid_datetimeb u = true ->
  dt_tzinfo u = None ->
  to_local_time london_excerpt (PyDatetime u) = Ok (PyDatetime l) ->
  reads_locally london_excerpt u l.
Proof.
  intros Hv Hn Hl. apply valid_datetimeb_true in Hv.
  exact (conj Hv (conj Hn Hl)).
Qed.

Lemma excerpt_summer_noon_unambiguous :
  unambiguous london_excerpt (mk_datetime 2024 7 1 13 0 0 0 None).
Proof.
  exists (mk_datetime 2024 7 1 12 0 0 0 None).
  assert (Hr : reads_locally london_excerpt
                 (mk_datetime 2024 7 1 12 0 0 0 None)
                 (mk_datetime 2024 7 1 13 0 0 0 None))
    by (apply excerpt_reads_locally; vm_compute; reflexivity).
  split; [exact Hr|].
  apply (unique_position_reading _ _ _ london_excerpt_wf Hr).
  excerpt_unique_position.
Qed.

Lemma excerpt_winter_noon_unambiguous :
  unambiguous london_excerpt (mk_datetime 2024 1 15 12 0 0 0 None).
Proof.
  exists (mk_datetime 2024 1 15 12 0 0 0 None).
  assert (Hr : reads_locally london_excerpt
                 (mk_datetime 2024 1 15 12 0 0 0 None)
                 (mk_datetime 2024 1 15 12 0 0 0 None))
    by (apply excerpt_reads_locally; vm_compute; reflexivity).
  split; [exact Hr|].
  apply (unique_position_reading _ _ _ london_excerpt_wf Hr).
  excerpt_unique_position.
Qed.

Lemma excerpt_last_noon_unambiguous :
  unambiguous london_excerpt (mk_datetime 9999 12 31 12 0 0 0 None).
Proof.
  exists (mk_datetime 9999 12 31 12 0 0 0 None).
  assert (Hr : reads_locally london_excerpt
                 (mk_datetime 9999 12 31 12 0 0 0 None)
                 (mk_datetime 9999 12 31 12 0 0 0 None))
    by (apply excerpt_reads_locally; vm_compute; reflexivity).
  split; [exact Hr|].
  apply (unique_position_reading _ _ _ london_excerpt_wf Hr).
  excerpt_unique_position.
Qed.

(** C4 (witness): noon UTC on 2024-07-01 is 13:00 in London and comes
    back as noon; 13:00 London time goes to noon UTC and comes back;
    and so does noon on the last day of the time line. *)
Lemma naive_round_trips_witness :
  let noon := mk_datetime 2024 7 1 12 0 0 0 None in
  let one := mk_datetime 2024 7 1 13 0 0 0 None in
  let last := mk_datetime 9999 12 31 12 0 0 0 None in
  (l' <- to_local_time london_excerpt (PyDatetime noon) ;;
   to_utc_time london_excerpt l' = Ok (PyDatetime noon)) /\
  (u <- to_utc_time london_excerpt (PyDatetime one) ;;
   to_local_time london_excerpt u = Ok (PyDatetime one)) /\
  (u <- to_utc_time london_excerpt (PyDatetime last) ;;
   to_local_time london_excerpt u = Ok (PyDatetime last)).
Proof.
  intros noon one last.
  destruct (naive_round_trips london_excerpt london_excerpt_wf
              london_excerpt_quiet) as [Hutc Hlocal].
  split; [|split].
  - apply (Hutc noon one).
    + split; reflexivity.
    + reflexivity.
    + vm_compute. reflexivity.
    + exact excerpt_summer_noon_unambiguous.
  - apply (Hlocal one).
    + split; reflexivity.
    + reflexivity.
    + exact excerpt_summer_noon_unambiguous.
  - apply (Hlocal last).
    + split; reflexivity.
    + reflexivity.
    + exact excerpt_last_noon_unambiguous.
Defined.

(** C4 (counterexample): noon UTC on 2024-01-15, tagged [pytz.utc], has
    an unambiguous local reading but comes back without its tag, which
    is another value. *)
Lemma tagged_instants_do_not_round_trip :
  ~ utc_round_trip london_excerpt
      (mk_datetime 2024 1 15 12 0 0 0 (Some utc)).
Proof.
  intros H.
  specialize (H (mk_datetime 2024 1 15 12 0 0 0 None)
                ltac:(vm_compute; reflexivity)
                excerpt_winter_noon_unambiguous).
  vm_compute in H. discriminate H.
Qed.

(** A timestamp tagged [pytz.utc] is converted like the naive timestamp
    with the same fields, so its round trip returns that one. *)
Lemma utc_tagged_like_naive (local : DstTzInfo) (i : datetime) :
  dt_tzinfo i = Some utc ->
  to_local_time local (PyDatetime i)
  = to_local_time local (PyDatetime (replace_tzinfo i None)).
Proof.
  intros Htz. unfold to_local_time, utc_localize. rewrite Htz.
  cbn [dt_tzinfo replace_tzinfo tz_zone utc String.eqb Ascii.eqb Bool.eqb
       bind].
  f_equal. destruct i; cbn in *; subst; reflexivity.
Qed.

(** Whatever timestamp a conversion returns is naive. *)
Lemma conversions_return_naive (local : DstTzInfo) (t : datetime)
    (v : pyvalue) :
  to_local_time local (PyDatetime t) = Ok v \/
  to_utc_time local (PyDatetime t) = Ok v ->
  exists r, v = PyDatetime r /\ dt_tzinfo r = None.
Proof.
  unfold to_local_time, to_utc_time.
  intros [H|H];
    match type of H with
    | bind ?a _ = _ => destruct a as [x|]; [|discriminate H]
    end; cbn [bind] in H;
    match type of H with
    | bind ?a _ = _ => destruct a as [y|]; [|discriminate H]
    end; cbn [bind] in H;
    inversion H; eexists; split; reflexivity.
Qed.

(** So a tagged timestamp never comes back from a round trip as it
    was. *)
Lemma tagged_timestamps_come_back_naive (local : DstTzInfo) (i : datetime) :
  dt_tzinfo i <> None ->
  l' <- to_local_time local (PyDatetime i) ;; to_utc_time local l'
  <> Ok (PyDatetime i) /\
  u <- to_utc_time local (PyDatetime i) ;; to_local_time local u
  <> Ok (PyDatetime i).
Proof.
  intros Htag. split; intros H.
  - destruct (to_local_time local (PyDatetime i)) as [v|] eqn:E;
      [|discriminate H].
    destruct (conversions_return_naive local i v (or_introl E))
      as (l & -> & _).
    cbn [bind] in H.
    destruct (conversions_return_naive local l _ (or_intror H))
      as (r & Hr & Hn).
    inversion Hr; subst r. contradiction.
  - destruct (to_utc_time local (PyDatetime i)) as [v|] eqn:E;
      [|discriminate H].
    destruct (conversions_return_naive local i v (or_intror E))
      as (l & -> & _).
    cbn [bind] in H.
    destruct (conversions_return_naive local l _ (or_introl H))
      as (r & Hr & Hn).
    inversion Hr; subst r. contradiction.
Qed.

(** ** The inner loop of [add_working_days] leaves by its guard *)

Lemma date_add_one_day (d d1 : date) :
  date_add_days d 1 = Ok d1 ->
  valid_date d1 /\ date_weekday d1 = (date_weekday d + 1) mod 7.
Proof.
  unfold date_add_days. cbv zeta.
  destruct ((0 <? date_toordinal d + 1)
            && (date_toordinal d + 1 <=? _MAXORDINAL)) eqn:E;
    [|discriminate].
  apply andb_prop in E. destruct E as [E1 E2].
  apply Z.ltb_lt in E1. apply Z.leb_le in E2.
  intros H. inversion H; subst d1; clear H.
  pose proof (ord2ymd_valid (date_toordinal d + 1) ltac:(lia)) as Ho.
  unfold date_fromordinal, valid_date, date_weekday.
  destruct (_ord2ymd (date_toordinal d + 1)) as [[y m] dd].
  destruct Ho as [Hv Ho]. split; [exact Hv|].
  unfold date_toordinal at 1. cbn [d_year d_month d_day]. rewrite Ho.
  zdiv.
Qed.

Lemma while_skipped_not_skipped (fuel : nat) (inc : bool) (d : date) :
  is_skipped inc d = false -> while_skipped fuel inc d = Ok d.
Proof. intros H. destruct fuel; cbn [while_skipped]; [|rewrite H]; reflexivity. Qed.

(** Two rounds are enough: the day after a skipped Saturday is a
    Sunday, the day after a Sunday is a Monday. *)
Lemma while_skipped_exits (fuel : nat) (inc : bool) (d d' : date) :
  (2 <= fuel)%nat ->
  while_skipped fuel inc d = Ok d' ->
  is_skipped inc d' = false.
Proof.
  intros Hfuel. destruct fuel as [|[|fuel]]; try lia. clear Hfuel.
  cbn [while_skipped].
  destruct (is_skipped inc d) eqn:Hs0.
  2:{ intros H. inversion H; subst. exact Hs0. }
  destruct (date_add_days d 1) as [d1|e] eqn:Hd1; [|discriminate].
  cbn [bind]. destruct (date_add_one_day d d1 Hd1) as [_ Hw1].
  destruct (is_skipped inc d1) eqn:Hs1.
  2:{ intros H. inversion H; subst. exact Hs1. }
  destruct (date_add_days d1 1) as [d2|e] eqn:Hd2; [|discriminate].
  cbn [bind]. destruct (date_add_one_day d1 d2 Hd2) as [_ Hw2].
  assert (Hs2 : is_skipped inc d2 = false).
  { unfold is_skipped in *.
    pose proof (Z.mod_pos_bound (date_toordinal d + 6) 7 ltac:(lia)) as Hb.
    fold (date_weekday d) in Hb.
    destruct inc; cbn [negb andb] in *;
      rewrite ?Bool.orb_false_r, ?Bool.orb_true_iff, ?Z.eqb_eq in Hs0, Hs1;
      apply Bool.orb_false_iff; rewrite ?Z.eqb_neq; cbn [andb];
      rewrite ?Z.eqb_neq; (split; [|try reflexivity]); zdiv. }
  rewrite (while_skipped_not_skipped fuel inc d2 Hs2).
  intros H. inversion H; subst. exact Hs2.
Qed.

(** * Further properties *)

(** ** More on [add_months] *)

Lemma first_attempt_succeeds (months : Z) (t : datetime) :
  valid_datetime t ->
  ~ day_missing months t ->
  MINYEAR <= target_year months t <= MAXYEAR ->
  datetime_new (target_year months t) (target_month months t) (day t)
               (hour t) (minute t) (second t) 0 None
  = Ok (mk_datetime (target_year months t) (target_month months t) (day t)
                    (hour t) (minute t) (second t) 0 None).
Proof.
  intros Hv Hm Hy. apply datetime_new_Ok.
  - apply check_date_fields_Ok.
    pose proof (target_month_range months t).
    apply valid_datetime_fields in Hv. unfold day_missing in Hm. lia.
  - now apply time_fields_without_microsecond.
Qed.

(** Outside the years of the calendar every branch ends in an
    exception. *)
Lemma add_months_out_of_range (months : Z) (t : datetime) :
  valid_datetime t ->
  ~ MINYEAR <= target_year months t <= MAXYEAR ->
  add_months months t = Raise (add_months_error months t).
Proof.
  intros Hv Hy.
  pose proof (target_month_range months t) as Hm.
  pose proof (valid_datetime_fields t Hv) as [(Hyt & _) _].
  pose proof (valid_day_bounds t Hv) as Hday.
  unfold add_months_error, handler_year.
  unfold MINYEAR, MAXYEAR, INT_MIN, INT_MAX in *.
  rewrite add_months_unfold. cbv zeta.
  destruct (Z.leb_spec (-2147483648) (target_year months t)) as [Hlo|Hlo];
    [|rewrite datetime_new_Overflow
        by (unfold INT_MIN, INT_MAX; lia); reflexivity].
  destruct (Z.leb_spec (target_year months t) 2147483647) as [Hhi|Hhi].
  2:{ rewrite datetime_new_Overflow by (unfold INT_MIN, INT_MAX; lia).
      cbn [andb try_except_ValueError].
      destruct ((months >? 0) && (target_month months t =? 12));
        [destruct (Z.leb_spec (target_year months t + 1) 2147483647)
        |destruct (Z.leb_spec (target_year months t) 2147483647)];
        reflexivity || lia. }
  rewrite datetime_new_Raise.
  2:{ apply (add_months_arguments_fit _ _ _ t Hv);
        unfold INT_MIN, INT_MAX; lia. }
  2:{ apply check_date_fields_Raise. unfold MINYEAR, MAXYEAR. lia. }
  cbn [try_except_ValueError andb].
  destruct (Z.gtb_spec months 0) as [Hpos|Hneg]; cbn [andb].
  - pose proof (target_year_forward months t Hv Hpos).
    unfold month_after.
    destruct (Z.eqb_spec (target_month months t) 12) as [E|E].
    + destruct (Z.leb_spec (target_year months t + 1) 2147483647).
      * apply datetime_new_Raise.
        -- apply (add_months_arguments_fit _ _ _ t Hv);
             unfold INT_MIN, INT_MAX; lia.
        -- apply check_date_fields_Raise. unfold MINYEAR, MAXYEAR. lia.
      * apply datetime_new_Overflow. unfold INT_MIN, INT_MAX. lia.
    + destruct (Z.leb_spec (target_year months t) 2147483647); [|lia].
      apply datetime_new_Raise.
      * apply (add_months_arguments_fit _ _ _ t Hv);
          unfold INT_MIN, INT_MAX; lia.
      * apply check_date_fields_Raise. unfold MINYEAR, MAXYEAR. lia.
  - pose proof (target_year_backward months t Hv Hneg).
    destruct (monthrange_days (target_year months t) (target_month months t)
                Hm) as [day1 Hmr].
    rewrite Hmr. cbn [bind snd].
    pose proof (days_in_month_bounds (target_year months t)
                  (target_month months t) Hm).
    destruct (Z.leb_spec (target_year months t) 2147483647); [|lia].
    apply datetime_new_Raise.
    + apply (add_months_arguments_fit _ _ _ t Hv);
        unfold INT_MIN, INT_MAX; lia.
    + apply check_date_fields_Raise. unfold MINYEAR, MAXYEAR. lia.
Qed.

(** [add_months] in one equation. *)
Lemma add_months_closed (months : Z) (t : datetime) :
  valid_datetime t ->
  add_months months t =
  if (MINYEAR <=? target_year months t) && (target_year months t <=? MAXYEAR)
  then
    let '(y, m, d) := add_months_day months t in
    Ok (mk_datetime y m d (hour t) (minute t) (second t) 0 None)
  else Raise (add_months_error months t).
Proof.
  intros Hv.
  destruct ((MINYEAR <=? target_year months t)
            && (target_year months t <=? MAXYEAR)) eqn:E.
  - apply andb_prop in E. destruct E as [E1 E2].
    apply Z.leb_le in E1, E2. unfold add_months_day. cbv zeta.
    destruct (Z.leb_spec (day t)
                (_days_in_month (target_year months t)
                                (target_month months t))) as [Hd|Hd].
    + rewrite add_months_unfold. cbv zeta.
      rewrite (first_attempt_succeeds months t Hv
                 ltac:(unfold day_missing; lia) (conj E1 E2)).
      reflexivity.
    + destruct (Z.gtb_spec months 0) as [Hpos|Hneg].
      * rewrite (add_months_missing_forward months t Hv Hpos Hd).
        destruct (Z.leb_spec (target_year months t) MAXYEAR);
          [reflexivity|lia].
      * rewrite (add_months_missing_backward months t Hv Hneg Hd).
        destruct (Z.leb_spec MINYEAR (target_year months t));
          [reflexivity|lia].
  - apply add_months_out_of_range; [exact Hv|].
    apply Bool.andb_false_iff in E. rewrite Z.leb_gt, Z.leb_gt in E. lia.
Qed.

Lemma add_months_day_small (months : Z) (t : datetime) :
  day t <= 28 ->
  add_months_day months t
  = (target_year months t, target_month months t, day t).
Proof.
  intros Hd. unfold add_months_day. cbv zeta.
  pose proof (days_in_month_bounds (target_year months t)
                (target_month months t) (target_month_range months t)).
  destruct (Z.leb_spec (day t)
              (_days_in_month (target_year months t)
                              (target_month months t))); [reflexivity|lia].
Qed.

(** Months add up when the day exists in every month. *)
Lemma add_months_then (a b : Z) (t r : datetime) :
  valid_datetime t ->
  day t <= 28 ->
  add_months a t = Ok r ->
  add_months b r = add_months (a + b) t.
Proof.
  intros Hv Hd Ha.
  pose proof (valid_datetime_fields t Hv) as [(Hy & Hm & Hdd) Ht].
  rewrite (add_months_closed a t Hv), add_months_day_small in Ha
    by exact Hd.
  destruct ((MINYEAR <=? target_year a t) && (target_year a t <=? MAXYEAR))
    eqn:Ea; [|discriminate Ha].
  apply andb_prop in Ea. destruct Ea as [Ea1 Ea2]. apply Z.leb_le in Ea1, Ea2.
  inversion Ha; subst r; clear Ha.
  set (r := mk_datetime (target_year a t) (target_month a t) (day t)
                        (hour t) (minute t) (second t) 0 None).
  assert (Hvr : valid_datetime r).
  { split; cbn [r year month day hour minute second microsecond].
    - apply check_date_fields_Ok.
      pose proof (days_in_month_bounds (target_year a t) (target_month a t)
                    (target_month_range a t)).
      pose proof (target_month_range a t). lia.
    - now apply time_fields_without_microsecond. }
  assert (HM : target_month b r = target_month (a + b) t).
  { unfold target_month. cbn [r month]. unfold target_month. zdiv. }
  assert (HY : target_year b r = target_year (a + b) t).
  { unfold target_year. cbn [r year month].
    unfold target_year, target_month. zdiv. }
  rewrite (add_months_closed b r Hvr), (add_months_closed (a + b) t Hv).
  rewrite !add_months_day_small by (cbn [r day]; exact Hd).
  unfold add_months_error, handler_year. rewrite HM, HY.
  destruct ((MINYEAR <=? target_year (a + b) t)
            && (target_year (a + b) t <=? MAXYEAR)) eqn:E; [reflexivity|].
  replace (b >? 0) with (a + b >? 0); [reflexivity|].
  apply Bool.andb_false_iff in E. rewrite !Z.leb_gt in E.
  assert (Hyr : year r = target_year a t) by reflexivity.
  destruct (Z.gtb_spec (a + b) 0) as [Hab|Hab],
           (Z.gtb_spec b 0) as [Hb|Hb]; try reflexivity; exfalso.
  - pose proof (target_year_forward (a + b) t Hv Hab).
    pose proof (target_year_backward b r Hvr Hb). lia.
  - pose proof (target_year_backward (a + b) t Hv Hab).
    pose proof (target_year_forward b r Hvr Hb). lia.
Qed.

(** Adding no months keeps everything but the microsecond and the tag. *)
Lemma add_months_zero (t : datetime) :
  valid_datetime t ->
  add_months 0 t
  = Ok (mk_datetime (year t) (month t) (day t) (hour t) (minute t)
                    (second t) 0 None).
Proof.
  intros Hv.
  pose proof (valid_datetime_fields t Hv) as [(Hy & Hm & Hdd) Ht].
  assert (HM : target_month 0 t = month t) by (unfold target_month; zdiv).
  assert (HY : target_year 0 t = year t) by (unfold target_year; zdiv).
  rewrite (add_months_closed 0 t Hv). unfold add_months_day. cbv zeta.
  rewrite HM, HY.
  replace ((MINYEAR <=? year t) && (year t <=? MAXYEAR)) with true
    by (symmetry; apply andb_true_intro; split; apply Z.leb_le; lia).
  replace (day t <=? _days_in_month (year t) (month t)) with true
    by (symmetry; apply Z.leb_le; lia).
  reflexivity.
Qed.

(** X1: on a valid timestamp [add_months] returns exactly when the
    target year is within [MINYEAR..MAXYEAR].  Otherwise it raises
    [ValueError] when the years it passes to the constructor fit a C
    [int], and [OverflowError] when one does not; it raises nothing
    else. *)
Theorem add_months_returns_iff_year_in_range (months : Z) (t : datetime) :
  valid_datetime t ->
  match add_months months t with
  | Ok _ => MINYEAR <= target_year months t <= MAXYEAR
  | Raise e =>
      ~ MINYEAR <= target_year months t <= MAXYEAR /\
      (INT_MIN <= target_year months t /\ handler_year months t <= INT_MAX ->
       e = ValueError) /\
      (~ (INT_MIN <= target_year months t /\
          handler_year months t <= INT_MAX) ->
       e = OverflowError)
  end.
Proof.
  intros Hv. rewrite (add_months_closed months t Hv).
  destruct ((MINYEAR <=? target_year months t)
            && (target_year months t <=? MAXYEAR)) eqn:E.
  - apply andb_prop in E. rewrite !Z.leb_le in E.
    destruct (add_months_day months t) as [[y m] d]. exact E.
  - apply Bool.andb_false_iff in E. rewrite !Z.leb_gt in E.
    split; [lia|]. unfold add_months_error.
    destruct (Z.leb_spec INT_MIN (target_year months t)),
             (Z.leb_spec (handler_year months t) INT_MAX);
      cbn [andb]; split; intros Hfit; reflexivity || lia.
Qed.

(** X1 (witness): 1000 years after June 9000 is the year 10000. *)
Lemma add_months_returns_iff_year_in_range_witness :
  match add_months 12000 (mk_datetime 9000 6 15 0 0 0 0 None) with
  | Ok _ => MINYEAR <= 10000 <= MAXYEAR
  | Raise e =>
      ~ MINYEAR <= 10000 <= MAXYEAR /\
      (INT_MIN <= 10000 /\ 10000 <= INT_MAX -> e = ValueError) /\
      (~ (INT_MIN <= 10000 /\ 10000 <= INT_MAX) -> e = OverflowError)
  end.
Proof.
  apply (add_months_returns_iff_year_in_range 12000
           (mk_datetime 9000 6 15 0 0 0 0 None)).
  split; reflexivity.
Defined.

(** Two to the 31st years ahead the first constructor call already
    fails, with the [OverflowError] that the handler does not catch. *)
Lemma add_months_past_a_C_int :
  add_months (12 * 2147483648) (mk_datetime 2024 1 15 0 0 0 0 None)
  = Raise OverflowError.
Proof.
  rewrite add_months_out_of_range.
  - reflexivity.
  - split; reflexivity.
  - vm_compute. intros [_ H]. apply H. reflexivity.
Qed.

(** X2: when the day of month exists in the target month and the target
    year is representable, [add_months] returns that day of the target
    month at the hour, minute and second of the input, with microsecond
    0 and no [tzinfo]. *)
Theorem add_months_keeps_existing_day (months : Z) (t : datetime) :
  valid_datetime t ->
  day t <= _days_in_month (target_year months t) (target_month months t) ->
  MINYEAR <= target_year months t <= MAXYEAR ->
  add_months months t
  = Ok (mk_datetime (target_year months t) (target_month months t) (day t)
                    (hour t) (minute t) (second t) 0 None).
Proof.
  intros Hv Hd Hy. rewrite add_months_unfold. cbv zeta.
  rewrite (first_attempt_succeeds months t Hv
             ltac:(unfold day_missing; lia) Hy).
  reflexivity.
Qed.

Lemma add_months_keeps_existing_day_witness :
  add_months (-25) (mk_datetime 2024 1 15 1 2 3 4 (Some utc))
  = Ok (mk_datetime 2021 12 15 1 2 3 0 None).
Proof.
  apply (add_months_keeps_existing_day (-25)
           (mk_datetime 2024 1 15 1 2 3 4 (Some utc))).
  - split; reflexivity.
  - vm_compute. discriminate.
  - split; vm_compute; discriminate.
Defined.

(** X3: every timestamp that [add_months] returns is a valid naive
    timestamp on a whole second, at the hour, minute and second of the
    input, in the target month or the one after it, and on a day of
    month that is not later than the input's. *)
Theorem add_months_result_shape (months : Z) (t r : datetime) :
  valid_datetime t ->
  add_months months t = Ok r ->
  valid_datetime r /\ dt_tzinfo r = None /\ microsecond r = 0 /\
  hour r = hour t /\ minute r = minute t /\ second r = second t /\
  day r <= day t /\
  ((year r, month r) = (target_year months t, target_month months t) \/
   (year r, month r)
   = month_after (target_year months t) (target_month months t)).
Proof.
  intros Hv Hr.
  pose proof (valid_datetime_fields t Hv) as [(Hy & Hm & Hdd) Ht].
  pose proof (target_month_range months t) as HM.
  pose proof (days_in_month_bounds (target_year months t)
                (target_month months t) HM) as Hdim.
  rewrite (add_months_closed months t Hv) in Hr.
  destruct ((MINYEAR <=? target_year months t)
            && (target_year months t <=? MAXYEAR)) eqn:E;
    [|discriminate Hr].
  apply andb_prop in E. rewrite !Z.leb_le in E.
  unfold add_months_day in Hr. cbv zeta in Hr.
  destruct (Z.leb_spec (day t)
              (_days_in_month (target_year months t)
                              (target_month months t))) as [Hd|Hd];
    [|destruct (Z.gtb_spec months 0) as [Hpos|Hneg]];
    inversion Hr; subst r; clear Hr;
    cbn [year month day hour minute second microsecond dt_tzinfo].
  - split; [split|].
    + apply check_date_fields_Ok. cbn. lia.
    + cbn [hour minute second microsecond].
      now apply time_fields_without_microsecond.
    + repeat split; try lia. left; reflexivity.
  - assert (Hdec : target_month months t <= 11)
      by (apply (day_missing_not_december months t Hv); exact Hd).
    pose proof (days_in_month_bounds (target_year months t)
                  (target_month months t + 1) ltac:(lia)).
    split; [split|].
    + apply check_date_fields_Ok. cbn. lia.
    + cbn [hour minute second microsecond].
      now apply time_fields_without_microsecond.
    + repeat split; try lia. right. unfold month_after.
      destruct (Z.eqb_spec (target_month months t) 12); [lia|reflexivity].
  - split; [split|].
    + apply check_date_fields_Ok. cbn. lia.
    + cbn [hour minute second microsecond].
      now apply time_fields_without_microsecond.
    + repeat split; try lia. left; reflexivity.
Qed.

Lemma add_months_result_shape_witness :
  let t := mk_datetime 2024 1 31 23 59 59 999999 (Some utc) in
  let r := mk_datetime 2024 3 1 23 59 59 0 None in
  valid_datetime r /\ dt_tzinfo r = None /\ microsecond r = 0 /\
  hour r = hour t /\ minute r = minute t /\ second r = second t /\
  day r <= day t /\
  ((year r, month r) = (target_year 1 t, target_month 1 t) \/
   (year r, month r) = month_after (target_year 1 t) (target_month 1 t)).
Proof.
  intros t r. apply (add_months_result_shape 1 t r).
  - split; reflexivity.
  - reflexivity.
Defined.

(** X4: for a timestamp on a day of month that every month has (at
    most the 28th) and a count [a] whose target year is within
    [MINYEAR..MAXYEAR], adding [a] months and then [b] months is adding
    [a + b] months, whether that returns or raises. *)
Theorem add_months_composes (a b : Z) (t : datetime) :
  valid_datetime t ->
  day t <= 28 ->
  MINYEAR <= target_year a t <= MAXYEAR ->
  r <- add_months a t ;; add_months b r
  = add_months (a + b) t.
Proof.
  intros Hv Hd Hy.
  destruct (add_months a t) as [r|e] eqn:Ha.
  - cbn [bind]. exact (add_months_then a b t r Hv Hd Ha).
  - rewrite (add_months_closed a t Hv) in Ha.
    replace ((MINYEAR <=? target_year a t) && (target_year a t <=? MAXYEAR))
      with true in Ha
      by (symmetry; apply andb_true_intro; split; apply Z.leb_le; lia).
    destruct (add_months_day a t) as [[y m] d]. discriminate Ha.
Qed.

Lemma add_months_composes_witness :
  r <- add_months (-7) (mk_datetime 2024 8 28 10 0 0 0 None) ;;
  add_months 20 r
  = add_months (-7 + 20) (mk_datetime 2024 8 28 10 0 0 0 None).
Proof.
  apply (add_months_composes (-7) 20
           (mk_datetime 2024 8 28 10 0 0 0 None)).
  - split; reflexivity.
  - vm_compute. discriminate.
  - split; vm_compute; discriminate.
Defined.

(** X5: for a naive timestamp on a whole second and on a day of month
    that every month has, and a count whose target year is within
    [MINYEAR..MAXYEAR], adding the months and taking them away again
    returns the timestamp. *)
Theorem add_months_back_and_forth (months : Z) (t : datetime) :
  valid_datetime t ->
  day t <= 28 ->
  microsecond t = 0 ->
  dt_tzinfo t = None ->
  MINYEAR <= target_year months t <= MAXYEAR ->
  r <- add_months months t ;; add_months (- months) r
  = Ok t.
Proof.
  intros Hv Hd Hus Htz Hy.
  destruct (add_months months t) as [r|e] eqn:Hr.
  - cbn [bind].
    rewrite (add_months_then months (- months) t r Hv Hd Hr).
    replace (months + - months) with 0 by lia.
    rewrite (add_months_zero t Hv).
    destruct t as [y m d h mi s us tz].
    cbn [year month day hour minute second microsecond dt_tzinfo] in *.
    subst. reflexivity.
  - rewrite (add_months_closed months t Hv) in Hr.
    replace ((MINYEAR <=? target_year months t)
             && (target_year months t <=? MAXYEAR))
      with true in Hr
      by (symmetry; apply andb_true_intro; split; apply Z.leb_le; lia).
    destruct (add_months_day months t) as [[y m] d]. discriminate Hr.
Qed.

Lemma add_months_back_and_forth_witness :
  r <- add_months 14 (mk_datetime 2024 2 28 8 30 0 0 None) ;;
  add_months (- 14) r
  = Ok (mk_datetime 2024 2 28 8 30 0 0 None).
Proof.
  apply (add_months_back_and_forth 14
           (mk_datetime 2024 2 28 8 30 0 0 None)).
  - split; reflexivity.
  - vm_compute. discriminate.
  - reflexivity.
  - reflexivity.
  - split; vm_compute; discriminate.
Defined.

(** X6: the two [while] loops of [add_months] stop with the month in
    [1..12] and with as many years carried as the months hold: they
    compute the floor division of [new_month - 1] by 12, for negative
    counts too. *)
Theorem month_loops_carry_years (new_month : Z) :
  let '(m, years) := normalise_month new_month in
  1 <= m <= 12 /\
  m + 12 * years = new_month /\
  years = (new_month - 1) / 12.
Proof.
  pose proof (normalise_month_range new_month) as Hr. cbv zeta in Hr.
  rewrite normalise_month_closed in *. cbn [fst snd] in Hr.
  destruct Hr as [H1 H2]. repeat split; lia.
Qed.

(** A date is built, or rejected with one of two exceptions. *)
Lemma date_new_cases (y m d : Z) :
  date_new y m d = Ok (mk_date y m d) \/
  date_new y m d = Raise ValueError \/
  date_new y m d = Raise OverflowError.
Proof.
  unfold date_new. cbn [as_c_ints]. unfold as_c_int.
  repeat match goal with
         | |- context [if ?c then Ok tt else Raise OverflowError] =>
             destruct c; cbn [bind]; [|right; right; reflexivity]
         end.
  unfold _check_date_fields.
  repeat match goal with
         | |- context [if ?c then Raise ValueError else _] =>
             destruct c; [right; left; reflexivity|]
         end.
  left. reflexivity.
Qed.

(** The timestamp constructor at midnight accepts and rejects what the
    date constructor does. *)
Lemma datetime_new_at_midnight (y m d : Z) :
  datetime_new y m d 0 0 0 0 None
  = x <- date_new y m d ;; Ok (mk_datetime y m d 0 0 0 0 None).
Proof.
  unfold datetime_new, date_new. cbn [as_c_ints].
  change (as_c_int 0) with (Ok tt (A := unit)).
  destruct (as_c_int y) as [[]|]; [|reflexivity].
  destruct (as_c_int m) as [[]|]; [|reflexivity].
  destruct (as_c_int d) as [[]|]; [|reflexivity].
  cbn [bind].
  destruct (_check_date_fields y m d) as [[]|]; reflexivity.
Qed.

(** X7: [add_months_to_date] returns what [add_months] returns for
    midnight of the same date: as a [datetime.date] when the day exists
    in the target month, and as that very timestamp when it does not. *)
Theorem add_months_to_date_follows_add_months (months : Z) (d : date) :
  add_months_to_date months d =
  r <- add_months months (midnight d) ;;
  Ok (if is_ok (date_new (target_year months (midnight d))
                         (target_month months (midnight d)) (d_day d))
      then PyDate (mk_date (year r) (month r) (day r))
      else PyDatetime r).
Proof.
  unfold add_months_to_date, add_months, target_year, target_month,
    midnight.
  cbn [year month day hour minute second microsecond].
  rewrite normalise_month_closed.
  set (y := d_year d + (d_month d + months - 1) / 12).
  set (m := (d_month d + months - 1) mod 12 + 1).
  rewrite (datetime_new_at_midnight y m (d_day d)).
  destruct (date_new_cases y m (d_day d)) as [E|[E|E]]; rewrite E.
  - reflexivity.
  - cbn [bind try_except_ValueError is_ok].
    destruct (months >? 0).
    + destruct (m + 1 >? 12);
        match goal with
        | |- bind ?c _ = bind ?c _ => destruct c; reflexivity
        end.
    + destruct (monthrange y m) as [range|]; [|reflexivity].
      cbn [bind].
      match goal with
      | |- bind ?c _ = bind ?c _ => destruct c; reflexivity
      end.
  - reflexivity.
Qed.

(** X8: when the day of month exists in the target month and the target
    year is representable, [add_months_to_date] returns that day of the
    target month as a date. *)
Theorem add_months_to_date_keeps_existing_day (months : Z) (d : date) :
  valid_date d ->
  d_day d <= _days_in_month (target_year months (midnight d))
                            (target_month months (midnight d)) ->
  MINYEAR <= target_year months (midnight d) <= MAXYEAR ->
  add_months_to_date months d
  = Ok (PyDate (mk_date (target_year months (midnight d))
                        (target_month months (midnight d)) (d_day d))).
Proof.
  intros Hv Hd Hy.
  apply check_date_fields_Ok in Hv.
  pose proof (target_month_range months (midnight d)) as HM.
  unfold add_months_to_date.
  rewrite normalise_month_closed.
  change ((d_month d + months - 1) mod 12 + 1)
    with (target_month months (midnight d)).
  change (d_year d + (d_month d + months - 1) / 12)
    with (target_year months (midnight d)).
  rewrite date_new_Ok by (apply check_date_fields_Ok; lia).
  reflexivity.
Qed.

Lemma add_months_to_date_keeps_existing_day_witness :
  add_months_to_date 11 (mk_date 2024 2 29)
  = Ok (PyDate (mk_date 2025 1 29)).
Proof.
  apply (add_months_to_date_keeps_existing_day 11 (mk_date 2024 2 29)).
  - reflexivity.
  - vm_compute. discriminate.
  - split; vm_compute; discriminate.
Defined.

(** ** More on [add_working_days] *)

Lemma is_skipped_ordinal (inc : bool) (d : date) :
  is_skipped inc d = ordinal_skipped inc (date_toordinal d).
Proof. reflexivity. Qed.

Lemma date_add_days_ordinal (d d1 : date) (n : Z) :
  date_add_days d n = Ok d1 ->
  date_toordinal d1 = date_toordinal d + n /\ valid_date d1.
Proof.
  unfold date_add_days. cbv zeta.
  destruct ((0 <? date_toordinal d + n)
            && (date_toordinal d + n <=? _MAXORDINAL)) eqn:E;
    [|discriminate].
  apply andb_prop in E. destruct E as [E1 E2].
  apply Z.ltb_lt in E1. apply Z.leb_le in E2.
  intros H. inversion H; subst d1; clear H.
  pose proof (ord2ymd_valid (date_toordinal d + n) ltac:(lia)) as Ho.
  unfold date_fromordinal, valid_date.
  destruct (_ord2ymd (date_toordinal d + n)) as [[y m] dd].
  destruct Ho as [Hv Ho]. split; [exact Ho|exact Hv].
Qed.


Lemma working_days_after_app (inc : bool) (k1 k2 : nat) :
  forall a,
    working_days_after inc a (k1 + k2)
    = (working_days_after inc a k1
       + working_days_after inc (a + Z.of_nat k1) k2)%nat.
Proof.
  induction k1 as [|k1 IH]; intros a.
  - cbn [working_days_after Nat.add]. f_equal. lia.
  - cbn [working_days_after Nat.add]. rewrite IH.
    replace (a + 1 + Z.of_nat k1) with (a + Z.of_nat (S k1)) by lia. lia.
Qed.

(** The inner loop moves on by at most two days, over skipped days
    only, and stops on a working day. *)
Lemma while_skipped_steps (fuel : nat) (inc : bool) (d d' : date) :
  (2 <= fuel)%nat ->
  while_skipped fuel inc d = Ok d' ->
  let a := date_toordinal d in
  let b := date_toordinal d' in
  ordinal_skipped inc b = false /\
  (b = a \/
   (b = a + 1 /\ ordinal_skipped inc a = true) \/
   (b = a + 2 /\ ordinal_skipped inc a = true /\
    ordinal_skipped inc (a + 1) = true)).
Proof.
  intros Hfuel. destruct fuel as [|[|fuel]]; try lia. clear Hfuel.
  cbn [while_skipped]. rewrite !is_skipped_ordinal.
  destruct (ordinal_skipped inc (date_toordinal d)) eqn:Hs0.
  2:{ intros H. inversion H; subst. cbv zeta. auto. }
  destruct (date_add_days d 1) as [d1|e] eqn:Hd1; [|discriminate].
  cbn [bind]. destruct (date_add_days_ordinal d d1 1 Hd1) as [Ho1 _].
  rewrite is_skipped_ordinal, Ho1.
  destruct (ordinal_skipped inc (date_toordinal d + 1)) eqn:Hs1.
  2:{ intros H. inversion H; subst. cbv zeta. rewrite Ho1. auto. }
  destruct (date_add_days d1 1) as [d2|e] eqn:Hd2; [|discriminate].
  cbn [bind]. destruct (date_add_days_ordinal d1 d2 1 Hd2) as [Ho2 _].
  assert (Hs2 : ordinal_skipped inc (date_toordinal d2) = false).
  { rewrite Ho2, Ho1. unfold ordinal_skipped in *.
    destruct inc; cbn [negb andb] in *;
      rewrite ?Bool.orb_false_r, ?Bool.orb_true_iff, ?Z.eqb_eq in Hs0, Hs1;
      apply Bool.orb_false_iff; rewrite ?Z.eqb_neq; cbn [andb];
      rewrite ?Z.eqb_neq; (split; [|try reflexivity]); zdiv. }
  rewrite (while_skipped_not_skipped fuel inc d2)
    by (rewrite is_skipped_ordinal; exact Hs2).
  intros H. inversion H; subst. cbv zeta. rewrite Ho2, Ho1.
  split; [rewrite <- Ho1, <- Ho2; exact Hs2|].
  right. right. repeat split; try assumption. lia.
Qed.

(** One round of the outer loop lands on the next working day. *)
Lemma working_day_round (inc : bool) (d d1 d2 : date) :
  date_add_days d 1 = Ok d1 ->
  while_skipped 7 inc d1 = Ok d2 ->
  let a := date_toordinal d in
  let k := date_toordinal d2 - a in
  1 <= k <= 3 /\
  working_days_after inc a (Z.to_nat k) = 1%nat /\
  ordinal_skipped inc (date_toordinal d2) = false.
Proof.
  intros H1 H2. cbv zeta.
  destruct (date_add_days_ordinal d d1 1 H1) as [Ho1 _].
  destruct (while_skipped_steps 7 inc d1 d2 ltac:(lia) H2) as [Hs Hc].
  rewrite Ho1 in Hc. split; [lia|]. split; [|exact Hs].
  destruct Hc as [Hb|[(Hb & S0)|(Hb & S0 & S1)]]; rewrite Hb in *.
  - replace (date_toordinal d + 1 - date_toordinal d) with 1 by lia.
    change (Z.to_nat 1) with 1%nat. cbn [working_days_after].
    rewrite Hs. reflexivity.
  - replace (date_toordinal d + 1 + 1 - date_toordinal d) with 2 by lia.
    change (Z.to_nat 2) with 2%nat. cbn [working_days_after].
    rewrite S0, Hs. reflexivity.
  - replace (date_toordinal d + 1 + 2 - date_toordinal d) with 3 by lia.
    change (Z.to_nat 3) with 3%nat. cbn [working_days_after].
    replace (date_toordinal d + 1 + 1 + 1) with (date_toordinal d + 1 + 2)
      by lia.
    rewrite S0, S1, Hs. reflexivity.
Qed.

Lemma for_working_days_counts (inc : bool) (n : nat) :
  forall d d',
    for_working_days n inc d = Ok d' ->
    let a := date_toordinal d in
    let k := date_toordinal d' - a in
    Z.of_nat n <= k <= 3 * Z.of_nat n /\
    working_days_after inc a (Z.to_nat k) = n.
Proof.
  induction n as [|n IH]; intros d d' H.
  - cbn [for_working_days] in H. inversion H; subst. cbv zeta.
    rewrite Z.sub_diag. split; [lia|reflexivity].
  - cbn [for_working_days] in H.
    destruct (date_add_days d 1) as [d1|] eqn:H1; [|discriminate H].
    cbn [bind] in H.
    destruct (while_skipped 7 inc d1) as [d2|] eqn:H2; [|discriminate H].
    cbn [bind] in H.
    destruct (working_day_round inc d d1 d2 H1 H2) as (Hk & Hc & _).
    destruct (IH d2 d' H) as (Hk' & Hc'). cbv zeta in *.
    split; [lia|].
    replace (Z.to_nat (date_toordinal d' - date_toordinal d))
      with (Z.to_nat (date_toordinal d2 - date_toordinal d)
            + Z.to_nat (date_toordinal d' - date_toordinal d2))%nat by lia.
    rewrite working_days_after_app, Hc.
    rewrite Z2Nat.id by lia.
    replace (date_toordinal d + (date_toordinal d2 - date_toordinal d))
      with (date_toordinal d2) by lia.
    rewrite Hc'. reflexivity.
Qed.

Lemma for_working_days_app (inc : bool) (n m : nat) :
  forall d,
    for_working_days (n + m) inc d
    = d1 <- for_working_days n inc d ;; for_working_days m inc d1.
Proof.
  induction n as [|n IH]; intros d; [reflexivity|].
  cbn [for_working_days Nat.add].
  destruct (date_add_days d 1) as [d1|]; [|reflexivity]. cbn [bind].
  destruct (while_skipped 7 inc d1) as [d2|]; [|reflexivity]. cbn [bind].
  apply IH.
Qed.

Lemma while_skipped_valid (inc : bool) (fuel : nat) :
  forall d d',
    valid_date d -> while_skipped fuel inc d = Ok d' -> valid_date d'.
Proof.
  induction fuel as [|fuel IH]; intros d d' Hv H; cbn [while_skipped] in H.
  - inversion H; subst; exact Hv.
  - destruct (is_skipped inc d); [|inversion H; subst; exact Hv].
    destruct (date_add_days d 1) as [d1|] eqn:H1; [|discriminate H].
    cbn [bind] in H.
    destruct (date_add_days_ordinal d d1 1 H1) as [_ Hv1].
    exact (IH d1 d' Hv1 H).
Qed.

Lemma for_working_days_lands_on_working_day (inc : bool) (n : nat) :
  forall d d',
    for_working_days (S n) inc d = Ok d' ->
    is_skipped inc d' = false /\ valid_date d'.
Proof.
  induction n as [|n IH]; intros d d' H.
  - cbn [for_working_days] in H.
    destruct (date_add_days d 1) as [d1|] eqn:H1; [|discriminate H].
    cbn [bind] in H.
    destruct (while_skipped 7 inc d1) as [d2|] eqn:H2; [|discriminate H].
    cbn [bind] in H. inversion H; subst d2.
    destruct (working_day_round inc d d1 d' H1 H2) as (Hk & _ & Hs).
    split; [exact Hs|].
    destruct (date_add_days_ordinal d d1 1 H1) as [_ Hv1].
    exact (while_skipped_valid inc 7 d1 d' Hv1 H2).
  - change (for_working_days (S (S n)) inc d)
      with (d1 <- date_add_days d 1 ;;
            d2 <- while_skipped 7 inc d1 ;;
            for_working_days (S n) inc d2) in H.
    destruct (date_add_days d 1) as [d1|]; [|discriminate H].
    cbn [bind] in H.
    destruct (while_skipped 7 inc d1) as [d2|]; [|discriminate H].
    cbn [bind] in H. exact (IH d2 d' H).
Qed.



(** X9: the date that [add_working_days] returns is between [n] and
    [3 * n] days after the start, and exactly [n] of the days after the
    start up to and including it are working days (where [n] is
    [num_days], or 0 when that is negative). *)
Theorem add_working_days_counts_working_days
    (now : clock) (num_days : Z) (start : option date) (inc : bool)
    (d' : date) :
  add_working_days now num_days start inc = Ok d' ->
  let d := match start with Some d => d | None => today now end in
  let k := date_toordinal d' - date_toordinal d in
  Z.max 0 num_days <= k <= 3 * Z.max 0 num_days /\
  Z.of_nat (working_days_after inc (date_toordinal d) (Z.to_nat k))
  = Z.max 0 num_days.
Proof.
  unfold add_working_days. intros H.
  destruct (for_working_days_counts inc _ _ _ H) as [Hk Hc].
  cbv zeta in *. rewrite Hc. lia.
Qed.

Lemma add_working_days_counts_working_days_witness :
  let now := mk_clock (mk_datetime 2024 1 5 9 0 0 0 None)
                      (mk_date 2024 1 5) in
  let k := date_toordinal (mk_date 2024 1 15)
           - date_toordinal (mk_date 2024 1 5) in
  Z.max 0 6 <= k <= 3 * Z.max 0 6 /\
  Z.of_nat (working_days_after false (date_toordinal (mk_date 2024 1 5))
              (Z.to_nat k)) = Z.max 0 6.
Proof.
  intros now.
  apply (add_working_days_counts_working_days now 6 None false
           (mk_date 2024 1 15)).
  reflexivity.
Defined.

(** X10: after at least one working day, [add_working_days] returns a
    valid date that is not a Sunday, and not a Saturday unless
    Saturdays are included. *)
Theorem add_working_days_lands_on_a_working_day
    (now : clock) (num_days : Z) (start : option date) (inc : bool)
    (d' : date) :
  1 <= num_days ->
  add_working_days now num_days start inc = Ok d' ->
  valid_date d' /\
  date_weekday d' <> 6 /\
  (inc = false -> date_weekday d' <> 5).
Proof.
  unfold add_working_days. intros Hn H.
  destruct (Z.to_nat num_days) as [|n] eqn:E; [lia|].
  destruct (for_working_days_lands_on_working_day inc n _ _ H) as [Hs Hv].
  split; [exact Hv|]. unfold is_skipped in Hs.
  apply Bool.orb_false_iff in Hs. destruct Hs as [H6 H5].
  apply Z.eqb_neq in H6. split; [exact H6|].
  intros ->. cbn [negb andb] in H5. now apply Z.eqb_neq in H5.
Qed.

Lemma add_working_days_lands_on_a_working_day_witness :
  let d' := mk_date 2024 1 8 in
  valid_date d' /\ date_weekday d' <> 6 /\
  (false = false -> date_weekday d' <> 5).
Proof.
  intros d'.
  apply (add_working_days_lands_on_a_working_day
           (mk_clock (mk_datetime 2024 1 5 9 0 0 0 None) (mk_date 2024 1 5))
           1 None false d').
  - lia.
  - reflexivity.
Defined.

(** X11: for non-negative counts, adding [a + b] working days is adding
    [a] working days and then [b] more, errors included. *)
Theorem add_working_days_composes
    (now : clock) (a b : Z) (d : date) (inc : bool) :
  0 <= a -> 0 <= b ->
  add_working_days now (a + b) (Some d) inc
  = d1 <- add_working_days now a (Some d) inc ;;
    add_working_days now b (Some d1) inc.
Proof.
  intros Ha Hb. unfold add_working_days.
  rewrite Z2Nat.inj_add by assumption.
  apply for_working_days_app.
Qed.

Lemma add_working_days_composes_witness :
  let now := mk_clock (mk_datetime 2024 1 5 9 0 0 0 None)
                      (mk_date 2024 1 5) in
  add_working_days now (2 + 3) (Some (mk_date 2024 1 4)) true
  = d1 <- add_working_days now 2 (Some (mk_date 2024 1 4)) true ;;
    add_working_days now 3 (Some d1) true.
Proof.
  intros now.
  apply (add_working_days_composes now 2 3 (mk_date 2024 1 4) true); lia.
Defined.


(** It does so one working day after the last Friday of the time
    line. *)
Lemma add_working_days_past_the_last_date (now : clock) :
  add_working_days now 1 (Some (mk_date 9999 12 31)) false
  = Raise OverflowError.
Proof. reflexivity. Qed.

(** X13: for a count of zero or less the loop body never runs and the
    start date comes back as it is, a Sunday included. *)
Theorem add_working_days_nonpositive
    (now : clock) (num_days : Z) (d : date) (inc : bool) :
  num_days <= 0 ->
  add_working_days now num_days (Some d) inc = Ok d.
Proof.
  intros Hn. unfold add_working_days.
  replace (Z.to_nat num_days) with 0%nat by lia. reflexivity.
Qed.

Lemma add_working_days_nonpositive_witness :
  add_working_days
    (mk_clock (mk_datetime 2024 1 5 9 0 0 0 None) (mk_date 2024 1 5))
    (-3) (Some (mk_date 2024 1 7)) false
  = Ok (mk_date 2024 1 7) /\
  date_weekday (mk_date 2024 1 7) = 6.
Proof.
  split.
  - apply (add_working_days_nonpositive
             (mk_clock (mk_datetime 2024 1 5 9 0 0 0 None)
                       (mk_date 2024 1 5))
             (-3) (mk_date 2024 1 7) false).
    lia.
  - reflexivity.
Defined.

(** ** More on the formatters *)

(** X14: every formatter renders an input that is not true ([None]) as
    the empty string, without converting or logging. *)
Theorem formatters_render_nothing_as_empty
    (local : DstTzInfo) (strftime_min_year : Z) (v : pyvalue)
    (convert_to_local : bool) :
  truthy v = false ->
  format_datetime local strftime_min_year v convert_to_local = (Ok "", [])
  /\ format_datetime_long local strftime_min_year v convert_to_local
     = (Ok "", [])
  /\ format_date local strftime_min_year v convert_to_local = (Ok "", [])
  /\ format_date_long local strftime_min_year v convert_to_local
     = (Ok "", [])
  /\ format_date_long_no_day local strftime_min_year v convert_to_local
     = (Ok "", []).
Proof.
  intros Hv.
  unfold format_datetime, format_datetime_long, format_date,
    format_date_long, format_date_long_no_day.
  rewrite Hv. auto.
Qed.

Lemma formatters_render_nothing_as_empty_witness :
  format_datetime london_excerpt 1900 PyNone true = (Ok "", []) /\
  format_date london_excerpt 1900 PyNone true = (Ok "", []).
Proof.
  destruct (formatters_render_nothing_as_empty london_excerpt 1900 PyNone
              true eq_refl) as (H1 & _ & H3 & _).
  split; [exact H1 | exact H3].
Defined.

(** X15: the two timestamp formatters have no handler: when [strftime]
    raises [ValueError] on the value they render, the [ValueError]
    reaches the caller and nothing is logged. *)
Theorem datetime_formatters_propagate_ValueError
    (local : DstTzInfo) (strftime_min_year : Z)
    (datetime rendered : pyvalue) (convert_to_local : bool) :
  truthy datetime = true ->
  (if convert_to_local then to_local_time local datetime = Ok rendered
   else rendered = datetime) ->
  (strftime strftime_min_year rendered "%d/%m/%Y %H:%M:%S"
   = Raise ValueError ->
   format_datetime local strftime_min_year datetime convert_to_local
   = (Raise ValueError, [])) /\
  (strftime strftime_min_year rendered "%A %d %B %Y %H:%M:%S"
   = Raise ValueError ->
   format_datetime_long local strftime_min_year datetime convert_to_local
   = (Raise ValueError, [])).
Proof.
  intros Htruthy Hrendered.
  unfold format_datetime, format_datetime_long. rewrite Htruthy.
  destruct convert_to_local.
  - rewrite Hrendered. cbn [bind]. split; intros ->; reflexivity.
  - subst rendered. split; intros ->; reflexivity.
Qed.

Lemma datetime_formatters_propagate_ValueError_witness :
  let t := PyDatetime (mk_datetime 1850 6 1 12 0 0 0 None) in
  format_datetime london_excerpt 1900 t true = (Raise ValueError, []) /\
  format_datetime_long london_excerpt 1900 t true = (Raise ValueError, []).
Proof.
  intros t.
  destruct (datetime_formatters_propagate_ValueError london_excerpt 1900
              t (PyDatetime (mk_datetime 1850 6 1 11 59 0 0 None)) true
              eq_refl) as (H1 & H2).
  { vm_compute. reflexivity. }
  split; [apply H1; reflexivity | apply H2; reflexivity].
Defined.

(** X16: on a date-only value the conversion to local time does
    nothing, so every formatter gives the same result for both values
    of [convert_to_local]. *)
Theorem formatters_ignore_conversion_for_dates
    (local : DstTzInfo) (strftime_min_year : Z) (d : date) :
  format_datetime local strftime_min_year (PyDate d) true
  = format_datetime local strftime_min_year (PyDate d) false /\
  format_datetime_long local strftime_min_year (PyDate d) true
  = format_datetime_long local strftime_min_year (PyDate d) false /\
  format_date local strftime_min_year (PyDate d) true
  = format_date local strftime_min_year (PyDate d) false /\
  format_date_long local strftime_min_year (PyDate d) true
  = format_date_long local strftime_min_year (PyDate d) false /\
  format_date_long_no_day local strftime_min_year (PyDate d) true
  = format_date_long_no_day local strftime_min_year (PyDate d) false.
Proof. repeat split. Qed.

Lemma append_empty_r (s : string) : s ++ "" = s.
Proof. induction s as [|c s IH]; [reflexivity|]. cbn. now rewrite IH. Qed.

(** The short rendering, field by field. *)
Lemma render_short_date (t : datetime) :
  1000 <= year t ->
  render "%d/%m/%Y" t
  = zero_padded 2 (day t) ++ "/" ++ zero_padded 2 (month t) ++ "/"
    ++ zero_padded 4 (year t).
Proof.
  intros Hy. cbn [render Ascii.eqb Bool.eqb directive append].
  rewrite append_empty_r. unfold year_digits.
  destruct (Z.ltb_spec (year t) 10); [lia|].
  destruct (Z.ltb_spec (year t) 100); [lia|].
  destruct (Z.ltb_spec (year t) 1000); [lia|].
  reflexivity.
Qed.

(** ** The date picker *)

Lemma digit_value_digit (n : Z) :
  0 <= n <= 9 -> digit_value (digit n) = Some n.
Proof.
  intros H. rewrite <- (Z2Nat.id n) by lia.
  assert (Hk : (Z.to_nat n < 10)%nat) by lia.
  revert Hk. generalize (Z.to_nat n). intros k Hk.
  do 10 (destruct k as [|k]; [reflexivity|]). lia.
Qed.

Lemma zero_padded_2 (v : Z) (rest : string) :
  zero_padded 2 v ++ rest
  = String (digit (v / 10 mod 10)) (String (digit (v mod 10)) rest).
Proof. reflexivity. Qed.

Lemma zero_padded_4 (v : Z) (rest : string) :
  zero_padded 4 v ++ rest
  = String (digit (v / 10 / 10 / 10 mod 10))
      (String (digit (v / 10 / 10 mod 10))
         (String (digit (v / 10 mod 10)) (String (digit (v mod 10)) rest))).
Proof. reflexivity. Qed.

Lemma regex_Y_padded {A : Type} (y : Z) (rest : string)
    (k : Z -> string -> option A) :
  0 <= y <= 9999 ->
  regex_Y (zero_padded 4 y ++ rest) k = k y rest.
Proof.
  intros Hy. rewrite zero_padded_4. unfold regex_Y.
  rewrite !digit_value_digit by zdiv.
  f_equal. zdiv.
Qed.

Lemma or_else_some {A : Type} (x y : option A) :
  x <> None -> or_else x y = x.
Proof. destruct x; [reflexivity|contradiction]. Qed.

Lemma regex_d_padded {A : Type} (d : Z) (rest : string)
    (k : Z -> string -> option A) :
  1 <= d <= 31 ->
  k d rest <> None ->
  regex_d (zero_padded 2 d ++ rest) k = k d rest.
Proof.
  intros Hd Hk. rewrite zero_padded_2.
  assert (Hc : (d / 10 mod 10 = 0 /\ 1 <= d mod 10 <= 9) \/
               (1 <= d / 10 mod 10 <= 2 /\ 0 <= d mod 10 <= 9) \/
               (d / 10 mod 10 = 3 /\ 0 <= d mod 10 <= 1)) by zdiv.
  assert (Hv : 10 * (d / 10 mod 10) + d mod 10 = d) by zdiv.
  unfold regex_d, two_digits, digit_between.
  rewrite !digit_value_digit by zdiv.
  destruct Hc as [[Ha Hb]|[[Ha Hb]|[Ha Hb]]].
  - rewrite Ha in *. cbn [Z.leb Z.compare Pos.compare Pos.compare_cont andb].
    replace ((1 <=? d mod 10) && (d mod 10 <=? 9)) with true
      by (symmetry; apply andb_true_intro; split; apply Z.leb_le; lia).
    cbn [or_else]. rewrite Hv. now apply or_else_some.
  - replace ((3 <=? d / 10 mod 10) && (d / 10 mod 10 <=? 3)) with false
      by (symmetry; apply Bool.andb_false_iff; rewrite !Z.leb_gt; lia).
    replace ((1 <=? d / 10 mod 10) && (d / 10 mod 10 <=? 2)) with true
      by (symmetry; apply andb_true_intro; split; apply Z.leb_le; lia).
    replace ((0 <=? d mod 10) && (d mod 10 <=? 9)) with true
      by (symmetry; apply andb_true_intro; split; apply Z.leb_le; lia).
    cbn [or_else]. rewrite Hv. now apply or_else_some.
  - rewrite Ha in *. cbn [Z.leb Z.compare Pos.compare Pos.compare_cont andb].
    replace ((0 <=? d mod 10) && (d mod 10 <=? 1)) with true
      by (symmetry; apply andb_true_intro; split; apply Z.leb_le; lia).
    rewrite Hv. now apply or_else_some.
Qed.

Lemma regex_m_padded {A : Type} (m : Z) (rest : string)
    (k : Z -> string -> option A) :
  1 <= m <= 12 ->
  k m rest <> None ->
  regex_m (zero_padded 2 m ++ rest) k = k m rest.
Proof.
  intros Hm Hk. rewrite zero_padded_2.
  assert (Hc : (m / 10 mod 10 = 0 /\ 1 <= m mod 10 <= 9) \/
               (m / 10 mod 10 = 1 /\ 0 <= m mod 10 <= 2)) by zdiv.
  assert (Hv : 10 * (m / 10 mod 10) + m mod 10 = m) by zdiv.
  unfold regex_m, two_digits, digit_between.
  rewrite !digit_value_digit by zdiv.
  destruct Hc as [[Ha Hb]|[Ha Hb]].
  - rewrite Ha in *. cbn [Z.leb Z.compare Pos.compare Pos.compare_cont andb].
    replace ((1 <=? m mod 10) && (m mod 10 <=? 9)) with true
      by (symmetry; apply andb_true_intro; split; apply Z.leb_le; lia).
    cbn [or_else]. rewrite Hv. now apply or_else_some.
  - rewrite Ha in *. cbn [Z.leb Z.compare Pos.compare Pos.compare_cont andb].
    replace ((0 <=? m mod 10) && (m mod 10 <=? 2)) with true
      by (symmetry; apply andb_true_intro; split; apply Z.leb_le; lia).
    rewrite Hv. now apply or_else_some.
Qed.

(** Reading back what [strftime] wrote for a valid date. *)
Lemma strptime_of_short_date (y m d : Z) :
  _check_date_fields y m d = Ok tt ->
  strptime_dmY (zero_padded 2 d ++ "/" ++ zero_padded 2 m ++ "/"
                ++ zero_padded 4 y)
  = Ok (mk_datetime y m d 0 0 0 0 None).
Proof.
  intros Hv. pose proof Hv as Hf. apply check_date_fields_Ok in Hf.
  destruct Hf as (Hy & Hm & Hd).
  pose proof (days_in_month_bounds y m Hm) as Hdim.
  unfold MINYEAR, MAXYEAR in Hy.
  unfold strptime_dmY.
  assert (HY : forall dd mm : Z,
             regex_Y (zero_padded 4 y)
               (fun y0 rest => Some (dd, mm, y0, rest))
             = Some (dd, mm, y, "")).
  { intros dd mm.
    rewrite <- (append_empty_r (zero_padded 4 y)).
    rewrite regex_Y_padded by lia. reflexivity. }
  assert (HM : forall dd : Z,
             regex_m (zero_padded 2 m ++ "/" ++ zero_padded 4 y)
               (fun m0 s => literal "/" s (fun s0 =>
                  regex_Y s0 (fun y0 rest => Some (dd, m0, y0, rest))))
             = Some (dd, m, y, "")).
  { intros dd. rewrite regex_m_padded; try assumption.
    - cbn [append literal Ascii.eqb Bool.eqb]. apply HY.
    - cbn [append literal Ascii.eqb Bool.eqb]. rewrite HY. discriminate. }
  rewrite regex_d_padded; try lia.
  - cbn [append literal Ascii.eqb Bool.eqb].
    change (String "/" (zero_padded 4 y))
      with ("/" ++ zero_padded 4 y).
    rewrite HM. apply datetime_new_Ok; [exact Hv|reflexivity].
  - cbn [append literal Ascii.eqb Bool.eqb].
    change (String "/" (zero_padded 4 y))
      with ("/" ++ zero_padded 4 y).
    rewrite HM. discriminate.
Qed.

(** What the patterns match are small numbers. *)
Lemma digit_value_bounds (c : ascii) (v : Z) :
  digit_value c = Some v -> 0 <= v <= 9.
Proof.
  unfold digit_value.
  destruct (Z.leb_spec 48 (Z.of_nat (nat_of_ascii c)));
    destruct (Z.leb_spec (Z.of_nat (nat_of_ascii c)) 57); cbn [andb];
    intros Hv; inversion Hv; lia.
Qed.

Lemma digit_between_bounds (lo hi : Z) (c : ascii) (v : Z) :
  digit_between lo hi c = Some v -> 0 <= v <= 9.
Proof.
  unfold digit_between.
  destruct (digit_value c) as [w|] eqn:E; [|discriminate].
  destruct ((lo <=? w) && (w <=? hi)); [|discriminate].
  intros H. inversion H; subst. exact (digit_value_bounds c v E).
Qed.

Lemma two_digits_cases {A : Type} (lo1 hi1 lo2 hi2 : Z) (s : string)
    (k : Z -> string -> option A) :
  two_digits lo1 hi1 lo2 hi2 s k = None \/
  exists v rest, 0 <= v <= 99 /\ two_digits lo1 hi1 lo2 hi2 s k = k v rest.
Proof.
  unfold two_digits.
  destruct s as [|c1 [|c2 rest]]; [left; reflexivity..|].
  destruct (digit_between lo1 hi1 c1) as [a|] eqn:Ea; [|left; reflexivity].
  destruct (digit_between lo2 hi2 c2) as [b|] eqn:Eb; [|left; reflexivity].
  apply digit_between_bounds in Ea, Eb.
  right. exists (10 * a + b), rest. split; [lia|reflexivity].
Qed.

Lemma one_digit_cases {A : Type} (lo hi : Z) (s : string)
    (k : Z -> string -> option A) :
  one_digit lo hi s k = None \/
  exists v rest, 0 <= v <= 99 /\ one_digit lo hi s k = k v rest.
Proof.
  unfold one_digit.
  destruct s as [|c rest]; [left; reflexivity|].
  destruct (digit_between lo hi c) as [a|] eqn:Ea; [|left; reflexivity].
  apply digit_between_bounds in Ea.
  right. exists a, rest. split; [lia|reflexivity].
Qed.

Lemma space_digit_cases {A : Type} (s : string)
    (k : Z -> string -> option A) :
  space_digit s k = None \/
  exists v rest, 0 <= v <= 99 /\ space_digit s k = k v rest.
Proof.
  unfold space_digit.
  destruct s as [|c1 [|c2 rest]]; [left; reflexivity..|].
  destruct (Ascii.eqb c1 " "); [|left; reflexivity].
  destruct (digit_between 1 9 c2) as [b|] eqn:Eb; [|left; reflexivity].
  apply digit_between_bounds in Eb.
  right. exists b, rest. split; [lia|reflexivity].
Qed.

Lemma or_else_cases {A : Type} (x y : option A) :
  (x = None /\ or_else x y = y) \/ (x <> None /\ or_else x y = x).
Proof. destruct x; [right|left]; split; try reflexivity; discriminate. Qed.

Ltac alternative H :=
  match goal with
  | |- or_else ?x ?y = None \/ _ =>
      destruct (or_else_cases x y) as [[_ ->]|[Hx ->]];
      [|destruct H as [Hn|Hs]; [contradiction|exact (or_intror Hs)]]
  end.

Lemma regex_d_cases {A : Type} (s : string) (k : Z -> string -> option A) :
  regex_d s k = None \/
  exists v rest, 0 <= v <= 99 /\ regex_d s k = k v rest.
Proof.
  unfold regex_d.
  pose proof (two_digits_cases 3 3 0 1 s k) as H1.
  pose proof (two_digits_cases 1 2 0 9 s k) as H2.
  pose proof (two_digits_cases 0 0 1 9 s k) as H3.
  pose proof (one_digit_cases 1 9 s k) as H4.
  pose proof (space_digit_cases s k) as H5.
  alternative H1. alternative H2. alternative H3. alternative H4.
  exact H5.
Qed.

Lemma regex_m_cases {A : Type} (s : string) (k : Z -> string -> option A) :
  regex_m s k = None \/
  exists v rest, 0 <= v <= 99 /\ regex_m s k = k v rest.
Proof.
  unfold regex_m.
  pose proof (two_digits_cases 1 1 0 2 s k) as H1.
  pose proof (two_digits_cases 0 0 1 9 s k) as H2.
  pose proof (one_digit_cases 1 9 s k) as H3.
  alternative H1. alternative H2. exact H3.
Qed.

Lemma regex_Y_cases {A : Type} (s : string) (k : Z -> string -> option A) :
  regex_Y s k = None \/
  exists v rest, 0 <= v <= 9999 /\ regex_Y s k = k v rest.
Proof.
  unfold regex_Y.
  destruct s as [|c1 [|c2 [|c3 [|c4 rest]]]]; [left; reflexivity..|].
  destruct (digit_value c1) as [a|] eqn:Ea; [|left; reflexivity].
  destruct (digit_value c2) as [b|] eqn:Eb; [|left; reflexivity].
  destruct (digit_value c3) as [c|] eqn:Ec; [|left; reflexivity].
  destruct (digit_value c4) as [d|] eqn:Ed; [|left; reflexivity].
  apply digit_value_bounds in Ea, Eb, Ec, Ed.
  right. exists (1000 * a + 100 * b + 10 * c + d), rest.
  split; [lia|reflexivity].
Qed.

Lemma literal_cases {A : Type} (c : ascii) (s : string)
    (k : string -> option A) :
  literal c s k = None \/ exists rest, literal c s k = k rest.
Proof.
  unfold literal. destruct s as [|c' rest]; [left; reflexivity|].
  destruct (Ascii.eqb c c'); [right; exists rest|left]; reflexivity.
Qed.

(** The three numbers that a match hands to the constructor. *)
Lemma strptime_dmY_cases (s : string) :
  strptime_dmY s = Raise ValueError \/
  exists d m y,
    0 <= d <= 99 /\ 0 <= m <= 99 /\ 0 <= y <= 9999 /\
    strptime_dmY s = datetime_new y m d 0 0 0 0 None.
Proof.
  unfold strptime_dmY.
  match goal with
  | |- context [regex_d s ?k] =>
      destruct (regex_d_cases s k) as [->|(d & s1 & Hd & ->)]
  end; [left; reflexivity|].
  match goal with
  | |- context [literal "/" s1 ?k] =>
      destruct (literal_cases "/" s1 k) as [->|(s2 & ->)]
  end; [left; reflexivity|].
  match goal with
  | |- context [regex_m s2 ?k] =>
      destruct (regex_m_cases s2 k) as [->|(m & s3 & Hm & ->)]
  end; [left; reflexivity|].
  match goal with
  | |- context [literal "/" s3 ?k] =>
      destruct (literal_cases "/" s3 k) as [->|(s4 & ->)]
  end; [left; reflexivity|].
  match goal with
  | |- context [regex_Y s4 ?k] =>
      destruct (regex_Y_cases s4 k) as [->|(y & rest & Hy & ->)]
  end; [left; reflexivity|].
  destruct rest; [|left; reflexivity].
  right. exists d, m, y. repeat split; try lia.
Qed.

Lemma strptime_dmY_result (s : string) :
  match strptime_dmY s with
  | Ok t =>
      valid_datetime t /\ hour t = 0 /\ minute t = 0 /\ second t = 0 /\
      microsecond t = 0 /\ dt_tzinfo t = None
  | Raise e => e = ValueError
  end.
Proof.
  destruct (strptime_dmY_cases s) as [->|(d & m & y & Hd & Hm & Hy & ->)];
    [reflexivity|].
  unfold datetime_new.
  rewrite as_c_ints_Ok
    by (unfold INT_MIN, INT_MAX; repeat constructor; lia).
  cbn [bind].
  destruct (_check_date_fields y m d) as [[]|e] eqn:E.
  - cbn [bind _check_time_fields]. cbv beta iota.
    split; [split; [exact E|reflexivity]|]. repeat split.
  - cbn [bind]. unfold _check_date_fields in E.
    repeat match type of E with
           | (if ?b then _ else _) = _ => destruct b
           | (let _ := _ in _) = _ => cbv zeta in E
           end; now inversion E.
Qed.

Lemma datepicker_writes_then_reads (min_year : Z) (t : datetime) :
  valid_datetime t -> 1000 <= year t -> min_year <= year t ->
  s <- datetime_to_datepicker min_year (PyDatetime t) ;;
  datetime_from_datepicker s
  = Ok (midnight (datetime_date t)).
Proof.
  intros [Hd _] Hy Hmin.
  unfold datetime_to_datepicker, strftime, datetime_from_datepicker.
  replace (year t <? min_year) with false by (symmetry; apply Z.ltb_ge; lia).
  cbn [bind]. rewrite render_short_date by exact Hy.
  now rewrite strptime_of_short_date.
Qed.

(** X17: writing a valid timestamp for the date picker and reading the
    string back gives midnight of the same day, without [tzinfo].  Years
    from 1000 on, which [%Y] writes with four digits on every
    platform. *)
Theorem datepicker_round_trip (min_year : Z) (t : datetime) :
  valid_datetime t -> 1000 <= year t -> min_year <= year t ->
  s <- datetime_to_datepicker min_year (PyDatetime t) ;;
  datetime_from_datepicker s
  = Ok (mk_datetime (year t) (month t) (day t) 0 0 0 0 None).
Proof.
  intros Hv Hy Hmin.
  exact (datepicker_writes_then_reads min_year t Hv Hy Hmin).
Qed.

Lemma datepicker_round_trip_witness :
  s <- datetime_to_datepicker 1
         (PyDatetime (mk_datetime 2024 2 29 17 45 10 250 None)) ;;
  datetime_from_datepicker s
  = Ok (mk_datetime 2024 2 29 0 0 0 0 None).
Proof.
  apply (datepicker_round_trip 1 (mk_datetime 2024 2 29 17 45 10 250 None)).
  - split; reflexivity.
  - cbn [year]. lia.
  - cbn [year]. lia.
Defined.

(** X18: a valid date written for the date picker is read back by
    [date_from_datepicker] as the same date. *)
Theorem date_from_datepicker_round_trip (min_year : Z) (d : date) :
  valid_date d -> 1000 <= d_year d -> min_year <= d_year d ->
  s <- datetime_to_datepicker min_year (PyDate d) ;; date_from_datepicker s
  = Ok d.
Proof.
  intros Hv Hy Hmin.
  unfold datetime_to_datepicker, strftime, date_from_datepicker,
    datetime_from_datepicker.
  replace (d_year d <? min_year) with false
    by (symmetry; apply Z.ltb_ge; lia).
  cbn [bind]. rewrite render_short_date by exact Hy. cbn [year month day].
  rewrite strptime_of_short_date by exact Hv.
  cbn [bind datetime_date year month day]. destruct d; reflexivity.
Qed.

Lemma date_from_datepicker_round_trip_witness :
  s <- datetime_to_datepicker 1 (PyDate (mk_date 2023 12 31)) ;;
  date_from_datepicker s
  = Ok (mk_date 2023 12 31).
Proof.
  apply (date_from_datepicker_round_trip 1 (mk_date 2023 12 31)).
  - reflexivity.
  - cbn [d_year]. lia.
  - cbn [d_year]. lia.
Defined.

(** X19: whatever the string, [datetime_from_datepicker] either returns
    a valid timestamp at midnight without [tzinfo] or raises
    [ValueError], and [date_from_datepicker] a valid date or
    [ValueError]. *)
Theorem from_datepicker_valid_or_ValueError (s : string) :
  match datetime_from_datepicker s with
  | Ok t =>
      valid_datetime t /\ hour t = 0 /\ minute t = 0 /\ second t = 0 /\
      microsecond t = 0 /\ dt_tzinfo t = None /\
      date_from_datepicker s = Ok (mk_date (year t) (month t) (day t))
  | Raise e => e = ValueError /\ date_from_datepicker s = Raise ValueError
  end.
Proof.
  unfold date_from_datepicker, datetime_from_datepicker.
  pose proof (strptime_dmY_result s) as H.
  destruct (strptime_dmY s) as [t|e].
  - destruct H as (Hv & Hh & Hm & Hs & Hu & Hz).
    repeat (split; [assumption|]). reflexivity.
  - subst e. split; reflexivity.
Qed.

(** X20: a string that the date picker functions accept is accepted
    again, with the same result, after it has been written back in the
    canonical form [dd/mm/yyyy]. *)
Theorem datepicker_reads_its_canonical_form
    (min_year : Z) (s : string) (t : datetime) :
  datetime_from_datepicker s = Ok t ->
  1000 <= year t -> min_year <= year t ->
  s' <- datetime_to_datepicker min_year (PyDatetime t) ;;
  datetime_from_datepicker s'
  = Ok t.
Proof.
  intros Hs Hy Hmin.
  pose proof (strptime_dmY_result s) as H.
  unfold datetime_from_datepicker in Hs. rewrite Hs in H.
  destruct H as (Hv & Hh & Hm & Hse & Hu & Hz).
  rewrite (datepicker_writes_then_reads min_year t Hv Hy Hmin).
  unfold midnight, datetime_date. cbn [d_year d_month d_day].
  destruct t; cbn in *; subst; reflexivity.
Qed.

Lemma datepicker_reads_its_canonical_form_witness :
  s' <- datetime_to_datepicker 1900
          (PyDatetime (mk_datetime 2024 2 1 0 0 0 0 None)) ;;
  datetime_from_datepicker s'
  = Ok (mk_datetime 2024 2 1 0 0 0 0 None).
Proof.
  apply (datepicker_reads_its_canonical_form 1900 "1/2/2024"
           (mk_datetime 2024 2 1 0 0 0 0 None)).
  - reflexivity.
  - cbn [year]. lia.
  - cbn [year]. lia.
Defined.

(** X21: [format_date] writes a valid date in the form that the date
    picker functions read: the string it returns is read back by
    [date_from_datepicker] as the same date, and nothing is logged. *)
Theorem format_date_is_read_by_the_date_picker
    (local : DstTzInfo) (min_year : Z) (d : date) (convert_to_local : bool) :
  valid_date d -> 1000 <= d_year d -> min_year <= d_year d ->
  exists s,
    format_date local min_year (PyDate d) convert_to_local = (Ok s, []) /\
    datetime_to_datepicker min_year (PyDate d) = Ok s /\
    date_from_datepicker s = Ok d.
Proof.
  intros Hv Hy Hmin.
  exists (render "%d/%m/%Y" (midnight d)).
  assert (Hs : strftime min_year (PyDate d) "%d/%m/%Y"
               = Ok (render "%d/%m/%Y" (midnight d))).
  { unfold strftime.
    replace (d_year d <? min_year) with false
      by (symmetry; apply Z.ltb_ge; lia).
    reflexivity. }
  split; [|split].
  - unfold format_date. cbn [truthy to_local_time bind].
    destruct convert_to_local; rewrite Hs; reflexivity.
  - exact Hs.
  - unfold date_from_datepicker, datetime_from_datepicker.
    rewrite render_short_date by exact Hy.
    unfold midnight. cbn [year month day].
    rewrite strptime_of_short_date by exact Hv.
    cbn [bind datetime_date year month day]. destruct d; reflexivity.
Qed.

Lemma format_date_is_read_by_the_date_picker_witness :
  exists s,
    format_date london_excerpt 1900 (PyDate (mk_date 2024 2 29)) true
    = (Ok s, []) /\
    datetime_to_datepicker 1900 (PyDate (mk_date 2024 2 29)) = Ok s /\
    date_from_datepicker s = Ok (mk_date 2024 2 29).
Proof.
  apply (format_date_is_read_by_the_date_picker london_excerpt 1900
           (mk_date 2024 2 29) true).
  - reflexivity.
  - cbn [d_year]. lia.
  - cbn [d_year]. lia.
Defined.

(** ** More on the conversions *)

(** X22: on a valid timestamp that is naive or tagged [pytz.utc],
    [to_local_time] moves the reading by the offset in force at that
    instant and returns it without [tzinfo]; it raises [OverflowError]
    exactly when the local reading falls off the time line. *)
Theorem to_local_time_adds_the_offset (z : DstTzInfo) (u : datetime) :
  wf_zone z = true ->
  valid_datetime u ->
  dt_tzinfo u = None \/ dt_tzinfo u = Some utc ->
  (on_time_line (local_of z (datetime_as_delta u)) ->
   exists l, to_local_time z (PyDatetime u) = Ok (PyDatetime l) /\
             valid_datetime l /\ dt_tzinfo l = None /\
             datetime_as_delta l
             = datetime_as_delta u + offset_at z (datetime_as_delta u)) /\
  (~ on_time_line (local_of z (datetime_as_delta u)) ->
   to_local_time z (PyDatetime u) = Raise OverflowError).
Proof.
  intros Hwf Hv [Hn|Hu].
  - exact (to_local_time_naive z u Hwf Hv Hn).
  - rewrite (utc_tagged_like_naive z u Hu).
    rewrite <- (replace_tzinfo_as_delta u None).
    apply (to_local_time_naive z (replace_tzinfo u None) Hwf).
    + exact (replace_tzinfo_valid u None Hv).
    + reflexivity.
Qed.

Lemma to_local_time_adds_the_offset_witness :
  (exists l,
     to_local_time london_excerpt
       (PyDatetime (mk_datetime 2024 7 1 12 0 0 0 (Some utc)))
     = Ok (PyDatetime l) /\
     valid_datetime l /\ dt_tzinfo l = None /\
     datetime_as_delta l
     = datetime_as_delta (mk_datetime 2024 7 1 12 0 0 0 (Some utc))
       + 3600000000) /\
  to_local_time london_excerpt
    (PyDatetime (mk_datetime 1 1 1 0 0 30 0 None))
  = Raise OverflowError.
Proof.
  split.
  - destruct (to_local_time_adds_the_offset london_excerpt
                (mk_datetime 2024 7 1 12 0 0 0 (Some utc)))
      as [Hin _].
    + vm_compute. reflexivity.
    + split; reflexivity.
    + right. reflexivity.
    + apply Hin. vm_compute. split; [discriminate|reflexivity].
  - destruct (to_local_time_adds_the_offset london_excerpt
                (mk_datetime 1 1 1 0 0 30 0 None))
      as [_ Hout].
    + vm_compute. reflexivity.
    + split; reflexivity.
    + left. reflexivity.
    + apply Hout. vm_compute. intros [H _]. apply H. reflexivity.
Defined.

(** X23: on a timestamp tagged with the local zone, [to_utc_time]
    subtracts the offset that the tag carries and returns the reading
    without [tzinfo]; it raises [OverflowError] exactly when that
    reading falls off the time line. *)
Theorem to_utc_time_subtracts_the_tag_offset
    (z : DstTzInfo) (t : datetime) (tz : tzinfo) :
  dt_tzinfo t = Some tz ->
  tz_zone tz = Some (zone z) ->
  (on_time_line (datetime_as_delta t - tz_utcoffset tz) ->
   exists u, to_utc_time z (PyDatetime t) = Ok (PyDatetime u) /\
             valid_datetime u /\ dt_tzinfo u = None /\
             datetime_as_delta u = datetime_as_delta t - tz_utcoffset tz) /\
  (~ on_time_line (datetime_as_delta t - tz_utcoffset tz) ->
   to_utc_time z (PyDatetime t) = Raise OverflowError).
Proof.
  intros Htz Hz. unfold to_utc_time. rewrite Htz, Hz, String.eqb_refl.
  cbn [bind]. unfold astimezone_utc. rewrite Htz. unfold datetime_sub.
  split; intros Hl.
  - destruct (datetime_add_on_time_line t (- tz_utcoffset tz))
      as (u & Hu & Hvu & Hpu & _); [exact Hl|].
    rewrite Hu. cbn [bind]. unfold utc_fromutc.
    destruct (datetime_add_on_time_line (replace_tzinfo u (Some utc)) 0)
      as (r & Hr & Hvr & Hpr & _).
    { rewrite replace_tzinfo_as_delta, Hpu, Z.add_0_r. exact Hl. }
    rewrite Hr. cbn [bind]. eexists. split; [reflexivity|].
    split; [exact (replace_tzinfo_valid r None Hvr)|].
    split; [reflexivity|].
    rewrite replace_tzinfo_as_delta, Hpr, replace_tzinfo_as_delta, Hpu. lia.
  - rewrite datetime_add_overflow by exact Hl. reflexivity.
Qed.

Lemma to_utc_time_subtracts_the_tag_offset_witness :
  let bst := mk_tzinfo (Some "Europe/London") 3600000000 3600000000 "BST" in
  (exists u,
     to_utc_time london_excerpt
       (PyDatetime (mk_datetime 2024 7 1 13 0 0 0 (Some bst)))
     = Ok (PyDatetime u) /\
     valid_datetime u /\ dt_tzinfo u = None /\
     datetime_as_delta u
     = datetime_as_delta (mk_datetime 2024 7 1 13 0 0 0 (Some bst))
       - 3600000000) /\
  to_utc_time london_excerpt
    (PyDatetime (mk_datetime 1 1 1 0 30 0 0 (Some bst)))
  = Raise OverflowError.
Proof.
  intros bst. split.
  - destruct (to_utc_time_subtracts_the_tag_offset london_excerpt
                (mk_datetime 2024 7 1 13 0 0 0 (Some bst)) bst
                eq_refl eq_refl) as [Hin _].
    apply Hin. vm_compute. split; [discriminate|reflexivity].
  - destruct (to_utc_time_subtracts_the_tag_offset london_excerpt
                (mk_datetime 1 1 1 0 30 0 0 (Some bst)) bst
                eq_refl eq_refl) as [_ Hout].
    apply Hout. vm_compute. intros [H _]. apply H. reflexivity.
Defined.

(** X24: neither conversion ever returns a tagged timestamp: a result
    is a timestamp without [tzinfo], or the value that was passed in
    when that is not a timestamp. *)
Theorem conversions_never_return_a_tag (local : DstTzInfo) (v : pyvalue) :
  match to_local_time local v with
  | Ok (PyDatetime r) => dt_tzinfo r = None
  | Ok r => r = v
  | Raise _ => True
  end /\
  match to_utc_time local v with
  | Ok (PyDatetime r) => dt_tzinfo r = None
  | Ok r => r = v
  | Raise _ => True
  end.
Proof.
  destruct v as [|d|t]; [split; reflexivity | split; reflexivity |].
  split.
  - destruct (to_local_time local (PyDatetime t)) as [r|e] eqn:E; [|exact I].
    destruct (conversions_return_naive local t r (or_introl E))
      as (r' & -> & Hn).
    exact Hn.
  - destruct (to_utc_time local (PyDatetime t)) as [r|e] eqn:E; [|exact I].
    destruct (conversions_return_naive local t r (or_intror E))
      as (r' & -> & Hn).
    exact Hn.
Qed.

(** X25 (witness): a timestamp tagged [datetime.timezone.utc], which
    has no [zone]. *)
Lemma conversions_need_zone_attribute_witness :
  let t := mk_datetime 2024 1 15 12 0 0 0 (Some (mk_tzinfo None 0 0 "UTC")) in
  to_local_time london_excerpt (PyDatetime t) = Raise AttributeError /\
  to_utc_time london_excerpt (PyDatetime t) = Raise AttributeError.
Proof.
  intros t.
  apply (conversions_need_zone_attribute london_excerpt t
           (mk_tzinfo None 0 0 "UTC")); reflexivity.
Defined.
